(** * Job-Posting-Dashboards: normalisation, date parsing, filtering

    A shallow embedding of the three scripts of the repository
    ([testdash.py], [testdash2.py], [main_dash.py]) and of the Python and
    pandas operations they call, followed by the properties of the
    specification checked against them.

    Conventions of the model.
    - A Python [str] is a [string]; each [ascii] is one code point of the
      Latin-1 range (0..255).  [str.lower], [str.strip], [str.split] and
      [int] are given on that range as CPython defines them.
    - A [datetime] is the number of microseconds since 0001-01-01T00:00:00;
      the type holds the instants of the years 1..9999.
    - A cell of a frame is text, a timestamp or missing.  In the frames of
      [main_dash.py] a timestamp cell stands for any value that is not text,
      such as the numbers gspread makes of numeric cells in
      [get_all_records]: such values compare among themselves and not with
      text.
    - pandas fixes no order among equal counts or equal timestamps: the
      sort behind [value_counts] is a parameter where the order of a
      ranking is described, and stable where only the counts matter.
    - Exceptions are explicit: a computation returns [Ok v] or [Raise e]. *)

From Stdlib Require Import ZArith NArith List String Ascii Bool Lia Arith.
From Stdlib Require Import Sorting.Sorted Sorting.Permutation.
Import ListNotations.

Local Open Scope string_scope.
Local Open Scope list_scope.
Local Open Scope Z_scope.

(** ** Exceptions *)

Inductive exn : Type :=
| ValueError
| TypeError
| OverflowError
| KeyError
| AttributeError
| IndexError.

Inductive outcome (A : Type) : Type :=
| Ok (a : A)
| Raise (e : exn).

Arguments Ok {A} a.
Arguments Raise {A} e.

Definition bind {A B : Type} (m : outcome A) (k : A -> outcome B) : outcome B :=
  match m with
  | Ok a => k a
  | Raise e => Raise e
  end.

Notation "x <- m ;; k" := (bind m (fun x => k))
  (at level 61, m at next level, right associativity).

(** ** Python strings and integers *)

Module Py.

Definition code (c : ascii) : N := N_of_ascii c.

(** [str.isspace] on one code point: U+0009..U+000D, U+001C..U+0020,
    U+0085 and U+00A0. *)
Definition isspace (c : ascii) : bool :=
  let n := code c in
  ((9 <=? n) && (n <=? 13) || (28 <=? n) && (n <=? 32)
   || (n =? 133) || (n =? 160))%N.

(** [str.lower] on one code point: A..Z and the Latin-1 capitals
    U+00C0..U+00DE (without the multiplication sign U+00D7). *)
Definition lower_char (c : ascii) : ascii :=
  let n := code c in
  if ((65 <=? n) && (n <=? 90) || (192 <=? n) && (n <=? 214)
      || (216 <=? n) && (n <=? 222))%N
  then ascii_of_N (n + 32) else c.

Fixpoint lower (s : string) : string :=
  match s with
  | EmptyString => EmptyString
  | String c r => String (lower_char c) (lower r)
  end.

(** Dropping the characters of a class at the start and at the end. *)
Fixpoint lstrip_with (space : ascii -> bool) (s : string) : string :=
  match s with
  | EmptyString => EmptyString
  | String c r => if space c then lstrip_with space r else s
  end.

Fixpoint rstrip_with (space : ascii -> bool) (s : string) : string :=
  match s with
  | EmptyString => EmptyString
  | String c r =>
      match rstrip_with space r with
      | EmptyString => if space c then EmptyString else String c EmptyString
      | r' => String c r'
      end
  end.

Definition strip_with (space : ascii -> bool) (s : string) : string :=
  rstrip_with space (lstrip_with space s).

(** [s.strip()] *)
Definition strip (s : string) : string := strip_with isspace s.

(** [p in s]: [p] occurs in [s] as a substring. *)
Fixpoint contains (p s : string) : bool :=
  String.prefix p s ||
  match s with
  | EmptyString => false
  | String _ r => contains p r
  end.

(** [s.split()]: the maximal runs of characters that are not white space. *)
Fixpoint split (s : string) : list string :=
  match s with
  | EmptyString => []
  | String c r =>
      if isspace c then split r
      else match r with
           | EmptyString => [String c EmptyString]
           | String d _ =>
               if isspace d then String c EmptyString :: split r
               else match split r with
                    | w :: ws => String c w :: ws
                    | [] => [String c EmptyString]
                    end
           end
  end.

(** [s.split(sep)] for a separator of one character. *)
Fixpoint split_on (sep : ascii) (s : string) : list string :=
  match s with
  | EmptyString => [EmptyString]
  | String c r =>
      if Ascii.eqb c sep then EmptyString :: split_on sep r
      else match split_on sep r with
           | w :: ws => String c w :: ws
           | [] => [String c EmptyString]
           end
  end.

(** [l[0]] *)
Definition item0 {A : Type} (l : list A) : outcome A :=
  match l with
  | x :: _ => Ok x
  | [] => Raise IndexError
  end.

Definition digit_of (c : ascii) : option Z :=
  let n := code c in
  if ((48 <=? n) && (n <=? 57))%N then Some (Z.of_N n - 48) else None.

(** The digits of an integer literal: decimal digits with single
    underscores between them.  [sep] tells that the previous position was
    an underscore or the start, where an underscore or the end is refused.
    Returns the value and the number of digits read. *)
Fixpoint int_digits (s : string) (acc : Z) (count : nat) (sep : bool)
  : option (Z * nat) :=
  match s with
  | EmptyString => if sep then None else Some (acc, count)
  | String c r =>
      if Ascii.eqb c "_" then
        if sep then None else int_digits r acc count true
      else match digit_of c with
           | Some d => int_digits r (10 * acc + d) (S count) false
           | None => None
           end
  end.

(** [sys.int_info.default_max_str_digits] *)
Definition max_str_digits : nat := 4300.

Definition split_sign (t : string) : Z * string :=
  match t with
  | String "+" r => (1, r)
  | String "-" r => (-1, r)
  | _ => (1, t)
  end.

(** The white space [int] skips around a literal: the C white space, and
    the white space beyond ASCII, which [int] first turns into blanks.
    U+001C..U+001F are white space for [str] and not for [int]. *)
Definition int_space (c : ascii) : bool :=
  let n := code c in
  ((9 <=? n) && (n <=? 13) || (n =? 32) || (n =? 133) || (n =? 160))%N.

(** [int(s)]: white space around, an optional sign, then the digits. *)
Definition int (s : string) : outcome Z :=
  let '(sign, body) := split_sign (strip_with int_space s) in
  match int_digits body 0 0 true with
  | Some (v, n) =>
      if (n <=? max_str_digits)%nat then Ok (sign * v) else Raise ValueError
  | None => Raise ValueError
  end.

Definition digit_char (d : Z) : ascii := ascii_of_N (Z.to_N (48 + d)).

Fixpoint decimal_aux (fuel : nat) (n : Z) (acc : string) : string :=
  match fuel with
  | O => acc
  | S f =>
      let acc' := String (digit_char (n mod 10)) acc in
      if n <? 10 then acc' else decimal_aux f (n / 10) acc'
  end.

(** [str(n)] for an integer that is not negative: its decimal numeral. *)
Definition decimal (n : Z) : string :=
  decimal_aux (S (Z.to_nat (Z.log2 n))) n EmptyString.

(** *** datetime *)

Definition datetime : Type := Z.

Definition us_per_day : Z := 86400000000.

(** [date.max.toordinal()] is 3652059; ordinal 1 is 0001-01-01. *)
Definition max_ordinal : Z := 3652059.

Definition in_range (t : datetime) : bool :=
  (0 <=? t) && (t <? max_ordinal * us_per_day).

Definition is_leap (y : Z) : bool :=
  (y mod 4 =? 0) && (negb (y mod 100 =? 0) || (y mod 400 =? 0)).

Definition days_before_year (y : Z) : Z :=
  let y1 := y - 1 in y1 * 365 + y1 / 4 - y1 / 100 + y1 / 400.

Definition days_before_month (y m : Z) : Z :=
  nth (Z.to_nat m) [0; 0; 31; 59; 90; 120; 151; 181; 212; 243; 273; 304; 334] 0
  + (if (2 <? m) && is_leap y then 1 else 0).

(** [datetime(y, m, d)] at midnight. *)
Definition datetime_ymd (y m d : Z) : datetime :=
  (days_before_year y + days_before_month y m + d - 1) * us_per_day.

(** [timedelta(days=d)], a duration in microseconds. *)
Definition timedelta_days (d : Z) : outcome Z :=
  if Z.abs d <=? 999999999 then Ok (d * us_per_day) else Raise OverflowError.

(** [timedelta(weeks=w)] *)
Definition timedelta_weeks (w : Z) : outcome Z := timedelta_days (7 * w).

(** [t - delta] on a datetime. *)
Definition datetime_sub (t : datetime) (delta : Z) : outcome datetime :=
  if in_range (t - delta) then Ok (t - delta) else Raise OverflowError.

(** [s.replace(old, new)] for two single characters. *)
Fixpoint replace_char (old new : ascii) (s : string) : string :=
  match s with
  | EmptyString => EmptyString
  | String c r =>
      String (if Ascii.eqb c old then new else c) (replace_char old new r)
  end.

End Py.

(** ** pandas: cells and frames *)

(** A cell holds text, a timestamp, or is missing ([NaN], [NaT], [None]). *)
Inductive cell : Type :=
| Str (s : string)
| Time (t : Py.datetime)
| NaN.

Definition notna (c : cell) : bool :=
  match c with
  | NaN => false
  | _ => true
  end.

Definition cell_eqb (a b : cell) : bool :=
  match a, b with
  | Str s, Str t => String.eqb s t
  | Time s, Time t => Z.eqb s t
  | NaN, NaN => true
  | _, _ => false
  end.

Module Pandas.

(** One record of a frame: its labelled cells, as [to_dict("records")]
    gives them. *)
Definition row : Type := list (string * cell).

Record DataFrame : Type := mkFrame {
  columns : list string;
  rows : list row
}.

Fixpoint row_get (name : string) (r : row) : cell :=
  match r with
  | [] => NaN
  | (k, v) :: t => if String.eqb k name then v else row_get name t
  end.

Fixpoint row_set (name : string) (v : cell) (r : row) : row :=
  match r with
  | [] => []
  | (k, x) :: t => (k, if String.eqb k name then v else x) :: row_set name v t
  end.

(** Writing a cell: every cell of that label is overwritten, a new label is
    added at the end. *)
Definition row_put (name : string) (v : cell) (r : row) : row :=
  if existsb (String.eqb name) (map fst r) then row_set name v r
  else r ++ [(name, v)].

Definition has_column (name : string) (cols : list string) : bool :=
  existsb (String.eqb name) cols.

Fixpoint occurrences (name : string) (cols : list string) : nat :=
  match cols with
  | [] => O
  | c :: t => if String.eqb c name then S (occurrences name t)
              else occurrences name t
  end.

(** [pd.DataFrame(data, columns=header)]; pandas refuses a row whose length
    differs from the header's. *)
Definition from_values (header : list string) (data : list (list string))
  : outcome DataFrame :=
  if forallb (fun vals => Nat.eqb (List.length vals) (List.length header)) data
  then Ok (mkFrame header (map (fun vals => combine header (map Str vals)) data))
  else Raise ValueError.

(** [df[name]] used as a Series.  With a label that occurs twice pandas
    hands back a frame, and the Series method called next raises; the model
    reports that as [AttributeError]. *)
Definition series (df : DataFrame) (name : string) : outcome (list cell) :=
  match occurrences name (columns df) with
  | O => Raise KeyError
  | S O => Ok (map (row_get name) (rows df))
  | _ => Raise AttributeError
  end.

Fixpoint zip_with {A B C : Type} (f : A -> B -> C) (l : list A) (m : list B)
  : list C :=
  match l, m with
  | a :: l', b :: m' => f a b :: zip_with f l' m'
  | _, _ => []
  end.

(** [df[name] = values] *)
Definition assign (df : DataFrame) (name : string) (values : list cell)
  : DataFrame :=
  mkFrame (if has_column name (columns df) then columns df
           else columns df ++ [name])
          (zip_with (row_put name) values (rows df)).

(** Renaming the labels through [f]: [df.columns = ...] and [df.rename]. *)
Definition rename_with (f : string -> string) (df : DataFrame) : DataFrame :=
  mkFrame (map f (columns df))
          (map (map (fun kv => (f (fst kv), snd kv))) (rows df)).

(** [df.dropna(subset=[name])] *)
Definition dropna (df : DataFrame) (name : string) : outcome DataFrame :=
  if has_column name (columns df)
  then Ok (mkFrame (columns df)
                   (filter (fun r => notna (row_get name r)) (rows df)))
  else Raise KeyError.

(** [df[mask]] with a boolean mask, one entry per row. *)
Definition select (df : DataFrame) (mask : list bool) : DataFrame :=
  mkFrame (columns df)
          (map snd (filter (fun br => fst br) (combine mask (rows df)))).

(** [df.empty] *)
Definition empty (df : DataFrame) : bool :=
  match columns df, rows df with
  | _ :: _, _ :: _ => false
  | _, _ => true
  end.

(** [Series.str.<method>()] with a method from text to text: what is not
    text becomes missing. *)
Definition str_map (f : string -> string) (c : cell) : cell :=
  match c with
  | Str s => Str (f s)
  | _ => NaN
  end.

(** [Series.str.split(sep).str[0]]: the first piece of each text. *)
Definition str_split_first (sep : ascii) (s : string) : string :=
  match Py.split_on sep s with
  | w :: _ => w
  | [] => EmptyString
  end.

(** [Series.dropna()] *)
Definition series_dropna (s : list cell) : list cell := filter notna s.

(** The hash table behind [unique] and [value_counts]: the keys stay in
    the order in which they were first seen. *)
Fixpoint bump (x : cell) (tbl : list (cell * nat)) : list (cell * nat) :=
  match tbl with
  | [] => [(x, 1%nat)]
  | (y, n) :: t => if cell_eqb y x then (y, S n) :: t else (y, n) :: bump x t
  end.

Definition tally (s : list cell) : list (cell * nat) :=
  fold_left (fun tbl x => bump x tbl) s [].

(** [Series.unique()] *)
Definition unique (s : list cell) : list cell := map fst (tally s).

(** [Series.nunique()] *)
Definition nunique (s : list cell) : nat :=
  List.length (unique (series_dropna s)).

(** Sorting in descending order of a key.  pandas sorts the reversed
    sequence in ascending order with numpy and reverses the result, so that
    entries of equal key keep their order whenever numpy's sort is stable,
    as its insertion sort on short sequences is.  The model takes the sort
    as stable. *)
Section SortDescending.
Context {A : Type} (key : A -> Z).

Fixpoint insert_desc (x : A) (l : list A) : list A :=
  match l with
  | [] => [x]
  | y :: t => if key y <=? key x then x :: y :: t else y :: insert_desc x t
  end.

Fixpoint sort_desc (l : list A) : list A :=
  match l with
  | [] => []
  | x :: t => insert_desc x (sort_desc t)
  end.
End SortDescending.

(** [Series.value_counts()]: missing values left out, one entry per
    distinct value with its count, the largest count first.  pandas counts
    in a hash table and hands the counts to numpy's sort; it promises no
    order among equal counts, and numpy's default sort is not stable on
    longer sequences.  The sort is therefore a parameter here, and what is
    said of the order of a ranking is said for every sort. *)
Definition value_counts_by (sort : list (cell * nat) -> list (cell * nat))
           (s : list cell) : list (cell * nat) :=
  sort (tally (series_dropna s)).

(** The ranking with the sort taken as stable, as numpy's insertion sort
    on short sequences is: one of the rankings pandas may give. *)
Definition sort_stable : list (cell * nat) -> list (cell * nat) :=
  sort_desc (fun e => Z.of_nat (snd e)).

Definition value_counts (s : list cell) : list (cell * nat) :=
  value_counts_by sort_stable s.

(** [.head(n)] *)
Definition head {A : Type} (n : nat) (l : list A) : list A := firstn n l.

(** [df.sort_values(by=name, ascending=False)]: the rows with a timestamp
    under [name], latest first, then the rows without one.  The order of
    rows with the same timestamp is the sort's, taken as stable here; the
    timestamps of the model are all of one kind, without time zone. *)
Definition time_key (name : string) (r : row) : Z :=
  match row_get name r with
  | Time t => t
  | _ => 0
  end.

Definition sort_values_desc (df : DataFrame) (name : string)
  : outcome DataFrame :=
  if has_column name (columns df)
  then Ok (mkFrame (columns df)
             (sort_desc (time_key name)
                (filter (fun r => notna (row_get name r)) (rows df))
              ++ filter (fun r => negb (notna (row_get name r))) (rows df)))
  else Raise KeyError.

End Pandas.

Import Pandas.

(** ** The scripts *)

(** How a script run ends: with its result, by [exit()] after a message, or
    with an exception nobody caught. *)
Inductive message : Type :=
| EmptySheet
| MissingColumns (missing : list string).

Inductive run (A : Type) : Type :=
| Done (a : A)
| Exited (m : message)
| Crashed (e : exn).

Arguments Done {A} a.
Arguments Exited {A} m.
Arguments Crashed {A} e.

Definition run_of {A : Type} (o : outcome A) : run A :=
  match o with
  | Ok a => Done a
  | Raise e => Crashed e
  end.

Definition run_bind {A B : Type} (m : run A) (k : A -> run B) : run B :=
  match m with
  | Done a => k a
  | Exited msg => Exited msg
  | Crashed e => Crashed e
  end.

Fixpoint dict_get (k : string) (d : list (string * string)) : option string :=
  match d with
  | [] => None
  | (k', v) :: t => if String.eqb k' k then Some v else dict_get k t
  end.

Fixpoint dict_set (k v : string) (d : list (string * string))
  : list (string * string) :=
  match d with
  | [] => [(k, v)]
  | (k', v') :: t => if String.eqb k' k then (k', v) :: t
                     else (k', v') :: dict_set k v t
  end.

(** [df.rename(columns=mapping)] *)
Definition rename_columns (mapping : list (string * string)) (df : DataFrame)
  : DataFrame :=
  rename_with (fun c => match dict_get c mapping with
                        | Some v => v
                        | None => c
                        end) df.

(** [df.columns = df.columns.str.strip().str.lower()] *)
Definition normalize_columns (df : DataFrame) : DataFrame :=
  rename_with (fun c => Py.lower (Py.strip c)) df.

(** The aggregates both reporting scripts compute. *)
Record summary : Type := mkSummary {
  total_postings : nat;
  unique_companies : nat;
  unique_places : nat;
  status_counts : list (cell * nat);
  top_companies : list (cell * nat);
  top_places : list (cell * nat);
  city_counts : list (cell * nat)
}.

Fixpoint mapM {A B : Type} (f : A -> outcome B) (l : list A)
  : outcome (list B) :=
  match l with
  | [] => Ok []
  | x :: t => y <- f x ;; ys <- mapM f t ;; Ok (y :: ys)
  end.

(** [int(text.split()[0])] *)
Definition first_int (text : string) : outcome Z :=
  w <- Py.item0 (Py.split text) ;; Py.int w.

(** The header table of [testdash.py] and [testdash2.py]. *)
Definition expected_columns : list (string * string) :=
  [("job postings", "job_postings");
   ("company", "company");
   ("place", "place");
   ("status", "status");
   ("posted on", "posted_on");
   ("url link", "url_link")].

(** [[col for col in expected_columns.values() if col not in df.columns]] *)
Definition missing_cols (df : DataFrame) : list string :=
  filter (fun col => negb (has_column col (columns df)))
         (map snd expected_columns).

(** *** testdash.py *)

Module Testdash.

Section Script.
(** [pd.to_datetime] on one string: the timestamp it reads, or [None]
    where it reads none (it then raises a [ValueError], or gives [NaT]
    under [errors="coerce"] and for an empty string). *)
Variable pd_to_datetime : string -> option Py.datetime.

Definition column_mapping (cols : list string) : list (string * string) :=
  fold_left
    (fun mapping actual_col =>
       fold_left
         (fun mapping expected =>
            if String.eqb (Py.lower actual_col) (Py.lower (fst expected))
            then dict_set actual_col (snd expected) mapping
            else mapping)
         expected_columns mapping)
    cols [].

Definition to_datetime (date_str : string) : outcome cell :=
  match pd_to_datetime date_str with
  | Some t => Ok (Time t)
  | None => Raise ValueError
  end.

(** The body of the [try] of [parse_relative_date]. *)
Definition parse_body (date_str : string) (reference_date : Py.datetime)
  : outcome cell :=
  if Py.contains "ago" (Py.lower date_str) then
    if Py.contains "month" (Py.lower date_str) then
      months <- first_int date_str ;;
      delta <- Py.timedelta_days (months * 30) ;;
      t <- Py.datetime_sub reference_date delta ;;
      Ok (Time t)
    else if Py.contains "week" (Py.lower date_str) then
      weeks <- first_int date_str ;;
      delta <- Py.timedelta_weeks weeks ;;
      t <- Py.datetime_sub reference_date delta ;;
      Ok (Time t)
    else if Py.contains "day" (Py.lower date_str) then
      days <- first_int date_str ;;
      delta <- Py.timedelta_days days ;;
      t <- Py.datetime_sub reference_date delta ;;
      Ok (Time t)
    else to_datetime date_str
  else to_datetime date_str.

(** [except (ValueError, TypeError): return pd.NaT] *)
Definition parse_relative_date (date_str : string)
           (reference_date : option Py.datetime) : outcome cell :=
  let reference_date :=
    match reference_date with
    | None => Py.datetime_ymd 2025 9 5
    | Some r => r
    end in
  match parse_body date_str reference_date with
  | Raise ValueError | Raise TypeError => Ok NaN
  | r => r
  end.

(** One step of [df['posted_on'].apply(parse_relative_date)]; a cell that
    is not text has no [lower]. *)
Definition apply_parse (c : cell) : outcome cell :=
  match c with
  | Str s => parse_relative_date s None
  | _ => Raise AttributeError
  end.

(** Lines 95 to 102. *)
Definition clean (df : DataFrame) : outcome DataFrame :=
  posted <- series df "posted_on" ;;
  parsed <- mapM apply_parse posted ;;
  let df := assign df "posted_on" parsed in
  df <- dropna df "posted_on" ;;
  titles <- series df "job_postings" ;;
  let df := assign df "job_postings" (map (str_map Py.strip) titles) in
  companies <- series df "company" ;;
  let df := assign df "company" (map (str_map Py.strip) companies) in
  places <- series df "place" ;;
  let df := assign df "place" (map (str_map Py.strip) places) in
  places <- series df "place" ;;
  let df :=
    assign df "city"
      (map (str_map Py.strip) (map (str_map (str_split_first ",")) places)) in
  Ok df.

(** Lines 105 to 111, for a sort of the counts. *)
Definition insights_by (sort : list (cell * nat) -> list (cell * nat))
           (df : DataFrame) : outcome summary :=
  company <- series df "company" ;;
  place <- series df "place" ;;
  status <- series df "status" ;;
  city <- series df "city" ;;
  Ok (mkSummary (List.length (rows df))
                (nunique company)
                (nunique place)
                (value_counts_by sort status)
                (head 5 (value_counts_by sort company))
                (head 5 (value_counts_by sort place))
                (head 5 (value_counts_by sort city))).

Definition insights (df : DataFrame) : outcome summary :=
  insights_by sort_stable df.

(** The script from the fetched values [data] to its aggregates. *)
Definition main (data : list (list string)) : run (DataFrame * summary) :=
  match data with
  | [] | [_] => Exited EmptySheet
  | header :: body =>
      run_bind (run_of (from_values header body)) (fun df =>
      let df := normalize_columns df in
      let df := rename_columns (column_mapping (columns df)) df in
      match missing_cols df with
      | [] => run_of (df <- clean df ;; s <- insights df ;; Ok (df, s))
      | missing => Exited (MissingColumns missing)
      end)
  end.
End Script.

End Testdash.

(** *** testdash2.py *)

Module Testdash2.

Record figures : Type := mkFigures {
  fig_status : list (cell * nat);
  fig_companies : list (cell * nat);
  fig_places : list (cell * nat);
  fig_cities : list (cell * nat)
}.

Section Script.
Variable pd_to_datetime : string -> option Py.datetime.
(** [datetime.now()] at the i-th call of the parser. *)
Variable now : nat -> Py.datetime.

(** [pd.to_datetime(date_str, errors="coerce")] *)
Definition to_datetime (date_str : string) : outcome cell :=
  match pd_to_datetime date_str with
  | Some t => Ok (Time t)
  | None => Ok NaN
  end.

Definition parse_body (date_str : string) (reference_date : Py.datetime)
  : outcome cell :=
  let s := Py.lower date_str in
  if Py.contains "ago" s then
    if Py.contains "month" s then
      months <- first_int s ;;
      delta <- Py.timedelta_days (months * 30) ;;
      t <- Py.datetime_sub reference_date delta ;;
      Ok (Time t)
    else if Py.contains "week" s then
      weeks <- first_int s ;;
      delta <- Py.timedelta_weeks weeks ;;
      t <- Py.datetime_sub reference_date delta ;;
      Ok (Time t)
    else if Py.contains "day" s then
      days <- first_int s ;;
      delta <- Py.timedelta_days days ;;
      t <- Py.datetime_sub reference_date delta ;;
      Ok (Time t)
    else to_datetime date_str
  else to_datetime date_str.

(** [except Exception: return pd.NaT] *)
Definition parse_relative_date (call : nat) (date_str : string)
           (reference_date : option Py.datetime) : outcome cell :=
  let reference_date :=
    match reference_date with
    | None => now call
    | Some r => r
    end in
  match parse_body date_str reference_date with
  | Raise _ => Ok NaN
  | r => r
  end.

(** [df['posted_on'].apply(parse_relative_date)], the calls numbered from
    [call]; a cell that is not text has no [lower], which the parser's
    own handler turns into [NaT]. *)
Fixpoint apply_parse (call : nat) (posted : list cell)
  : outcome (list cell) :=
  match posted with
  | [] => Ok []
  | c :: t =>
      y <- match c with
           | Str s => parse_relative_date call s None
           | _ => Ok NaN
           end ;;
      ys <- apply_parse (S call) t ;;
      Ok (y :: ys)
  end.

(** Lines 81 to 87. *)
Definition clean (df : DataFrame) : outcome DataFrame :=
  posted <- series df "posted_on" ;;
  parsed <- apply_parse 0 posted ;;
  let df := assign df "posted_on" parsed in
  df <- dropna df "posted_on" ;;
  titles <- series df "job_postings" ;;
  let df := assign df "job_postings" (map (str_map Py.strip) titles) in
  companies <- series df "company" ;;
  let df := assign df "company" (map (str_map Py.strip) companies) in
  places <- series df "place" ;;
  let df := assign df "place" (map (str_map Py.strip) places) in
  places <- series df "place" ;;
  let df :=
    assign df "city"
      (map (str_map Py.strip) (map (str_map (str_split_first ",")) places)) in
  sort_values_desc df "posted_on".

(** The count tables of [make_figures] (lines 94 to 104), for a sort of
    the counts. *)
Definition make_figures_by (sort : list (cell * nat) -> list (cell * nat))
           (filtered_df : DataFrame) : outcome figures :=
  status <- series filtered_df "status" ;;
  company <- series filtered_df "company" ;;
  place <- series filtered_df "place" ;;
  city <- series filtered_df "city" ;;
  Ok (mkFigures (value_counts_by sort status)
                (head 5 (value_counts_by sort company))
                (head 5 (value_counts_by sort place))
                (head 5 (value_counts_by sort city))).

Definition make_figures (filtered_df : DataFrame) : outcome figures :=
  make_figures_by sort_stable filtered_df.

(** The script up to the frame the dashboard is built on. *)
Definition main (data : list (list string)) : run DataFrame :=
  match data with
  | [] | [_] => Exited EmptySheet
  | header :: body =>
      run_bind (run_of (from_values header body)) (fun df =>
      let df := normalize_columns df in
      let df := rename_columns expected_columns df in
      match missing_cols df with
      | [] => run_of (clean df)
      | missing => Exited (MissingColumns missing)
      end)
  end.
End Script.

End Testdash2.

(** *** main_dash.py *)

Module MainDash.

Definition renames : list (string * string) :=
  [("job postings", "job_postings");
   ("company", "company");
   ("place", "place");
   ("status", "status");
   ("posted on", "posted_on");
   ("url link", "url_link");
   ("job_description", "job_description")].

(** [load_data]: [fetched] is the frame built from the sheet's records, or
    the exception raised on the way; any exception gives an empty frame. *)
Definition load_data (fetched : outcome DataFrame) : DataFrame :=
  match fetched with
  | Ok df => rename_columns renames (normalize_columns df)
  | Raise _ => mkFrame [] []
  end.

Definition cell_text (c : cell) : string :=
  match c with
  | Str s => s
  | _ => EmptyString
  end.

(** [a <= b] as [sorted] asks it: texts compare by code point and values
    that are not text by value; between a text and a value that is not
    text [<] raises [TypeError].  The missing values are dropped before the
    sort, so that none is compared. *)
Definition cell_leb (a b : cell) : outcome bool :=
  match a, b with
  | Str s, Str t => Ok (String.leb s t)
  | Time s, Time t => Ok (s <=? t)
  | _, _ => Raise TypeError
  end.

Fixpoint insert_sorted (x : cell) (l : list cell) : outcome (list cell) :=
  match l with
  | [] => Ok [x]
  | y :: t =>
      le <- cell_leb x y ;;
      if le then Ok (x :: y :: t)
      else t' <- insert_sorted x t ;; Ok (y :: t')
  end.

(** [sorted(...)] on the values of a column: it raises on a column that
    mixes text with values that are not. *)
Fixpoint sorted (l : list cell) : outcome (list cell) :=
  match l with
  | [] => Ok []
  | x :: t => t' <- sorted t ;; insert_sorted x t'
  end.

(** [sorted(df[name].dropna().unique())] *)
Definition options (df : DataFrame) (name : string) : outcome (list cell) :=
  s <- series df name ;; sorted (unique (series_dropna s)).

(** A value of a multi-select dropdown or of the text input is used when it
    is truthy: not [None], not empty. *)
Definition chosen (v : option (list string)) : list string :=
  match v with
  | Some l => l
  | None => []
  end.

Definition typed (v : option string) : string :=
  match v with
  | Some s => s
  | None => EmptyString
  end.

Definition nonempty (s : string) : bool :=
  match s with
  | EmptyString => false
  | _ => true
  end.

(** [df[name].isin(values)] on one cell *)
Definition isin (values : list string) (c : cell) : bool :=
  match c with
  | Str s => existsb (String.eqb s) values
  | _ => false
  end.

(** [filtered_df = filtered_df[filtered_df[name].isin(values)]] *)
Definition filter_isin (df : DataFrame) (name : string) (values : list string)
  : outcome DataFrame :=
  match values with
  | [] => Ok df
  | _ :: _ => s <- series df name ;; Ok (select df (map (isin values) s))
  end.

(** [[k.strip().lower() for k in keywords.split(",") if k.strip()]] *)
Definition terms_of (keywords : string) : list string :=
  map (fun k => Py.lower (Py.strip k))
      (filter (fun k => nonempty (Py.strip k)) (Py.split_on "," keywords)).

(** [any(term in text for term in terms)] on one cell of
    [fillna("").str.lower()]: a missing cell is the empty text; a cell that
    is not text is [NaN] after [str.lower], and [in] raises on it. *)
Definition any_term (terms : list string) (c : cell) : outcome bool :=
  match c with
  | Str s => Ok (existsb (fun term => Py.contains term (Py.lower s)) terms)
  | NaN => Ok (existsb (fun term => Py.contains term EmptyString) terms)
  | Time _ => match terms with
              | [] => Ok false
              | _ :: _ => Raise TypeError
              end
  end.

Definition filter_keywords (df : DataFrame) (keywords : string)
  : outcome DataFrame :=
  if nonempty keywords then
    let terms := terms_of keywords in
    s <- series df "job_description" ;;
    mask <- mapM (any_term terms) s ;;
    Ok (select df mask)
  else Ok df.

Record table_update : Type := mkUpdate {
  company_options : list cell;
  place_options : list cell;
  status_options : list cell;
  data : list row
}.

(** [update_table], with the result of the fetch as an input. *)
Definition update_table (fetched : outcome DataFrame)
           (companies places statuses : option (list string))
           (keywords : option string) : outcome table_update :=
  let df := load_data fetched in
  if empty df then Ok (mkUpdate [] [] [] [])
  else
    company_options <- options df "company" ;;
    place_options <- options df "place" ;;
    status_options <- options df "status" ;;
    filtered_df <- filter_isin df "company" (chosen companies) ;;
    filtered_df <- filter_isin filtered_df "place" (chosen places) ;;
    filtered_df <- filter_isin filtered_df "status" (chosen statuses) ;;
    filtered_df <- filter_keywords filtered_df (typed keywords) ;;
    Ok (mkUpdate company_options place_options status_options
                 (rows filtered_df)).

(** The drawer of [main_dash.py]. *)

(** [row.get(name, default)] on a record of the table; a cell is there or
    the text [default] is taken. *)
Fixpoint row_find (name : string) (r : row) : option cell :=
  match r with
  | [] => None
  | (k, v) :: t => if String.eqb k name then Some v else row_find name t
  end.

Definition get_default (name default : string) (r : row) : cell :=
  match row_find name r with
  | Some c => c
  | None => Str default
  end.

(** What stands under "Job Description": the list of bullet points, or the
    paragraph "No description available.". *)
Inductive description_view : Type :=
| Bullets (items : list string)
| NoDescription.

Definition newline : ascii := ascii_of_N 10.

(** Lines 166 to 171; a missing description is [None], and a cell that is
    not text has no [strip]. *)
Definition describe (description : cell) : outcome description_view :=
  match description with
  | Str s =>
      if nonempty s && nonempty (Py.strip s) then
        Ok (Bullets
              (map Py.strip
                 (filter (fun part => nonempty (Py.strip part))
                    (Py.split_on "," (Py.replace_char newline " " s)))))
      else Ok NoDescription
  | NaN => Ok NoDescription
  | Time _ => Raise AttributeError
  end.

(** The values the drawer shows, before they are laid out. *)
Record drawer : Type := mkDrawer {
  shown_title : cell;
  shown_company : cell;
  shown_place : cell;
  shown_status : cell;
  shown_posted_on : cell;
  shown_link : cell;
  shown_description : description_view
}.

(** [display_drawer]: the new style of the drawer and its children. *)
Definition display_drawer (selected_rows : option (list nat))
           (table_data : option (list row))
           (drawer_style : list (string * string))
  : outcome (list (string * string) * option drawer) :=
  match selected_rows, table_data with
  | Some (i :: _), Some (r0 :: rs) =>
      match nth_error (r0 :: rs) i with
      | None => Raise IndexError
      | Some r =>
          desc_content <-
            describe (get_default "job_description"
                        "No description available" r) ;;
          Ok (dict_set "right" "0%" drawer_style,
              Some (mkDrawer (get_default "job_postings" "N/A" r)
                             (get_default "company" "N/A" r)
                             (get_default "place" "N/A" r)
                             (get_default "status" "N/A" r)
                             (get_default "posted_on" "N/A" r)
                             (get_default "url_link" "#" r)
                             desc_content))
      end
  | _, _ => Ok (dict_set "right" "-40%" drawer_style, None)
  end.

(** [close_drawer] *)
Definition close_drawer (n_clicks : option Z)
           (drawer_style : list (string * string)) : list (string * string) :=
  match n_clicks with
  | Some n => if n =? 0 then drawer_style
              else dict_set "right" "-40%" drawer_style
  | None => drawer_style
  end.

End MainDash.

(** ** Vocabulary of the specification *)

Definition is_digit (c : ascii) : bool :=
  match Py.digit_of c with
  | Some _ => true
  | None => false
  end.

Fixpoint all_digits (s : string) : bool :=
  match s with
  | EmptyString => true
  | String c r => is_digit c && all_digits r
  end.

(** The value of a digit string read from the left, starting from [acc]. *)
Fixpoint digits_value (acc : Z) (s : string) : Z :=
  match s with
  | EmptyString => acc
  | String c r =>
      digits_value (10 * acc + match Py.digit_of c with
                               | Some d => d
                               | None => 0
                               end) r
  end.

(** The instant [d] days before [t]. *)
Definition days_before (t : Py.datetime) (d : Z) : Py.datetime :=
  t - d * Py.us_per_day.

(** The phrases of a relative date: a unit word, singular or plural, and
    the number of days the unit stands for. *)
Inductive unit_word : Type := Month | Months | Week | Weeks | Day | Days.

Definition unit_text (u : unit_word) : string :=
  match u with
  | Month => "month"
  | Months => "months"
  | Week => "week"
  | Weeks => "weeks"
  | Day => "day"
  | Days => "days"
  end.

Definition unit_days (u : unit_word) : Z :=
  match u with
  | Month | Months => 30
  | Week | Weeks => 7
  | Day | Days => 1
  end.

(** The text "n unit ago". *)
Definition relative_text (n : Z) (u : unit_word) : string :=
  (Py.decimal n ++ " " ++ unit_text u ++ " ago")%string.

(** Both parsers read [s] against the reference [t] as the instant [r]. *)
Definition parses_to (pd_to_datetime : string -> option Py.datetime)
           (now : nat -> Py.datetime) (call : nat)
           (s : string) (t r : Py.datetime) : Prop :=
  Testdash.parse_relative_date pd_to_datetime s (Some t) = Ok (Time r)
  /\ Testdash2.parse_relative_date pd_to_datetime now call s (Some t)
     = Ok (Time r).

(** The filter specification, record by record: a dimension without
    chosen values imposes nothing, a chosen one asks for the exact text. *)
Definition dimension_ok (values : option (list string)) (c : cell) : bool :=
  match values with
  | None | Some [] => true
  | Some vs =>
      match c with
      | Str s => existsb (String.eqb s) vs
      | _ => false
      end
  end.

(** A description matches the keywords when, lower-cased, it contains one
    of the comma-separated terms, trimmed and lower-cased; blank pieces are
    no terms. *)
Definition describes (keywords : string) (c : cell) : bool :=
  match c with
  | Str text =>
      existsb (fun k => MainDash.nonempty (Py.strip k)
                        && Py.contains (Py.lower (Py.strip k)) (Py.lower text))
              (Py.split_on "," keywords)
  | _ => false
  end.

Definition keywords_ok (keywords : option string) (c : cell) : bool :=
  match keywords with
  | None | Some EmptyString => true
  | Some kw => describes kw c
  end.

Definition matches (companies places statuses : option (list string))
           (keywords : option string) (r : row) : bool :=
  dimension_ok companies (row_get "company" r)
  && dimension_ok places (row_get "place" r)
  && dimension_ok statuses (row_get "status" r)
  && keywords_ok keywords (row_get "job_description" r).

(** A description that is absent, empty or white space only. *)
Definition blank (c : cell) : Prop :=
  c = NaN \/ exists text, c = Str text /\ Py.strip text = EmptyString.

Definition is_time (c : cell) : bool :=
  match c with
  | Time _ => true
  | _ => false
  end.

Fixpoint all_chars (p : ascii -> bool) (s : string) : bool :=
  match s with
  | EmptyString => true
  | String c r => p c && all_chars p r
  end.

(** The cleaning of one record after its date is parsed: title, company
    and place trimmed, the city taken from the place. *)
Definition strip_step (name : string) (r : row) : row :=
  row_put name (str_map Py.strip (row_get name r)) r.

Definition city_step (r : row) : row :=
  row_put "city"
    (str_map Py.strip (str_map (str_split_first ",") (row_get "place" r))) r.

Definition tidy (r : row) : row :=
  city_step
    (strip_step "place" (strip_step "company" (strip_step "job_postings" r))).

Definition has_date (r : row) : bool := notna (row_get "posted_on" r).

(** Counting and ranking the values of a column. *)
Definition cell_eq_dec (a b : cell) : {a = b} + {a <> b}.
Proof. decide equality; [apply string_dec | apply Z.eq_dec]. Defined.

(** How often [v] occurs in [s]. *)
Definition count_cell (v : cell) (s : list cell) : nat :=
  List.length (filter (cell_eqb v) s).

(** The position at which [v] first occurs in [s]. *)
Fixpoint first_index (v : cell) (s : list cell) : nat :=
  match s with
  | [] => O
  | x :: t => if cell_eqb x v then O else S (first_index v t)
  end.

(** The distinct values of a column, the missing ones left out. *)
Definition distinct (s : list cell) : list cell :=
  nodup cell_eq_dec (series_dropna s).

(** The order of a ranking: the larger count first, and of two equal
    counts the value that occurs first in [s]. *)
Definition ranks_before (s : list cell) (a b : cell * nat) : Prop :=
  (snd b < snd a)%nat
  \/ (snd a = snd b /\ (first_index (fst a) s < first_index (fst b) s)%nat).

Fixpoint lookup (v : cell) (tbl : list (cell * nat)) : nat :=
  match tbl with
  | [] => O
  | (y, n) :: t => if cell_eqb y v then n else lookup v t
  end.

(** Descending by [key]; of two equal keys the one of smaller [rank]
    first. *)
Definition desc_then {A : Type} (key : A -> Z) (rank : A -> nat) (a b : A)
  : Prop :=
  key b < key a \/ (key a = key b /\ (rank a < rank b)%nat).

(** What the filter specification asks of one record, in words. *)
Definition member (values : option (list string)) (c : cell) : Prop :=
  MainDash.chosen values = []
  \/ exists s, c = Str s /\ In s (MainDash.chosen values).

Definition mentions (keywords : string) (c : cell) : Prop :=
  exists k text,
    In k (Py.split_on "," keywords) /\ Py.strip k <> EmptyString
    /\ c = Str text
    /\ Py.contains (Py.lower (Py.strip k)) (Py.lower text) = true.

Definition satisfies (companies places statuses : option (list string))
           (keywords : option string) (r : row) : Prop :=
  member companies (row_get "company" r)
  /\ member places (row_get "place" r)
  /\ member statuses (row_get "status" r)
  /\ (MainDash.typed keywords = EmptyString
      \/ mentions (MainDash.typed keywords) (row_get "job_description" r)).

(** One round of the inner loop of [testdash.py] for the column [a]. *)
Definition inner_loop (a : string) (mapping : list (string * string))
  : list (string * string) :=
  fold_left
    (fun mapping expected =>
       if String.eqb (Py.lower a) (Py.lower (fst expected))
       then dict_set a (snd expected) mapping
       else mapping)
    expected_columns mapping.

(** A text names a unit of time. *)
Definition has_unit (s : string) : bool :=
  Py.contains "month" (Py.lower s) || Py.contains "week" (Py.lower s)
  || Py.contains "day" (Py.lower s).

(** The frame a reporting script cleans: the sheet's frame with its
    labels normalised and renamed. *)
Definition source_frame (raw : DataFrame) : DataFrame :=
  rename_columns expected_columns (normalize_columns raw).

(** The labels the cleaning writes. *)
Definition cleaned_label (name : string) : bool :=
  existsb (String.eqb name)
          ["posted_on"; "job_postings"; "company"; "place"; "city"].

(** What pandas promises of the sort behind [value_counts]: the entries
    are kept and the counts descend. *)
Definition sorts_descending (sort : list (cell * nat) -> list (cell * nat))
  : Prop :=
  forall l, Permutation l (sort l)
            /\ StronglySorted (fun a b => (snd b <= snd a)%nat) (sort l).

(** Another descending sort: of two equal counts the later entry comes
    first, as when the counts are sorted in ascending order and the result
    is reversed. *)
Fixpoint insert_late (x : cell * nat) (l : list (cell * nat))
  : list (cell * nat) :=
  match l with
  | [] => [x]
  | y :: t => if (snd y <? snd x)%nat then x :: y :: t
              else y :: insert_late x t
  end.

Definition sort_late (l : list (cell * nat)) : list (cell * nat) :=
  fold_right insert_late [] l.

(** Every cell of a column is text or missing. *)
Definition text_cells (name : string) (df : DataFrame) : Prop :=
  Forall (fun r => is_time (row_get name r) = false) (rows df).

(** Every cell of a column is text. *)
Definition all_text (name : string) (df : DataFrame) : Prop :=
  Forall (fun r => exists s, row_get name r = Str s) (rows df).

(** The drawer: a character a bullet point can hold, and a character that
    separates bullet points without making one. *)
Definition bullet_char (c : ascii) : bool :=
  negb (Ascii.eqb c ",") && negb (Ascii.eqb c MainDash.newline).

Definition between_bullets (c : ascii) : bool :=
  Ascii.eqb c "," || Py.isspace c.

Definition text_or_missing (r : row) : bool :=
  negb (is_time (MainDash.get_default "job_description"
                   "No description available" r)).

Definition sample_style : list (string * string) :=
  [("position", "fixed"); ("right", "-40%"); ("width", "40%")].

(** ** Sample data *)

(** A library that reads no absolute date, and a clock. *)
Definition no_date (s : string) : option Py.datetime := None.

Definition noon (call : nat) : Py.datetime :=
  Py.datetime_ymd 2025 1 15 + 43200000000.

(** A sheet as [get_all_values] returns it. *)
Definition sample_values : list (list string) :=
  [["Job Postings"; "Company"; " Place"; "Status"; "Posted On"; "URL Link"];
   ["Engineer"; "Acme"; "Pune, Maharashtra, India"; "Open"; "1 week ago"; "u1"];
   ["Analyst"; "Birla "; " Delhi"; "Open"; "3 months ago"; "u2"];
   ["Tester"; "Acme"; "Pune"; "Closed"; "yesterday-ish"; "u3"];
   ["Writer"; "Corex"; "Delhi, India"; "Closed"; "2 days ago"; "u4"]].

(** The same sheet without its title and date columns. *)
Definition partial_values : list (list string) :=
  [["Company"; "Place"; "Status"; "Url Link"];
   ["Acme"; "Pune, Maharashtra, India"; "Open"; "u1"]].

Definition partial_frame : DataFrame :=
  mkFrame ["Company"; "Place"; "Status"; "Url Link"]
    [[("Company", Str "Acme"); ("Place", Str "Pune, Maharashtra, India");
      ("Status", Str "Open"); ("Url Link", Str "u1")]].

(** Records of text, a blank cell being the empty text. *)
Definition text_frame : DataFrame :=
  mkFrame ["Company"; "Place"; "Status"; "job_description"]
    [[("Company", Str "Acme"); ("Place", Str "Pune"); ("Status", Str "Open");
      ("job_description", Str "AWS, Python and SQL")];
     [("Company", Str "Birla"); ("Place", Str "Delhi"); ("Status", Str "Open");
      ("job_description", Str "Java")];
     [("Company", Str "Acme"); ("Place", Str "Delhi"); ("Status", Str "Closed");
      ("job_description", Str "  ")];
     [("Company", Str "acme"); ("Place", Str "Pune"); ("Status", Str "Open");
      ("job_description", Str "")]].

(** Records with a company cell that is not text. *)
Definition mixed_frame : DataFrame :=
  mkFrame ["Company"; "Place"; "Status"]
    [[("Company", Str "Acme"); ("Place", Str "Pune"); ("Status", Str "Open")];
     [("Company", Time 2024); ("Place", Str "Delhi"); ("Status", Str "Open")]].

(** Records with descriptions, as [get_all_records] gives them. *)
Definition described_frame : DataFrame :=
  mkFrame ["Company"; "Place"; "Status"; "job_description"]
    [[("Company", Str "Acme"); ("Place", Str "Pune"); ("Status", Str "Open");
      ("job_description", Str "AWS, Python and SQL")];
     [("Company", Str "Birla"); ("Place", Str "Delhi"); ("Status", Str "Open");
      ("job_description", Str "Java")];
     [("Company", Str "Acme"); ("Place", Str "Delhi"); ("Status", Str "Closed");
      ("job_description", Str "  ")];
     [("Company", Str "acme"); ("Place", Str "Pune"); ("Status", Str "Open");
      ("job_description", NaN)]].

(** A company column with twenty companies, two of them more than once,
    and one with seven. *)
Definition sample_companies : list cell :=
  [Str "c00"; Str "c01"; Str "c02"; Str "c03"; Str "c04"; Str "c05";
   Str "c06"; Str "c07"; Str "c08"; Str "c09"; Str "c10"; Str "c11";
   Str "c12"; Str "c13"; Str "c14"; Str "c15"; Str "c16"; Str "c17";
   Str "c18"; Str "c19"; Str "c03"; Str "c07"; Str "c03"].

Definition seven_companies : list cell :=
  [Str "A"; Str "B"; Str "A"; Str "C"; Str "D"; Str "E"; Str "F"; Str "G";
   Str "A"; Str "B"].

(** The sample sheet after the cleaning of [testdash.py] and its
    aggregates. *)
Definition sample_cleaned : DataFrame :=
  Eval vm_compute in
    match Testdash.main no_date sample_values with
    | Done (df, _) => df
    | _ => mkFrame [] []
    end.

Definition sample_summary : summary :=
  Eval vm_compute in
    match Testdash.main no_date sample_values with
    | Done (_, s) => s
    | _ => mkSummary 0 0 0 [] [] [] []
    end.

(** The same sheet after the cleaning of [testdash2.py] at noon of
    2025-01-15, latest posting first. *)
Definition sample_sorted : DataFrame :=
  Eval vm_compute in
    match Testdash2.main no_date noon sample_values with
    | Done df => df
    | _ => mkFrame [] []
    end.

Definition sample_record : row :=
  [("job_postings", Str "Engineer"); ("company", Str "Acme");
   ("place", Str "Pune, Maharashtra, India"); ("status", Str "Open");
   ("posted_on", Time (Py.datetime_ymd 2025 8 29)); ("url_link", Str "u1");
   ("city", Str "Pune")].

(** * Properties *)

(** ** Characters and strings *)

Section StringFacts.

Lemma digit_code (c : ascii) :
  is_digit c = true -> (48 <= Py.code c <= 57)%N.
Proof.
  unfold is_digit, Py.digit_of.
  destruct (N.leb_spec 48 (Py.code c)), (N.leb_spec (Py.code c) 57);
    simpl; intros; try discriminate; lia.
Qed.

Lemma digit_not_space (c : ascii) : is_digit c = true -> Py.isspace c = false.
Proof.
  intros H. apply digit_code in H. unfold Py.isspace.
  repeat match goal with
         | |- context [(?a <=? ?b)%N] => destruct (N.leb_spec a b)
         | |- context [(?a =? ?b)%N] => destruct (N.eqb_spec a b)
         end; simpl; try reflexivity; lia.
Qed.

Lemma digit_lower (c : ascii) : is_digit c = true -> Py.lower_char c = c.
Proof.
  intros H. apply digit_code in H. unfold Py.lower_char.
  repeat match goal with
         | |- context [(?a <=? ?b)%N] => destruct (N.leb_spec a b)
         end; simpl; try reflexivity; lia.
Qed.

Lemma code_inj (c d : ascii) : Py.code c = Py.code d -> c = d.
Proof.
  unfold Py.code. intros H.
  rewrite <- (ascii_N_embedding c), <- (ascii_N_embedding d), H. reflexivity.
Qed.

Lemma digit_neq (c d : ascii) :
  is_digit c = true -> is_digit d = false -> Ascii.eqb c d = false.
Proof.
  intros Hc Hd. destruct (Ascii.eqb_spec c d) as [->|]; [congruence | easy].
Qed.

Lemma digit_char_code (d : Z) :
  0 <= d < 10 -> Py.code (Py.digit_char d) = Z.to_N (48 + d).
Proof.
  intros H. unfold Py.code, Py.digit_char. apply N_ascii_embedding. lia.
Qed.

Lemma digit_of_digit_char (d : Z) :
  0 <= d < 10 -> Py.digit_of (Py.digit_char d) = Some d.
Proof.
  intros H. unfold Py.digit_of. rewrite digit_char_code by assumption.
  destruct (N.leb_spec 48 (Z.to_N (48 + d))); [| lia].
  destruct (N.leb_spec (Z.to_N (48 + d)) 57); [| lia].
  cbn [andb]. f_equal. rewrite Z2N.id by lia. lia.
Qed.

Lemma string_app_assoc (s t u : string) :
  ((s ++ t) ++ u)%string = (s ++ (t ++ u))%string.
Proof. induction s as [|c s IH]; simpl; [reflexivity | now rewrite IH]. Qed.

Lemma string_app_nil_r (s : string) : (s ++ EmptyString)%string = s.
Proof. induction s as [|c s IH]; simpl; [reflexivity | now rewrite IH]. Qed.

Lemma string_length_app (s t : string) :
  String.length (s ++ t) = (String.length s + String.length t)%nat.
Proof. induction s as [|c s IH]; simpl; [reflexivity | now rewrite IH]. Qed.

Lemma all_digits_app (s t : string) :
  all_digits (s ++ t) = all_digits s && all_digits t.
Proof.
  induction s as [|c s IH]; simpl; [reflexivity|].
  rewrite IH. apply andb_assoc.
Qed.

Lemma digits_value_app (s t : string) (acc : Z) :
  digits_value acc (s ++ t) = digits_value (digits_value acc s) t.
Proof.
  revert acc. induction s as [|c s IH]; simpl; intros; [reflexivity|].
  apply IH.
Qed.

Lemma lower_app (s t : string) :
  Py.lower (s ++ t) = (Py.lower s ++ Py.lower t)%string.
Proof.
  induction s as [|c s IH]; simpl; [reflexivity|]. now rewrite IH.
Qed.

Lemma lower_digits (s : string) : all_digits s = true -> Py.lower s = s.
Proof.
  induction s as [|c s IH]; simpl; [reflexivity|].
  intros H. apply andb_true_iff in H as [Hc Hs].
  now rewrite digit_lower, IH.
Qed.

(** A pattern found in [t] is found in [s ++ t]. *)
Lemma contains_app_r (p s t : string) :
  Py.contains p t = true -> Py.contains p (s ++ t) = true.
Proof.
  intros H. induction s as [|c s IH]; simpl; [assumption|].
  rewrite IH. apply orb_true_r.
Qed.

(** A pattern that starts with a character that is no digit does not
    start inside a run of digits. *)
Lemma contains_after_digits (c : ascii) (p s t : string) :
  is_digit c = false -> all_digits s = true ->
  Py.contains (String c p) (s ++ t) = Py.contains (String c p) t.
Proof.
  intros Hc. induction s as [|d s IH]; simpl; [reflexivity|].
  intros H. apply andb_true_iff in H as [Hd Hs].
  destruct (Ascii.ascii_dec c d) as [->|Hne]; [congruence|].
  simpl. now apply IH.
Qed.

Lemma split_cons (c : ascii) (r : string) :
  Py.split (String c r)
  = if Py.isspace c then Py.split r
    else match r with
         | EmptyString => [String c EmptyString]
         | String d _ =>
             if Py.isspace d then String c EmptyString :: Py.split r
             else match Py.split r with
                  | w :: ws => String c w :: ws
                  | [] => [String c EmptyString]
                  end
         end.
Proof. reflexivity. Qed.

(** The first word of a text that starts with digits followed by a blank. *)
Lemma split_digits (s t : string) (b : ascii) :
  all_digits s = true -> s <> EmptyString -> Py.isspace b = true ->
  Py.split (s ++ String b t) = s :: Py.split t.
Proof.
  intros Hs Hne Hb. induction s as [|c s IH]; [easy|].
  simpl in Hs. apply andb_true_iff in Hs as [Hc Hs].
  change (String c s ++ String b t)%string with (String c (s ++ String b t)).
  rewrite split_cons, (digit_not_space c Hc).
  destruct s as [|d s'].
  - change (EmptyString ++ String b t)%string with (String b t).
    cbv beta iota. rewrite Hb. rewrite (split_cons b t), Hb. reflexivity.
  - rewrite IH by easy.
    change (String d s' ++ String b t)%string
      with (String d (s' ++ String b t)).
    cbv beta iota.
    simpl in Hs. apply andb_true_iff in Hs as [Hd _].
    now rewrite (digit_not_space d Hd).
Qed.

Lemma digit_not_int_space (c : ascii) :
  is_digit c = true -> Py.int_space c = false.
Proof.
  intros H. apply digit_code in H. unfold Py.int_space.
  repeat match goal with
         | |- context [(?a <=? ?b)%N] => destruct (N.leb_spec a b)
         | |- context [(?a =? ?b)%N] => destruct (N.eqb_spec a b)
         end; simpl; try reflexivity; lia.
Qed.

Lemma lstrip_digits (s : string) :
  all_digits s = true -> Py.lstrip_with Py.int_space s = s.
Proof.
  destruct s as [|c s]; simpl; [reflexivity|].
  intros H. apply andb_true_iff in H as [Hc _].
  now rewrite digit_not_int_space.
Qed.

Lemma rstrip_digits (s : string) :
  all_digits s = true -> Py.rstrip_with Py.int_space s = s.
Proof.
  induction s as [|c s IH]; simpl; [reflexivity|].
  intros H. apply andb_true_iff in H as [Hc Hs].
  rewrite IH by assumption. rewrite digit_not_int_space by assumption.
  now destruct s.
Qed.

Lemma strip_digits (s : string) :
  all_digits s = true -> Py.strip_with Py.int_space s = s.
Proof.
  intros H. unfold Py.strip_with. rewrite lstrip_digits by assumption.
  now apply rstrip_digits.
Qed.

Lemma int_digits_digits (s : string) (acc : Z) (count : nat) (sep : bool) :
  all_digits s = true -> s <> EmptyString ->
  Py.int_digits s acc count sep
  = Some (digits_value acc s, (count + String.length s)%nat).
Proof.
  revert acc count sep. induction s as [|c s IH]; [easy|].
  intros acc count sep H _. simpl in H.
  apply andb_true_iff in H as [Hc Hs].
  cbn [Py.int_digits digits_value String.length].
  rewrite (digit_neq c "_" Hc eq_refl).
  unfold is_digit in Hc. destruct (Py.digit_of c) as [d|]; [|discriminate].
  destruct s as [|c' s'].
  - simpl. do 2 f_equal. lia.
  - rewrite IH by easy. do 2 f_equal. simpl. lia.
Qed.

(** [int] on a plain digit string of at most 4300 digits. *)
Lemma int_digits_string (s : string) :
  all_digits s = true -> s <> EmptyString ->
  (String.length s <= Py.max_str_digits)%nat ->
  Py.int s = Ok (digits_value 0 s).
Proof.
  intros Hs Hne Hlen. unfold Py.int. rewrite strip_digits by assumption.
  destruct s as [|c s']; [easy|].
  assert (Hc : is_digit c = true)
    by (simpl in Hs; now apply andb_true_iff in Hs as [Hc _]).
  assert (Hp : Ascii.eqb c "+" = false) by now apply digit_neq.
  assert (Hm : Ascii.eqb c "-" = false) by now apply digit_neq.
  assert (E : Py.split_sign (String c s') = (1, String c s')).
  { destruct (Ascii.eqb_spec c "+") as [->|]; [discriminate|].
    destruct (Ascii.eqb_spec c "-") as [->|]; [discriminate|].
    destruct c as [[] [] [] [] [] [] [] []]; try reflexivity; congruence. }
  rewrite E. rewrite int_digits_digits by easy.
  rewrite Nat.add_0_l. apply Nat.leb_le in Hlen. rewrite Hlen.
  f_equal. lia.
Qed.

(** The numeral printed for [n] reads back as [n]. *)
Lemma decimal_aux_spec (fuel : nat) (n : Z) (acc : string) :
  0 <= n < 2 ^ Z.of_nat fuel -> (0 < fuel)%nat ->
  exists ds, Py.decimal_aux fuel n acc = (ds ++ acc)%string
             /\ all_digits ds = true /\ ds <> EmptyString
             /\ (String.length ds <= fuel)%nat
             /\ digits_value 0 ds = n.
Proof.
  revert n acc. induction fuel as [|f IH]; intros n acc Hn Hf; [lia|].
  cbn [Py.decimal_aux].
  assert (Hm : 0 <= n mod 10 < 10) by (apply Z.mod_pos_bound; lia).
  destruct (Z.ltb_spec n 10) as [Hlt|Hge].
  - exists (String (Py.digit_char (n mod 10)) EmptyString).
    repeat split.
    + simpl. unfold is_digit. now rewrite digit_of_digit_char.
    + discriminate.
    + simpl. lia.
    + simpl. rewrite digit_of_digit_char by assumption.
      rewrite Z.mod_small; lia.
  - assert (Hf' : (0 < f)%nat).
    { destruct f; [|lia]. simpl in Hn. lia. }
    destruct (IH (n / 10) (String (Py.digit_char (n mod 10)) acc))
      as (ds & E & Hd & Hne & Hlen & Hv); [|assumption|].
    { split; [apply Z.div_pos; lia|].
      apply Z.div_lt_upper_bound; [lia|].
      rewrite Nat2Z.inj_succ, Z.pow_succ_r in Hn by lia. lia. }
    exists (ds ++ String (Py.digit_char (n mod 10)) EmptyString)%string.
    repeat split.
    + rewrite E. now rewrite string_app_assoc.
    + rewrite all_digits_app, Hd. simpl. unfold is_digit.
      now rewrite digit_of_digit_char.
    + destruct ds; [easy | discriminate].
    + rewrite string_length_app. simpl. lia.
    + rewrite digits_value_app, Hv. simpl.
      rewrite digit_of_digit_char by assumption.
      rewrite (Z.div_mod n 10) at 3 by lia. reflexivity.
Qed.

Lemma decimal_spec (n : Z) :
  0 <= n ->
  all_digits (Py.decimal n) = true /\ Py.decimal n <> EmptyString
  /\ (String.length (Py.decimal n) <= S (Z.to_nat (Z.log2 n)))%nat
  /\ digits_value 0 (Py.decimal n) = n.
Proof.
  intros Hn. unfold Py.decimal.
  destruct (decimal_aux_spec (S (Z.to_nat (Z.log2 n))) n EmptyString)
    as (ds & E & Hd & Hne & Hlen & Hv).
  - split; [assumption|].
    rewrite Nat2Z.inj_succ, Z2Nat.id by apply Z.log2_nonneg.
    destruct (Z.eq_dec n 0) as [->|]; [reflexivity|].
    apply Z.log2_spec. lia.
  - lia.
  - rewrite E, string_app_nil_r. auto.
Qed.

End StringFacts.

(** ** Lower-casing keeps the words and the numbers of a text *)

Section LowerFacts.

Ltac by_cases c := destruct c as [[] [] [] [] [] [] [] []]; reflexivity.

Lemma lower_char_space (c : ascii) :
  Py.isspace (Py.lower_char c) = Py.isspace c.
Proof. by_cases c. Qed.

Lemma lower_char_underscore (c : ascii) :
  Ascii.eqb (Py.lower_char c) "_" = Ascii.eqb c "_".
Proof. by_cases c. Qed.

Lemma lower_char_digit (c : ascii) :
  Py.digit_of (Py.lower_char c) = Py.digit_of c.
Proof. by_cases c. Qed.

Lemma lower_char_int_space (c : ascii) :
  Py.int_space (Py.lower_char c) = Py.int_space c.
Proof. by_cases c. Qed.

Lemma lstrip_lower (s : string) :
  Py.lstrip_with Py.int_space (Py.lower s)
  = Py.lower (Py.lstrip_with Py.int_space s).
Proof.
  induction s as [|c s IH]; [reflexivity|].
  cbn [Py.lower Py.lstrip_with]. rewrite lower_char_int_space.
  now destruct (Py.int_space c).
Qed.

Lemma rstrip_lower (s : string) :
  Py.rstrip_with Py.int_space (Py.lower s)
  = Py.lower (Py.rstrip_with Py.int_space s).
Proof.
  induction s as [|c s IH]; [reflexivity|].
  cbn [Py.lower Py.rstrip_with]. rewrite IH, lower_char_int_space.
  destruct (Py.rstrip_with Py.int_space s);
    [now destruct (Py.int_space c) | reflexivity].
Qed.

Lemma strip_lower (s : string) :
  Py.strip_with Py.int_space (Py.lower s)
  = Py.lower (Py.strip_with Py.int_space s).
Proof. unfold Py.strip_with. now rewrite lstrip_lower, rstrip_lower. Qed.

Lemma split_lower (s : string) :
  Py.split (Py.lower s) = map Py.lower (Py.split s).
Proof.
  induction s as [|c s IH]; [reflexivity|].
  cbn [Py.lower]. rewrite !split_cons, lower_char_space.
  destruct (Py.isspace c); [assumption|].
  destruct s as [|d s']; [reflexivity|].
  rewrite IH. cbn [Py.lower]. rewrite lower_char_space.
  destruct (Py.isspace d); [reflexivity|].
  now destruct (Py.split (String d s')).
Qed.

Lemma int_digits_lower (s : string) (acc : Z) (count : nat) (sep : bool) :
  Py.int_digits (Py.lower s) acc count sep = Py.int_digits s acc count sep.
Proof.
  revert acc count sep. induction s as [|c s IH]; intros; [reflexivity|].
  cbn [Py.lower Py.int_digits].
  rewrite lower_char_underscore, lower_char_digit, !IH.
  destruct (Py.digit_of c); [now rewrite IH | reflexivity].
Qed.

Lemma split_sign_lower (t : string) :
  Py.split_sign (Py.lower t)
  = (fst (Py.split_sign t), Py.lower (snd (Py.split_sign t))).
Proof. destruct t as [|c r]; [reflexivity|]. by_cases c. Qed.

Lemma int_lower (w : string) : Py.int (Py.lower w) = Py.int w.
Proof.
  unfold Py.int. rewrite strip_lower, split_sign_lower.
  destruct (Py.split_sign (Py.strip_with Py.int_space w)) as [sign body].
  cbn [fst snd].
  now rewrite int_digits_lower.
Qed.

(** Both scripts read the same magnitude. *)
Lemma first_int_lower (s : string) : first_int (Py.lower s) = first_int s.
Proof.
  unfold first_int. rewrite split_lower.
  destruct (Py.split s) as [|w ws]; [reflexivity|].
  cbn [map Py.item0 bind]. apply int_lower.
Qed.

End LowerFacts.

(** ** The relative-date parser *)

Section ParserFacts.

Variable pd_to_datetime : string -> option Py.datetime.
Variable now : nat -> Py.datetime.

(** Subtracting [d] days from [t] when both ends are datetimes. *)
Lemma shift_in_range (t d : Z) :
  Py.in_range t = true -> Py.in_range (days_before t d) = true ->
  (delta <- Py.timedelta_days d ;;
   t' <- Py.datetime_sub t delta ;; Ok (Time t'))
  = Ok (Time (days_before t d)).
Proof.
  intros Ht Hd. unfold Py.timedelta_days.
  assert (Hb : Z.abs d <= 999999999).
  { unfold Py.in_range, days_before, Py.max_ordinal, Py.us_per_day in *.
    apply andb_true_iff in Ht as [H1 H2], Hd as [H3 H4].
    apply Z.leb_le in H1, H3. apply Z.ltb_lt in H2, H4. lia. }
  apply Z.leb_le in Hb. rewrite Hb. cbn [bind].
  unfold Py.datetime_sub. fold (days_before t d). now rewrite Hd.
Qed.

Lemma shift_weeks_in_range (t w : Z) :
  Py.in_range t = true -> Py.in_range (days_before t (7 * w)) = true ->
  (delta <- Py.timedelta_weeks w ;;
   t' <- Py.datetime_sub t delta ;; Ok (Time t'))
  = Ok (Time (days_before t (7 * w))).
Proof. apply shift_in_range. Qed.

(** What [testdash.py] computes once the unit is known. *)
Lemma testdash_month (s : string) (t n : Z) :
  Py.contains "ago" (Py.lower s) = true ->
  Py.contains "month" (Py.lower s) = true ->
  first_int s = Ok n ->
  Py.in_range t = true -> Py.in_range (days_before t (30 * n)) = true ->
  Testdash.parse_relative_date pd_to_datetime s (Some t)
  = Ok (Time (days_before t (30 * n))).
Proof.
  intros Ha Hm Hn Ht Hd. unfold Testdash.parse_relative_date, Testdash.parse_body.
  rewrite Ha, Hm, Hn. cbn [bind]. replace (n * 30) with (30 * n) by lia.
  now rewrite shift_in_range.
Qed.

Lemma testdash_week (s : string) (t n : Z) :
  Py.contains "ago" (Py.lower s) = true ->
  Py.contains "month" (Py.lower s) = false ->
  Py.contains "week" (Py.lower s) = true ->
  first_int s = Ok n ->
  Py.in_range t = true -> Py.in_range (days_before t (7 * n)) = true ->
  Testdash.parse_relative_date pd_to_datetime s (Some t)
  = Ok (Time (days_before t (7 * n))).
Proof.
  intros Ha Hm Hw Hn Ht Hd.
  unfold Testdash.parse_relative_date, Testdash.parse_body.
  rewrite Ha, Hm, Hw, Hn. cbn [bind]. now rewrite shift_weeks_in_range.
Qed.

Lemma testdash_day (s : string) (t n : Z) :
  Py.contains "ago" (Py.lower s) = true ->
  Py.contains "month" (Py.lower s) = false ->
  Py.contains "week" (Py.lower s) = false ->
  Py.contains "day" (Py.lower s) = true ->
  first_int s = Ok n ->
  Py.in_range t = true -> Py.in_range (days_before t n) = true ->
  Testdash.parse_relative_date pd_to_datetime s (Some t)
  = Ok (Time (days_before t n)).
Proof.
  intros Ha Hm Hw Hd' Hn Ht Hd.
  unfold Testdash.parse_relative_date, Testdash.parse_body.
  rewrite Ha, Hm, Hw, Hd', Hn. cbn [bind]. now rewrite shift_in_range.
Qed.

(** The same for [testdash2.py], which reads the magnitude from the
    lower-cased text: the same number. *)
Lemma testdash2_month (call : nat) (s : string) (t n : Z) :
  Py.contains "ago" (Py.lower s) = true ->
  Py.contains "month" (Py.lower s) = true ->
  first_int s = Ok n ->
  Py.in_range t = true -> Py.in_range (days_before t (30 * n)) = true ->
  Testdash2.parse_relative_date pd_to_datetime now call s (Some t)
  = Ok (Time (days_before t (30 * n))).
Proof.
  intros Ha Hm Hn Ht Hd.
  unfold Testdash2.parse_relative_date, Testdash2.parse_body.
  rewrite first_int_lower, Ha, Hm, Hn. cbn [bind]. replace (n * 30) with (30 * n) by lia.
  now rewrite shift_in_range.
Qed.

Lemma testdash2_week (call : nat) (s : string) (t n : Z) :
  Py.contains "ago" (Py.lower s) = true ->
  Py.contains "month" (Py.lower s) = false ->
  Py.contains "week" (Py.lower s) = true ->
  first_int s = Ok n ->
  Py.in_range t = true -> Py.in_range (days_before t (7 * n)) = true ->
  Testdash2.parse_relative_date pd_to_datetime now call s (Some t)
  = Ok (Time (days_before t (7 * n))).
Proof.
  intros Ha Hm Hw Hn Ht Hd.
  unfold Testdash2.parse_relative_date, Testdash2.parse_body.
  rewrite first_int_lower, Ha, Hm, Hw, Hn. cbn [bind]. now rewrite shift_weeks_in_range.
Qed.

Lemma testdash2_day (call : nat) (s : string) (t n : Z) :
  Py.contains "ago" (Py.lower s) = true ->
  Py.contains "month" (Py.lower s) = false ->
  Py.contains "week" (Py.lower s) = false ->
  Py.contains "day" (Py.lower s) = true ->
  first_int s = Ok n ->
  Py.in_range t = true -> Py.in_range (days_before t n) = true ->
  Testdash2.parse_relative_date pd_to_datetime now call s (Some t)
  = Ok (Time (days_before t n)).
Proof.
  intros Ha Hm Hw Hd' Hn Ht Hd.
  unfold Testdash2.parse_relative_date, Testdash2.parse_body.
  rewrite first_int_lower, Ha, Hm, Hw, Hd', Hn. cbn [bind]. now rewrite shift_in_range.
Qed.

(** [testdash2.py] turns every exception of the body into [NaT]. *)
Lemma testdash2_parse_total (call : nat) (s : string)
      (reference : option Py.datetime) :
  exists c, Testdash2.parse_relative_date pd_to_datetime now call s reference
            = Ok c.
Proof.
  unfold Testdash2.parse_relative_date.
  destruct (Testdash2.parse_body _ _ _) as [c|e]; eauto.
Qed.

End ParserFacts.

Section RelativeTexts.

Variable pd_to_datetime : string -> option Py.datetime.
Variable now : nat -> Py.datetime.

(** A numeral followed by a blank: the numeral is the first word, it reads
    back as its number, and no word is found inside it. *)
Lemma numeral_first_int (n : Z) (rest : string) :
  0 <= n < 2 ^ 4299 ->
  first_int (Py.decimal n ++ String " " rest) = Ok n.
Proof.
  intros Hn. destruct (decimal_spec n) as (Hd & Hne & Hlen & Hv); [lia|].
  unfold first_int. rewrite split_digits by easy. cbn [Py.item0 bind].
  rewrite int_digits_string, Hv; try easy.
  eapply Nat.le_trans; [exact Hlen|]. unfold Py.max_str_digits.
  assert (Z.log2 n < 4299).
  { destruct (Z.eq_dec n 0) as [->|]; [reflexivity|].
    destruct Hn as [Hn0 Hn1].
    assert (Hpos : 0 < n) by (clear Hn1; lia).
    now apply (proj1 (Z.log2_lt_pow2 n 4299 Hpos)). }
  clear Hn. lia.
Qed.

Lemma numeral_lower (n : Z) (rest : string) :
  0 <= n ->
  Py.lower (Py.decimal n ++ rest) = (Py.decimal n ++ Py.lower rest)%string.
Proof.
  intros Hn. destruct (decimal_spec n Hn) as (Hd & _).
  now rewrite lower_app, lower_digits.
Qed.

Lemma numeral_contains (n : Z) (c : ascii) (p rest : string) :
  0 <= n -> is_digit c = false ->
  Py.contains (String c p) (Py.decimal n ++ rest)
  = Py.contains (String c p) rest.
Proof.
  intros Hn Hc. destruct (decimal_spec n Hn) as (Hd & _).
  now apply contains_after_digits.
Qed.

Lemma in_range_bound (t d : Z) :
  Py.in_range t = true -> Py.in_range (days_before t d) = true ->
  Z.abs d < Py.max_ordinal.
Proof.
  unfold Py.in_range, days_before, Py.max_ordinal, Py.us_per_day.
  intros Ht Hd. apply andb_true_iff in Ht as [H1 H2], Hd as [H3 H4].
  apply Z.leb_le in H1, H3. apply Z.ltb_lt in H2, H4. lia.
Qed.

End RelativeTexts.

(** ** Which exceptions leave the parser of [testdash.py] *)

Section ParserExceptions.

Variable pd_to_datetime : string -> option Py.datetime.

Lemma split_nil_contains (s : string) (c : ascii) (p : string) :
  Py.split s = [] -> Py.isspace c = false ->
  Py.contains (String c p) s = false.
Proof.
  intros Hs Hc. induction s as [|a r IH]; [reflexivity|].
  rewrite split_cons in Hs. cbn [Py.contains String.prefix].
  destruct (Py.isspace a) eqn:Ha.
  - rewrite (IH Hs). destruct (Ascii.ascii_dec c a) as [->|]; [congruence|].
    reflexivity.
  - destruct r as [|d r']; [discriminate|].
    destruct (Py.isspace d); [discriminate|].
    destruct (Py.split (String d r')); discriminate.
Qed.

Lemma first_int_raise (s : string) (e : exn) :
  first_int s = Raise e -> e = ValueError \/ Py.split s = [].
Proof.
  unfold first_int. destruct (Py.split s) as [|w ws]; [now right|].
  cbn [Py.item0 bind]. unfold Py.int.
  destruct (Py.split_sign (Py.strip_with Py.int_space w)) as [sign body].
  destruct (Py.int_digits body 0 0 true) as [[v n]|].
  - destruct (n <=? Py.max_str_digits)%nat; [discriminate|].
    intros [= <-]. now left.
  - intros [= <-]. now left.
Qed.

Lemma shift_raise (t d : Z) (e : exn) :
  (delta <- Py.timedelta_days d ;;
   t' <- Py.datetime_sub t delta ;; Ok (Time t')) = Raise e ->
  e = OverflowError.
Proof.
  unfold Py.timedelta_days, Py.datetime_sub.
  destruct (Z.abs d <=? 999999999); cbn [bind].
  - destruct (Py.in_range _); cbn [bind]; [discriminate | now intros [= <-]].
  - now intros [= <-].
Qed.

(** The parser of [testdash.py] returns a cell or lets an
    [OverflowError] through; nothing else leaves it. *)
Lemma testdash_parse_outcomes (s : string) (reference : option Py.datetime) :
  (exists c, Testdash.parse_relative_date pd_to_datetime s reference = Ok c)
  \/ Testdash.parse_relative_date pd_to_datetime s reference
     = Raise OverflowError.
Proof.
  unfold Testdash.parse_relative_date.
  set (r := match reference with
            | Some r => r
            | None => Py.datetime_ymd 2025 9 5
            end).
  assert (H : forall e, Testdash.parse_body pd_to_datetime s r = Raise e ->
                        e = ValueError \/ e = OverflowError).
  { intros e. unfold Testdash.parse_body, Testdash.to_datetime.
    assert (Hpd : match pd_to_datetime s with
                  | Some t => Ok (Time t)
                  | None => Raise ValueError
                  end = Raise e -> e = ValueError \/ e = OverflowError).
    { destruct (pd_to_datetime s); [discriminate|]. intros [= <-]. now left. }
    assert (Hfi : forall w, Py.contains w (Py.lower s) = true ->
                  (exists c p, w = String c p /\ Py.isspace c = false) ->
                  forall e', first_int s = Raise e' -> e' = ValueError).
    { intros w Hw (c & p & -> & Hc) e' He'.
      destruct (first_int_raise _ _ He') as [|Hnil]; [assumption|].
      assert (Hl : Py.split (Py.lower s) = [])
        by (rewrite split_lower, Hnil; reflexivity).
      rewrite (split_nil_contains _ c p Hl Hc) in Hw. discriminate. }
    destruct (Py.contains "ago" (Py.lower s)); [|exact Hpd].
    repeat match goal with
    | |- context [if Py.contains ?w (Py.lower s) then _ else _] =>
        let E := fresh "E" in
        destruct (Py.contains w (Py.lower s)) eqn:E;
        [ destruct (first_int s) as [n|e'] eqn:En; cbn [bind];
          [ unfold Py.timedelta_weeks; intros Hr; right;
            exact (shift_raise _ _ _ Hr)
          | intros [= <-]; left;
            apply (Hfi w E); [do 2 eexists; split; reflexivity | reflexivity] ]
        | ]
    end.
    exact Hpd. }
  destruct (Testdash.parse_body pd_to_datetime s r) as [c|e]; [eauto|].
  destruct (H e eq_refl) as [-> | ->]; eauto.
Qed.

End ParserExceptions.

(** ** Frames: selecting rows *)

Section FrameFacts.

Lemma select_map {A : Type} (p : A -> bool) (l : list A) :
  map snd (filter (fun br => fst br) (combine (map p l) l)) = filter p l.
Proof.
  induction l as [|x l IH]; [reflexivity|].
  cbn [map combine filter fst]. destruct (p x); cbn [map snd]; now rewrite IH.
Qed.

Lemma filter_twice {A : Type} (p q : A -> bool) (l : list A) :
  filter q (filter p l) = filter (fun x => p x && q x) l.
Proof.
  induction l as [|x l IH]; [reflexivity|].
  cbn [filter]. destruct (p x); cbn [filter andb]; now rewrite IH.
Qed.

Lemma filter_all {A : Type} (p : A -> bool) (l : list A) :
  (forall x, p x = true) -> filter p l = l.
Proof.
  intros H. induction l as [|x l IH]; [reflexivity|].
  cbn [filter]. now rewrite H, IH.
Qed.

Lemma filter_none {A : Type} (p : A -> bool) (l : list A) :
  (forall x, p x = false) -> filter p l = [].
Proof.
  intros H. induction l as [|x l IH]; [reflexivity|].
  cbn [filter]. now rewrite H.
Qed.

Lemma filter_agree {A : Type} (p q : A -> bool) (l : list A) :
  (forall x, In x l -> p x = q x) -> filter p l = filter q l.
Proof.
  intros H. induction l as [|x l IH]; [reflexivity|].
  cbn [filter]. rewrite (H x (or_introl eq_refl)), IH; [reflexivity|].
  intros y Hy. apply H. now right.
Qed.

Lemma mapM_pure {A B : Type} (f : A -> outcome B) (g : A -> B) (l : list A) :
  (forall x, In x l -> f x = Ok (g x)) -> mapM f l = Ok (map g l).
Proof.
  intros H. induction l as [|x l IH]; [reflexivity|].
  cbn [mapM map]. rewrite (H x (or_introl eq_refl)). cbn [bind].
  rewrite IH; [reflexivity|]. intros y Hy. apply H. now right.
Qed.

Lemma series_unique (df : DataFrame) (name : string) :
  occurrences name (columns df) = 1%nat ->
  series df name = Ok (map (row_get name) (rows df)).
Proof. intros H. unfold series. now rewrite H. Qed.

Lemma select_rows (df : DataFrame) (name : string) (p : cell -> bool) :
  select df (map p (map (row_get name) (rows df)))
  = mkFrame (columns df) (filter (fun r => p (row_get name r)) (rows df)).
Proof.
  unfold select. f_equal. rewrite map_map.
  apply (select_map (fun r => p (row_get name r))).
Qed.

End FrameFacts.

(** ** The filters of [main_dash.py] *)

Section FilterFacts.

Lemma filter_isin_spec (df : DataFrame) (name : string)
      (values : option (list string)) :
  occurrences name (columns df) = 1%nat ->
  MainDash.filter_isin df name (MainDash.chosen values)
  = Ok (mkFrame (columns df)
          (filter (fun r => dimension_ok values (row_get name r)) (rows df))).
Proof.
  intros H. unfold MainDash.filter_isin, MainDash.chosen.
  destruct values as [[|v vs]|].
  - rewrite filter_all by reflexivity. now destruct df.
  - rewrite series_unique by assumption. cbn [bind].
    rewrite select_rows. do 2 f_equal.
  - rewrite filter_all by reflexivity. now destruct df.
Qed.

(** The terms of the code and the pieces of the specification give the
    same test. *)
Lemma terms_describe (keywords text : string) :
  existsb (fun term => Py.contains term (Py.lower text))
          (MainDash.terms_of keywords)
  = describes keywords (Str text).
Proof.
  unfold MainDash.terms_of, describes.
  induction (Py.split_on "," keywords) as [|k ks IH]; [reflexivity|].
  cbn [filter existsb]. destruct (MainDash.nonempty (Py.strip k)).
  - cbn [map existsb andb]. now rewrite IH.
  - cbn [andb orb]. exact IH.
Qed.

Lemma nonempty_contains (term : string) :
  MainDash.nonempty term = true -> Py.contains term EmptyString = false.
Proof. destruct term; [discriminate | reflexivity]. Qed.

Lemma lower_nonempty (s : string) :
  MainDash.nonempty (Py.lower s) = MainDash.nonempty s.
Proof. now destruct s. Qed.

Lemma terms_missing (keywords : string) :
  existsb (fun term => Py.contains term EmptyString)
          (MainDash.terms_of keywords) = false.
Proof.
  unfold MainDash.terms_of.
  induction (Py.split_on "," keywords) as [|k ks IH]; [reflexivity|].
  cbn [filter]. destruct (MainDash.nonempty (Py.strip k)) eqn:E; [|exact IH].
  cbn [map existsb]. rewrite IH, nonempty_contains; [reflexivity|].
  now rewrite lower_nonempty.
Qed.

(** Lines 142 to 147 on a frame whose descriptions are text or missing
    (or with no term at all, when no description is inspected). *)
Lemma filter_keywords_spec (df : DataFrame) (keywords : option string) :
  (MainDash.nonempty (MainDash.typed keywords) = true ->
   occurrences "job_description" (columns df) = 1%nat) ->
  MainDash.terms_of (MainDash.typed keywords) = []
  \/ Forall (fun r => is_time (row_get "job_description" r) = false) (rows df) ->
  MainDash.filter_keywords df (MainDash.typed keywords)
  = Ok (mkFrame (columns df)
          (filter (fun r => keywords_ok keywords (row_get "job_description" r))
                  (rows df))).
Proof.
  intros Hc Hcells. unfold MainDash.filter_keywords.
  destruct keywords as [[|c kw]|]; cbn [MainDash.typed MainDash.nonempty].
  1, 3: rewrite filter_all by reflexivity; now destruct df.
  rewrite series_unique by now apply Hc. cbn [bind].
  rewrite (mapM_pure _ (describes (String c kw))).
  - cbn [bind]. rewrite select_rows. reflexivity.
  - intros x Hx. apply in_map_iff in Hx as (r & <- & Hr).
    unfold MainDash.any_term.
    destruct (row_get "job_description" r) as [text| t |] eqn:E.
    + now rewrite terms_describe.
    + destruct Hcells as [Hnil | Hall].
      * cbn [MainDash.typed] in Hnil. now rewrite Hnil.
      * rewrite Forall_forall in Hall. specialize (Hall r Hr).
        rewrite E in Hall. discriminate.
    + now rewrite terms_missing.
Qed.

Lemma Forall_filter {A : Type} (P : A -> Prop) (p : A -> bool) (l : list A) :
  Forall P l -> Forall P (filter p l).
Proof.
  rewrite !Forall_forall. intros H x Hx. apply filter_In in Hx. now apply H.
Qed.

(** [update_table] on a frame that has the columns it reads. *)
End FilterFacts.

(** ** Blank texts and blank keyword inputs *)

Section BlankFacts.

Lemma lstrip_spaces (s : string) :
  all_chars Py.isspace s = true -> Py.lstrip_with Py.isspace s = EmptyString.
Proof.
  induction s as [|c s IH]; [reflexivity|]. cbn [all_chars Py.lstrip_with].
  intros H. apply andb_true_iff in H as [Hc Hs]. now rewrite Hc, IH.
Qed.

Lemma strip_spaces (s : string) :
  all_chars Py.isspace s = true -> Py.strip s = EmptyString.
Proof.
  intros H. unfold Py.strip, Py.strip_with. now rewrite lstrip_spaces.
Qed.

Lemma lstrip_cases (s : string) :
  all_chars Py.isspace s = true
  \/ exists c r, Py.lstrip_with Py.isspace s = String c r
                 /\ Py.isspace c = false.
Proof.
  induction s as [|c s IH]; [now left|]. cbn [all_chars Py.lstrip_with].
  destruct (Py.isspace c) eqn:E; [exact IH|]. right. eauto.
Qed.

Lemma rstrip_head (c : ascii) (r : string) :
  Py.isspace c = false ->
  exists r', Py.rstrip_with Py.isspace (String c r) = String c r'.
Proof.
  intros H. cbn [Py.rstrip_with]. rewrite H.
  destruct (Py.rstrip_with Py.isspace r); eauto.
Qed.

(** A text is all white space, or its trimmed form starts with a
    character that is none. *)
Lemma strip_cases (s : string) :
  all_chars Py.isspace s = true
  \/ exists c r, Py.strip s = String c r /\ Py.isspace c = false.
Proof.
  destruct (lstrip_cases s) as [H | (c & r & E & Hc)]; [now left|].
  right. unfold Py.strip, Py.strip_with. rewrite E.
  destruct (rstrip_head c r Hc) as [r' ->]. eauto.
Qed.

Lemma contains_spaces (c : ascii) (p s : string) :
  Py.isspace c = false -> all_chars Py.isspace s = true ->
  Py.contains (String c p) s = false.
Proof.
  intros Hc. induction s as [|a s IH]; [reflexivity|].
  cbn [all_chars Py.contains String.prefix]. intros H.
  apply andb_true_iff in H as [Ha Hs]. rewrite (IH Hs).
  destruct (Ascii.ascii_dec c a) as [->|]; [congruence | reflexivity].
Qed.

Lemma lower_spaces (s : string) :
  all_chars Py.isspace (Py.lower s) = all_chars Py.isspace s.
Proof.
  induction s as [|c s IH]; [reflexivity|].
  cbn [Py.lower all_chars]. now rewrite lower_char_space, IH.
Qed.

(** No term is found in a blank description. *)
Lemma describes_blank (keywords : string) (c : cell) :
  blank c -> describes keywords c = false.
Proof.
  intros [-> | (text & -> & Hb)]; [reflexivity|]. unfold describes.
  assert (Hs : all_chars Py.isspace (Py.lower text) = true).
  { rewrite lower_spaces.
    destruct (strip_cases text) as [H | (c & r & E & _)]; [assumption|].
    rewrite E in Hb. discriminate. }
  induction (Py.split_on "," keywords) as [|k ks IH]; [reflexivity|].
  cbn [existsb]. rewrite IH, orb_false_r.
  destruct (strip_cases k) as [H | (c & r & E & Hc)].
  - now rewrite (strip_spaces k H).
  - rewrite E. cbn [MainDash.nonempty Py.lower andb].
    apply contains_spaces; [|assumption]. now rewrite lower_char_space.
Qed.

(** The pieces between the commas of an input of commas and white space
    are white space. *)
Lemma split_on_spaces (s : string) :
  all_chars (fun c => Ascii.eqb c "," || Py.isspace c) s = true ->
  Forall (fun k => all_chars Py.isspace k = true) (Py.split_on "," s).
Proof.
  induction s as [|c s IH]; [now repeat constructor|].
  cbn [all_chars Py.split_on]. intros H.
  apply andb_true_iff in H as [Hc Hs]. specialize (IH Hs).
  destruct (Ascii.eqb c ",").
  - now constructor.
  - cbn [orb] in Hc. destruct (Py.split_on "," s) as [|w ws].
    + repeat constructor. cbn [all_chars]. now rewrite Hc.
    + inversion IH as [|? ? Hw Hws]; subst. constructor; [|assumption].
      cbn [all_chars]. now rewrite Hc, Hw.
Qed.

Lemma terms_of_blank (keywords : string) :
  all_chars (fun c => Ascii.eqb c "," || Py.isspace c) keywords = true ->
  MainDash.terms_of keywords = [].
Proof.
  intros H. apply split_on_spaces in H. unfold MainDash.terms_of.
  induction H as [|k ks Hk _ IH]; [reflexivity|].
  cbn [filter]. now rewrite (strip_spaces k Hk).
Qed.

Lemma describes_no_terms (keywords : string) (c : cell) :
  MainDash.terms_of keywords = [] -> describes keywords c = false.
Proof.
  intros H. destruct c as [text| |]; try reflexivity.
  now rewrite <- terms_describe, H.
Qed.

End BlankFacts.

(** ** Records: reading and writing cells *)

Section RowFacts.

Lemma row_get_set_same (name : string) (v : cell) (r : row) :
  existsb (String.eqb name) (map fst r) = true ->
  row_get name (row_set name v r) = v.
Proof.
  induction r as [|[k x] t IH]; [discriminate|].
  cbn [map fst existsb row_set row_get]. rewrite (String.eqb_sym name k).
  destruct (String.eqb k name); [reflexivity | exact IH].
Qed.

Lemma row_get_app_same (name : string) (v : cell) (r : row) :
  existsb (String.eqb name) (map fst r) = false ->
  row_get name (r ++ [(name, v)]) = v.
Proof.
  induction r as [|[k x] t IH].
  - intros _. cbn. now rewrite String.eqb_refl.
  - cbn [map fst existsb app row_get]. rewrite (String.eqb_sym name k).
    destruct (String.eqb k name); [discriminate | exact IH].
Qed.

Lemma row_get_put_same (name : string) (v : cell) (r : row) :
  row_get name (row_put name v r) = v.
Proof.
  unfold row_put. destruct (existsb _ _) eqn:E.
  - now apply row_get_set_same.
  - now apply row_get_app_same.
Qed.

Lemma row_get_put_other (name other : string) (v : cell) (r : row) :
  name <> other -> row_get name (row_put other v r) = row_get name r.
Proof.
  intros Hne. unfold row_put. destruct (existsb _ _).
  - induction r as [|[k x] t IH]; [reflexivity|].
    cbn [row_set row_get]. destruct (String.eqb_spec k name) as [->|].
    + destruct (String.eqb_spec name other); [contradiction | reflexivity].
    + exact IH.
  - induction r as [|[k x] t IH].
    + cbn. destruct (String.eqb_spec other name); [congruence | reflexivity].
    + cbn [app row_get]. now rewrite IH.
Qed.

Lemma zip_with_map {A B C : Type} (f : A -> B -> C) (g : B -> A) (l : list B) :
  zip_with f (map g l) l = map (fun x => f (g x) x) l.
Proof.
  induction l as [|x l IH]; [reflexivity|]. cbn [map zip_with]. now rewrite IH.
Qed.

Lemma series_inv (df : DataFrame) (name : string) (s : list cell) :
  series df name = Ok s -> s = map (row_get name) (rows df).
Proof.
  unfold series. destruct (occurrences name (columns df)) as [|[|n]];
    [discriminate | now intros [= <-] | discriminate].
Qed.

(** [df[name] = df[other].map(g)] record by record. *)
Lemma assign_rows (df : DataFrame) (name other : string) (g : cell -> cell)
      (s : list cell) :
  series df other = Ok s ->
  rows (assign df name (map g s))
  = map (fun r => row_put name (g (row_get other r)) r) (rows df).
Proof.
  intros H. apply series_inv in H. subst s. cbn [assign rows].
  rewrite map_map. apply (zip_with_map (row_put name)).
Qed.

Lemma Forall_zip_put (P : cell -> Prop) (name : string)
      (values : list cell) (rs : list row) :
  Forall P values ->
  Forall (fun r => P (row_get name r)) (zip_with (row_put name) values rs).
Proof.
  intros H. revert rs. induction H as [|v vs Hv _ IH]; intros rs.
  - constructor.
  - destruct rs as [|r rs]; [constructor|]. cbn [zip_with].
    constructor; [now rewrite row_get_put_same | apply IH].
Qed.

Lemma mapM_Forall {A B : Type} (f : A -> outcome B) (P : B -> Prop)
      (l : list A) (l' : list B) :
  (forall x y, f x = Ok y -> P y) -> mapM f l = Ok l' -> Forall P l'.
Proof.
  intros Hf. revert l'. induction l as [|x l IH]; intros l'.
  - intros [= <-]. constructor.
  - cbn [mapM]. destruct (f x) as [y|] eqn:E; [|discriminate]. cbn [bind].
    destruct (mapM f l) as [ys|]; [|discriminate]. cbn [bind].
    intros [= <-]. constructor; [now apply (Hf x) | now apply IH].
Qed.

Lemma tidy_posted (r : row) :
  row_get "posted_on" (tidy r) = row_get "posted_on" r.
Proof.
  unfold tidy, city_step, strip_step.
  now rewrite !row_get_put_other by discriminate.
Qed.

Lemma tidy_city (r : row) (p : string) :
  row_get "place" (tidy r) = Str p ->
  row_get "city" (tidy r) = Str (Py.strip (str_split_first "," p)).
Proof.
  unfold tidy, city_step. rewrite row_get_put_same.
  rewrite row_get_put_other by discriminate. now intros ->.
Qed.

End RowFacts.

(** ** Sorting keeps the records *)

Section SortFacts.

Context {A : Type} (key : A -> Z).

Lemma insert_desc_perm (x : A) (l : list A) :
  Permutation (insert_desc key x l) (x :: l).
Proof.
  induction l as [|y t IH]; [reflexivity|]. cbn [insert_desc].
  destruct (key y <=? key x); [reflexivity|].
  rewrite IH. apply perm_swap.
Qed.

Lemma sort_desc_perm (l : list A) : Permutation (sort_desc key l) l.
Proof.
  induction l as [|x t IH]; [reflexivity|]. cbn [sort_desc].
  rewrite insert_desc_perm. now constructor.
Qed.

Lemma sort_desc_length (l : list A) :
  List.length (sort_desc key l) = List.length l.
Proof. apply Permutation_length, sort_desc_perm. Qed.

Lemma sort_desc_in (x : A) (l : list A) : In x (sort_desc key l) <-> In x l.
Proof.
  split; apply Permutation_in;
    [apply sort_desc_perm | symmetry; apply sort_desc_perm].
Qed.

End SortFacts.

(** ** Cleaning *)

Section CleanFacts.

Variable pd_to_datetime : string -> option Py.datetime.
Variable now : nat -> Py.datetime.

Ltac step H :=
  match type of H with
  | bind (series ?df ?n) _ = _ =>
      let s := fresh "s" in let E := fresh "E" in
      destruct (series df n) as [s|] eqn:E; [cbn [bind] in H | discriminate H]
  | bind (dropna ?df ?n) _ = _ =>
      unfold dropna in H;
      destruct (has_column n (columns df)); [cbn [bind] in H | discriminate H]
  | bind ?m _ = _ =>
      let x := fresh "parsed" in let E := fresh "E" in
      destruct m as [x|] eqn:E; [cbn [bind] in H | discriminate H]
  end.

(** The four assignments after [dropna], record by record. *)
Lemma tidy_rows (df df' : DataFrame) :
  (titles <- series df "job_postings" ;;
   let df := assign df "job_postings" (map (str_map Py.strip) titles) in
   companies <- series df "company" ;;
   let df := assign df "company" (map (str_map Py.strip) companies) in
   places <- series df "place" ;;
   let df := assign df "place" (map (str_map Py.strip) places) in
   places <- series df "place" ;;
   Ok (assign df "city"
         (map (str_map Py.strip)
              (map (str_map (str_split_first ",")) places)))) = Ok df' ->
  rows df' = map tidy (rows df).
Proof.
  intros H. cbv zeta in H. do 4 step H. injection H as <-.
  rewrite map_map.
  rewrite (assign_rows _ "city" "place"
             (fun c => str_map Py.strip (str_map (str_split_first ",") c)) _ E2).
  rewrite (assign_rows _ "place" "place" _ _ E1).
  rewrite (assign_rows _ "company" "company" _ _ E0).
  rewrite (assign_rows _ "job_postings" "job_postings" _ _ E).
  rewrite !map_map. reflexivity.
Qed.

Lemma testdash_clean_rows (df df' : DataFrame) :
  Testdash.clean pd_to_datetime df = Ok df' ->
  exists parsed,
    mapM (Testdash.apply_parse pd_to_datetime)
         (map (row_get "posted_on") (rows df)) = Ok parsed
    /\ rows df'
       = map tidy (filter has_date
                     (zip_with (row_put "posted_on") parsed (rows df))).
Proof.
  intros H. unfold Testdash.clean in H. step H.
  apply series_inv in E. subst s. step H. exists parsed. split; [reflexivity|].
  cbv zeta in H. step H. now apply tidy_rows in H.
Qed.

Lemma testdash2_clean_rows (df df' : DataFrame) :
  Testdash2.clean pd_to_datetime now df = Ok df' ->
  exists parsed,
    Testdash2.apply_parse pd_to_datetime now 0
      (map (row_get "posted_on") (rows df)) = Ok parsed
    /\ forall r, In r (rows df') ->
         In r (map tidy (filter has_date
                           (zip_with (row_put "posted_on") parsed (rows df)))).
Proof.
  intros H. unfold Testdash2.clean in H. step H.
  apply series_inv in E. subst s. step H. exists parsed. split; [reflexivity|].
  cbv zeta in H. step H. do 4 step H.
  match type of H with
  | sort_values_desc ?d _ = _ => set (df4 := d) in *
  end.
  assert (R : rows df4
              = map tidy (filter has_date
                  (zip_with (row_put "posted_on") parsed (rows df)))).
  { match type of E0 with
    | series ?d _ = _ => apply (tidy_rows d)
    end.
    cbv zeta. rewrite E0. cbn [bind]. rewrite E1. cbn [bind].
    rewrite E2. cbn [bind]. rewrite E3. reflexivity. }
  unfold sort_values_desc in H.
  destruct (has_column "posted_on" (columns df4)); [|discriminate].
  injection H as <-. cbn [rows]. intros r Hr. rewrite <- R.
  apply in_app_or in Hr as [Hr | Hr].
  - apply sort_desc_in in Hr. now apply filter_In in Hr.
  - now apply filter_In in Hr.
Qed.

(** What the parsers return is a timestamp or the sentinel. *)
Lemma shift_kind (t d : Z) (c : cell) :
  (delta <- Py.timedelta_days d ;;
   t' <- Py.datetime_sub t delta ;; Ok (Time t')) = Ok c ->
  is_time c = true.
Proof.
  unfold Py.timedelta_days, Py.datetime_sub.
  destruct (Z.abs d <=? 999999999); cbn [bind]; [|discriminate].
  destruct (Py.in_range _); cbn [bind]; [|discriminate]. now intros [= <-].
Qed.

Lemma testdash_body_kind (s : string) (t : Z) (c : cell) :
  Testdash.parse_body pd_to_datetime s t = Ok c -> is_time c = true.
Proof.
  unfold Testdash.parse_body, Testdash.to_datetime, Py.timedelta_weeks.
  repeat match goal with
         | |- context [if ?b then _ else _] => destruct b
         end;
    try (destruct (first_int s); cbn [bind]; [apply shift_kind | discriminate]);
    destruct (pd_to_datetime s); try discriminate; now intros [= <-].
Qed.

Lemma testdash_parse_kind (s : string) (reference : option Py.datetime)
      (c : cell) :
  Testdash.parse_relative_date pd_to_datetime s reference = Ok c ->
  c = NaN \/ is_time c = true.
Proof.
  unfold Testdash.parse_relative_date.
  destruct (Testdash.parse_body _ _ _) as [c'|e] eqn:E.
  - intros [= <-]. right. now apply testdash_body_kind in E.
  - destruct e; try discriminate; intros [= <-]; now left.
Qed.

Lemma testdash2_body_kind (s : string) (t : Z) (c : cell) :
  Testdash2.parse_body pd_to_datetime s t = Ok c ->
  c = NaN \/ is_time c = true.
Proof.
  unfold Testdash2.parse_body, Testdash2.to_datetime, Py.timedelta_weeks.
  repeat match goal with
         | |- context [if ?b then _ else _] => destruct b
         end;
    try (destruct (first_int (Py.lower s)); cbn [bind];
         [intros H; right; now apply shift_kind in H | discriminate]);
    destruct (pd_to_datetime s); intros [= <-]; auto.
Qed.

Lemma testdash2_parse_kind (call : nat) (s : string)
      (reference : option Py.datetime) (c : cell) :
  Testdash2.parse_relative_date pd_to_datetime now call s reference = Ok c ->
  c = NaN \/ is_time c = true.
Proof.
  unfold Testdash2.parse_relative_date.
  destruct (Testdash2.parse_body _ _ _) as [c'|e] eqn:E.
  - intros [= <-]. now apply testdash2_body_kind in E.
  - intros [= <-]. now left.
Qed.

Lemma testdash2_apply_kind (call : nat) (posted parsed : list cell) :
  Testdash2.apply_parse pd_to_datetime now call posted = Ok parsed ->
  Forall (fun c => c = NaN \/ is_time c = true) parsed.
Proof.
  revert call parsed. induction posted as [|c t IH]; intros call parsed.
  - intros [= <-]. constructor.
  - cbn [Testdash2.apply_parse].
    destruct (match c with
              | Str s => Testdash2.parse_relative_date pd_to_datetime now call s None
              | _ => Ok NaN
              end) as [y|] eqn:E; [|discriminate]. cbn [bind].
    destruct (Testdash2.apply_parse _ _ (S call) t) as [ys|] eqn:E';
      [|discriminate]. cbn [bind]. intros [= <-]. constructor.
    + destruct c; try (injection E as <-; now left).
      now apply testdash2_parse_kind in E.
    + now apply (IH (S call)).
Qed.

(** After [dropna] every record left carries a timestamp. *)
Lemma dated_rows (parsed : list cell) (rs : list row) :
  Forall (fun c => c = NaN \/ is_time c = true) parsed ->
  Forall (fun r => is_time (row_get "posted_on" r) = true)
         (map tidy (filter has_date (zip_with (row_put "posted_on") parsed rs))).
Proof.
  intros H. apply (Forall_zip_put _ "posted_on" _ rs) in H.
  rewrite Forall_forall in *. intros r' Hr'.
  apply in_map_iff in Hr' as (r & <- & Hr). rewrite tidy_posted.
  apply filter_In in Hr as [Hr Hd]. unfold has_date in Hd.
  destruct (H r Hr) as [E | E]; [now rewrite E in Hd | assumption].
Qed.

End CleanFacts.

(** ** The first piece of a text split at commas *)

Section SplitFacts.

Lemma split_on_cons (sep c : ascii) (r : string) :
  Py.split_on sep (String c r)
  = if Ascii.eqb c sep then EmptyString :: Py.split_on sep r
    else match Py.split_on sep r with
         | w :: ws => String c w :: ws
         | [] => [String c EmptyString]
         end.
Proof. reflexivity. Qed.

Lemma split_first_cons (sep c : ascii) (r : string) :
  str_split_first sep (String c r)
  = if Ascii.eqb c sep then EmptyString
    else String c (str_split_first sep r).
Proof.
  unfold str_split_first. rewrite split_on_cons.
  destruct (Ascii.eqb c sep); [reflexivity|].
  destruct (Py.split_on sep r) eqn:E; [|reflexivity].
  destruct r; cbn in E; [discriminate|].
  destruct (Ascii.eqb a sep); [discriminate|].
  destruct (Py.split_on sep r); discriminate.
Qed.

Lemma contains_comma_cons (c : ascii) (r : string) :
  Py.contains "," (String c r) = Ascii.eqb c "," || Py.contains "," r.
Proof.
  cbn [Py.contains String.prefix].
  destruct (Ascii.eqb_spec c ",") as [->|Hne].
  - now destruct r.
  - destruct (Ascii.ascii_dec "," c) as [<-|]; [contradiction | reflexivity].
Qed.

(** Without a comma the first piece is the whole text. *)
Lemma split_first_whole (s : string) :
  Py.contains "," s = false -> str_split_first "," s = s.
Proof.
  induction s as [|c r IH]; [reflexivity|].
  rewrite contains_comma_cons, split_first_cons. intros H.
  apply orb_false_iff in H as [Hc Hr]. now rewrite Hc, IH.
Qed.

(** With a comma it is what stands before the first one. *)
Lemma split_first_before (a b : string) :
  Py.contains "," a = false ->
  str_split_first "," (a ++ String "," b) = a.
Proof.
  induction a as [|c r IH]; [reflexivity|].
  rewrite contains_comma_cons. intros H.
  apply orb_false_iff in H as [Hc Hr].
  change (String c r ++ String "," b)%string
    with (String c (r ++ String "," b)).
  now rewrite split_first_cons, Hc, IH.
Qed.

End SplitFacts.

(** ** Counting values *)

Section TallyFacts.

Lemma cell_eqb_spec (a b : cell) : reflect (a = b) (cell_eqb a b).
Proof.
  destruct a as [s|t|], b as [s'|t'|]; cbn [cell_eqb];
    try (constructor; congruence).
  - destruct (String.eqb_spec s s'); constructor; congruence.
  - destruct (Z.eqb_spec t t'); constructor; congruence.
Qed.

Lemma cell_eqb_refl (a : cell) : cell_eqb a a = true.
Proof. now destruct (cell_eqb_spec a a). Qed.

Lemma cell_eqb_sym (a b : cell) : cell_eqb a b = cell_eqb b a.
Proof.
  destruct (cell_eqb_spec a b), (cell_eqb_spec b a); congruence.
Qed.

Lemma tally_snoc (l : list cell) (x : cell) :
  tally (l ++ [x]) = bump x (tally l).
Proof. unfold tally. now rewrite fold_left_app. Qed.

Lemma bump_keys (x : cell) (t : list (cell * nat)) :
  map fst (bump x t)
  = if existsb (fun y => cell_eqb y x) (map fst t) then map fst t
    else map fst t ++ [x].
Proof.
  induction t as [|[y n] t IH]; [reflexivity|].
  cbn [bump map fst existsb]. destruct (cell_eqb y x); [reflexivity|].
  cbn [map fst orb]. rewrite IH. now destruct (existsb _ _).
Qed.

Lemma existsb_cell (x : cell) (l : list cell) :
  existsb (fun y => cell_eqb y x) l = true <-> In x l.
Proof.
  rewrite existsb_exists. split.
  - intros (y & Hy & E). now destruct (cell_eqb_spec y x) as [->|].
  - intros H. exists x. split; [assumption | apply cell_eqb_refl].
Qed.

Lemma bump_keys_in (x : cell) (t : list (cell * nat)) :
  In x (map fst t) -> map fst (bump x t) = map fst t.
Proof.
  intros H. rewrite bump_keys. apply existsb_cell in H. now rewrite H.
Qed.

Lemma bump_keys_new (x : cell) (t : list (cell * nat)) :
  ~ In x (map fst t) -> map fst (bump x t) = map fst t ++ [x].
Proof.
  intros H. rewrite bump_keys.
  destruct (existsb _ _) eqn:E; [|reflexivity].
  apply existsb_cell in E. contradiction.
Qed.

(** The keys of the table are the values seen. *)
Lemma tally_keys (l : list cell) (v : cell) :
  In v (map fst (tally l)) <-> In v l.
Proof.
  induction l as [|x l IH] using rev_ind; [reflexivity|].
  rewrite tally_snoc, in_app_iff. cbn [In].
  destruct (in_dec cell_eq_dec x (map fst (tally l))) as [Hin | Hout].
  - rewrite bump_keys_in by assumption. rewrite IH. split; [tauto|].
    intros [H | [<- | []]]; [assumption | now apply IH].
  - rewrite bump_keys_new, in_app_iff by assumption. cbn [In]. now rewrite IH.
Qed.

Lemma tally_nodup (l : list cell) : NoDup (map fst (tally l)).
Proof.
  induction l as [|x l IH] using rev_ind; [constructor|].
  rewrite tally_snoc.
  destruct (in_dec cell_eq_dec x (map fst (tally l))) as [Hin | Hout].
  - now rewrite bump_keys_in.
  - rewrite bump_keys_new by assumption.
    apply NoDup_app; [assumption | repeat constructor; easy |].
    intros a Ha [<- | []]. contradiction.
Qed.

Lemma bump_lookup (v x : cell) (t : list (cell * nat)) :
  lookup v (bump x t)
  = (lookup v t + if cell_eqb x v then 1 else 0)%nat.
Proof.
  induction t as [|[y n] t IH].
  - cbn [bump lookup]. now destruct (cell_eqb x v).
  - cbn [bump lookup]. destruct (cell_eqb_spec y x) as [->|Hne].
    + cbn [lookup]. destruct (cell_eqb x v); lia.
    + cbn [lookup]. destruct (cell_eqb_spec y v) as [->|]; [|exact IH].
      destruct (cell_eqb_spec x v); [congruence | lia].
Qed.

Lemma count_cell_snoc (v x : cell) (l : list cell) :
  count_cell v (l ++ [x])
  = (count_cell v l + if cell_eqb x v then 1 else 0)%nat.
Proof.
  unfold count_cell. rewrite filter_app, length_app. cbn [filter].
  rewrite (cell_eqb_sym v x). now destruct (cell_eqb x v).
Qed.

Lemma tally_lookup (l : list cell) (v : cell) :
  lookup v (tally l) = count_cell v l.
Proof.
  induction l as [|x l IH] using rev_ind; [reflexivity|].
  now rewrite tally_snoc, bump_lookup, count_cell_snoc, IH.
Qed.

Lemma lookup_in (t : list (cell * nat)) (v : cell) (n : nat) :
  NoDup (map fst t) -> In (v, n) t -> lookup v t = n.
Proof.
  induction t as [|[y m] t IH]; [easy|].
  cbn [map fst lookup]. intros Hnd [E | Hin].
  - injection E as -> ->. now rewrite cell_eqb_refl.
  - inversion Hnd as [|? ? Hy Ht]; subst.
    destruct (cell_eqb_spec y v) as [->|]; [|now apply IH].
    exfalso. apply Hy. now apply (in_map fst) in Hin.
Qed.

(** Each entry of the table carries the number of occurrences. *)
Lemma tally_counts (l : list cell) (v : cell) (n : nat) :
  In (v, n) (tally l) -> In v l /\ n = count_cell v l.
Proof.
  intros H. split.
  - apply tally_keys. now apply (in_map fst) in H.
  - rewrite <- tally_lookup. symmetry. apply lookup_in; [apply tally_nodup|].
    assumption.
Qed.

Lemma first_index_app (v : cell) (l m : list cell) :
  In v l -> first_index v (l ++ m) = first_index v l.
Proof.
  induction l as [|x l IH]; [easy|]. cbn [app first_index].
  destruct (cell_eqb_spec x v) as [->|Hne]; [reflexivity|].
  intros [E | H]; [contradiction | now rewrite IH].
Qed.

Lemma first_index_lt (v : cell) (l : list cell) :
  In v l -> (first_index v l < List.length l)%nat.
Proof.
  induction l as [|x l IH]; [easy|]. cbn [first_index List.length].
  destruct (cell_eqb_spec x v) as [->|Hne]; [lia|].
  intros [E | H]; [contradiction|]. apply IH in H. lia.
Qed.

Lemma first_index_new (v : cell) (l : list cell) :
  ~ In v l -> first_index v (l ++ [v]) = List.length l.
Proof.
  induction l as [|x l IH].
  - intros _. cbn. now rewrite cell_eqb_refl.
  - cbn [app first_index List.length In]. intros H.
    destruct (cell_eqb_spec x v) as [->|Hne]; [tauto|].
    rewrite IH; tauto.
Qed.

Lemma StronglySorted_in {A : Type} (R R' : A -> A -> Prop) (l : list A) :
  (forall a b, In a l -> In b l -> R a b -> R' a b) ->
  StronglySorted R l -> StronglySorted R' l.
Proof.
  intros H S. induction S as [|a l S IH F]; constructor.
  - apply IH. intros x y Hx Hy. apply H; now right.
  - rewrite Forall_forall in *. intros y Hy.
    apply H; [now left | now right | now apply F].
Qed.

Lemma StronglySorted_snoc {A : Type} (R : A -> A -> Prop) (l : list A) (x : A) :
  StronglySorted R l -> Forall (fun y => R y x) l ->
  StronglySorted R (l ++ [x]).
Proof.
  intros S. induction S as [|a l S IH F]; intros Hx.
  - repeat constructor.
  - inversion Hx as [|? ? Ha Hl]; subst. cbn [app]. constructor.
    + now apply IH.
    + apply Forall_app. split; [assumption | now repeat constructor].
Qed.

(** The keys stand in the order in which the values were first seen. *)
Lemma tally_order (l : list cell) :
  StronglySorted (fun a b => (first_index a l < first_index b l)%nat)
                 (map fst (tally l)).
Proof.
  induction l as [|x l IH] using rev_ind; [constructor|].
  rewrite tally_snoc.
  assert (S' : StronglySorted
                 (fun a b => (first_index a (l ++ [x])
                              < first_index b (l ++ [x]))%nat)
                 (map fst (tally l))).
  { revert IH. apply StronglySorted_in. intros a b Ha Hb.
    apply (proj1 (tally_keys _ _)) in Ha, Hb. now rewrite !first_index_app. }
  destruct (in_dec cell_eq_dec x (map fst (tally l))) as [Hin | Hout].
  - now rewrite bump_keys_in.
  - rewrite bump_keys_new by assumption.
    apply StronglySorted_snoc; [assumption|].
    rewrite Forall_forall. intros y Hy. apply (proj1 (tally_keys _ _)) in Hy.
    rewrite first_index_app by assumption.
    rewrite first_index_new by (now rewrite <- tally_keys).
    now apply first_index_lt.
Qed.

End TallyFacts.

(** ** Ranking with the stable sort *)

Section StableSort.

Context {A : Type} (key : A -> Z) (rank : A -> nat).

Lemma Forall_perm (P : A -> Prop) (l l' : list A) :
  Permutation l l' -> Forall P l -> Forall P l'.
Proof.
  intros Hp. rewrite !Forall_forall. intros H x Hx. apply H.
  apply (Permutation_in x (Permutation_sym Hp) Hx).
Qed.

Lemma insert_desc_sorted (x : A) (l : list A) :
  StronglySorted (desc_then key rank) l ->
  Forall (fun y => (rank x < rank y)%nat) l ->
  StronglySorted (desc_then key rank) (insert_desc key x l).
Proof.
  intros S. induction S as [|y t S IH F]; intros Hx.
  - repeat constructor.
  - cbn [insert_desc]. inversion Hx as [|? ? Hy Ht]; subst.
    destruct (Z.leb_spec (key y) (key x)) as [Hle | Hgt].
    + constructor; [now constructor|].
      constructor.
      * unfold desc_then. lia.
      * rewrite Forall_forall in *. intros z Hz.
        specialize (F z Hz). specialize (Ht z Hz). unfold desc_then in *. lia.
    + constructor; [now apply IH|].
      apply (Forall_perm _ (x :: t));
        [symmetry; apply insert_desc_perm|].
      constructor; [unfold desc_then; lia | assumption].
Qed.

Lemma sort_desc_sorted (l : list A) :
  StronglySorted (fun a b => (rank a < rank b)%nat) l ->
  StronglySorted (desc_then key rank) (sort_desc key l).
Proof.
  intros S. induction S as [|x t S IH F]; [constructor|].
  cbn [sort_desc]. apply insert_desc_sorted; [assumption|].
  apply (Forall_perm _ t); [symmetry; apply sort_desc_perm|].
  assumption.
Qed.

End StableSort.

(** The sort puts the larger key first. *)
Lemma sort_desc_descending {A : Type} (key : A -> Z) (l : list A) :
  StronglySorted (fun a b => key b <= key a) (sort_desc key l).
Proof.
  induction l as [|x l IH]; [constructor|]. cbn [sort_desc].
  induction IH as [|y t S IHt F]; [repeat constructor|].
  cbn [insert_desc]. destruct (Z.leb_spec (key y) (key x)) as [Hle | Hgt].
  - constructor; [now constructor|]. constructor; [assumption|].
    rewrite Forall_forall in *. intros z Hz. specialize (F z Hz). lia.
  - constructor; [assumption|].
    apply (Forall_perm _ (x :: t)); [symmetry; apply insert_desc_perm|].
    constructor; [lia | assumption].
Qed.

Section ListFacts.

Context {A : Type}.

Lemma StronglySorted_map {B : Type} (f : A -> B) (R : B -> B -> Prop)
      (l : list A) :
  StronglySorted R (map f l) ->
  StronglySorted (fun a b => R (f a) (f b)) l.
Proof.
  induction l as [|x l IH]; [constructor|]. cbn [map].
  intros S. inversion S as [|? ? S' F]; subst.
  constructor; [now apply IH | now rewrite Forall_map in F].
Qed.

Lemma StronglySorted_app_inv (R : A -> A -> Prop) (l m : list A) :
  StronglySorted R (l ++ m) ->
  StronglySorted R l /\ forall a b, In a l -> In b m -> R a b.
Proof.
  induction l as [|x l IH]; cbn [app].
  - intros _. split; [constructor | easy].
  - intros S. inversion S as [|? ? S' F]; subst.
    destruct (IH S') as [Sl Hlm]. apply Forall_app in F as [Fl Fm]. split.
    + now constructor.
    + intros a b [<- | Ha] Hb; [|now apply Hlm].
      rewrite Forall_forall in Fm. now apply Fm.
Qed.

Lemma StronglySorted_firstn (R : A -> A -> Prop) (n : nat) (l : list A) :
  StronglySorted R l -> StronglySorted R (firstn n l).
Proof.
  intros S. rewrite <- (firstn_skipn n l) in S.
  now apply StronglySorted_app_inv in S.
Qed.

Lemma NoDup_firstn_keys {B : Type} (f : A -> B) (n : nat) (l : list A) :
  NoDup (map f l) -> NoDup (map f (firstn n l)).
Proof.
  intros H. rewrite <- (firstn_skipn n l), map_app in H.
  now apply NoDup_app_remove_r in H.
Qed.

Lemma in_firstn (n : nat) (l : list A) (x : A) :
  In x (firstn n l) -> In x l.
Proof.
  intros H. rewrite <- (firstn_skipn n l). apply in_or_app. now left.
Qed.

End ListFacts.

(** ** The ranking of [value_counts] *)

Section RankingFacts.

Lemma series_dropna_in (s : list cell) (v : cell) :
  In v (series_dropna s) <-> In v s /\ v <> NaN.
Proof.
  unfold series_dropna. rewrite filter_In. split.
  - intros [H E]. split; [assumption|]. now intros ->.
  - intros [H E]. split; [assumption|]. now destruct v.
Qed.

Lemma count_cell_dropna (s : list cell) (v : cell) :
  v <> NaN -> count_cell v (series_dropna s) = count_cell v s.
Proof.
  intros Hv. unfold count_cell, series_dropna. rewrite filter_twice.
  f_equal. apply filter_agree. intros x _.
  destruct (cell_eqb_spec v x) as [<-|]; [|apply andb_false_r].
  now destruct v.
Qed.

Lemma first_index_dropna (s : list cell) (u v : cell) :
  u <> NaN -> v <> NaN ->
  (first_index u (series_dropna s) < first_index v (series_dropna s))%nat ->
  (first_index u s < first_index v s)%nat.
Proof.
  intros Hu Hv. unfold series_dropna.
  induction s as [|x t IH]; [easy|]. cbn [filter first_index].
  destruct (notna x) eqn:Ex.
  - cbn [first_index].
    destruct (cell_eqb x u), (cell_eqb x v); lia.
  - destruct x; try discriminate.
    destruct (cell_eqb_spec NaN u) as [<-|]; [congruence|].
    destruct (cell_eqb_spec NaN v) as [<-|]; [congruence|].
    intros H. apply IH in H. lia.
Qed.

Lemma value_counts_perm (s : list cell) :
  Permutation (value_counts s) (tally (series_dropna s)).
Proof. apply sort_desc_perm. Qed.

Lemma value_counts_in (s : list cell) (v : cell) (n : nat) :
  In (v, n) (value_counts s) -> v <> NaN /\ In v s /\ n = count_cell v s.
Proof.
  intros H. apply (Permutation_in _ (value_counts_perm s)) in H.
  apply tally_counts in H as [Hin ->].
  apply series_dropna_in in Hin as [Hin Hv].
  now rewrite count_cell_dropna.
Qed.

Lemma value_counts_keys (s : list cell) (v : cell) :
  In v (map fst (value_counts s)) <-> In v (distinct s).
Proof.
  unfold distinct. rewrite nodup_In, <- (tally_keys (series_dropna s) v).
  split;
    apply Permutation_in, Permutation_map;
    [apply value_counts_perm | symmetry; apply value_counts_perm].
Qed.

Lemma value_counts_nodup (s : list cell) : NoDup (map fst (value_counts s)).
Proof.
  apply (Permutation_NoDup (l := map fst (tally (series_dropna s)))).
  - apply Permutation_map. symmetry. apply value_counts_perm.
  - apply tally_nodup.
Qed.

Lemma value_counts_length (s : list cell) :
  List.length (value_counts s) = List.length (distinct s).
Proof.
  rewrite <- (length_map fst). apply Permutation_length.
  apply NoDup_Permutation.
  - apply value_counts_nodup.
  - apply NoDup_nodup.
  - apply value_counts_keys.
Qed.

(** The ranking under the stable sort: counts descending, and there the
    values of equal count stand in the order of first occurrence in the
    column. *)
Lemma value_counts_sorted (s : list cell) :
  StronglySorted (ranks_before s) (value_counts s).
Proof.
  pose proof (tally_order (series_dropna s)) as S.
  apply StronglySorted_map in S.
  apply (sort_desc_sorted (fun e => Z.of_nat (snd e))
           (fun e => first_index (fst e) (series_dropna s))) in S.
  fold (value_counts s) in S. revert S. apply StronglySorted_in.
  intros [u m] [v n] Hu Hv. apply value_counts_in in Hu as (Hu & _).
  apply value_counts_in in Hv as (Hv & _).
  unfold desc_then, ranks_before. cbn [fst snd].
  intros [H | [H1 H2]]; [left; lia | right].
  split; [lia | now apply first_index_dropna].
Qed.

(** The rankings the scripts chart are the five first entries of
    [value_counts] on the company, place and city columns, whatever the
    sort. *)
Lemma insights_top (sort : list (cell * nat) -> list (cell * nat))
      (df : DataFrame) (s : summary) :
  Testdash.insights_by sort df = Ok s ->
  exists company place city,
    series df "company" = Ok company /\ series df "place" = Ok place
    /\ series df "city" = Ok city
    /\ top_companies s = head 5 (value_counts_by sort company)
    /\ top_places s = head 5 (value_counts_by sort place)
    /\ city_counts s = head 5 (value_counts_by sort city).
Proof.
  unfold Testdash.insights_by.
  destruct (series df "company") as [company|]; [|discriminate].
  destruct (series df "place") as [place|]; [|discriminate].
  destruct (series df "status") as [status|]; [|discriminate].
  destruct (series df "city") as [city|]; [|discriminate].
  cbn [bind]. intros [= <-]. exists company, place, city. now repeat split.
Qed.

Lemma make_figures_top (sort : list (cell * nat) -> list (cell * nat))
      (df : DataFrame) (f : Testdash2.figures) :
  Testdash2.make_figures_by sort df = Ok f ->
  exists company place city,
    series df "company" = Ok company /\ series df "place" = Ok place
    /\ series df "city" = Ok city
    /\ Testdash2.fig_companies f = head 5 (value_counts_by sort company)
    /\ Testdash2.fig_places f = head 5 (value_counts_by sort place)
    /\ Testdash2.fig_cities f = head 5 (value_counts_by sort city).
Proof.
  unfold Testdash2.make_figures_by.
  destruct (series df "status") as [status|]; [|discriminate].
  destruct (series df "company") as [company|]; [|discriminate].
  destruct (series df "place") as [place|]; [|discriminate].
  destruct (series df "city") as [city|]; [|discriminate].
  cbn [bind]. intros [= <-]. exists company, place, city. now repeat split.
Qed.

End RankingFacts.

(** ** Rankings, whatever the sort *)

Section RankingBy.

Variable sort : list (cell * nat) -> list (cell * nat).
Hypothesis sort_ok : sorts_descending sort.

Lemma ranking_perm (s : list cell) :
  Permutation (value_counts_by sort s) (tally (series_dropna s)).
Proof. symmetry. apply sort_ok. Qed.

Lemma ranking_in (s : list cell) (v : cell) (n : nat) :
  In (v, n) (value_counts_by sort s) ->
  v <> NaN /\ In v s /\ n = count_cell v s.
Proof.
  intros H. apply (Permutation_in _ (ranking_perm s)) in H.
  apply tally_counts in H as [Hin ->].
  apply series_dropna_in in Hin as [Hin Hv].
  now rewrite count_cell_dropna.
Qed.

Lemma ranking_keys (s : list cell) (v : cell) :
  In v (map fst (value_counts_by sort s)) <-> In v (distinct s).
Proof.
  unfold distinct. rewrite nodup_In, <- (tally_keys (series_dropna s) v).
  split;
    apply Permutation_in, Permutation_map;
    [apply ranking_perm | symmetry; apply ranking_perm].
Qed.

Lemma ranking_nodup (s : list cell) :
  NoDup (map fst (value_counts_by sort s)).
Proof.
  apply (Permutation_NoDup (l := map fst (tally (series_dropna s)))).
  - apply Permutation_map. symmetry. apply ranking_perm.
  - apply tally_nodup.
Qed.

Lemma ranking_length (s : list cell) :
  List.length (value_counts_by sort s) = List.length (distinct s).
Proof.
  rewrite <- (length_map fst). apply Permutation_length.
  apply NoDup_Permutation.
  - apply ranking_nodup.
  - apply NoDup_nodup.
  - apply ranking_keys.
Qed.

Lemma ranking_descends (s : list cell) :
  StronglySorted (fun a b => (snd b <= snd a)%nat) (value_counts_by sort s).
Proof. apply sort_ok. Qed.

End RankingBy.

(** The two sorts of this file do what pandas promises. *)
Lemma sort_stable_ok : sorts_descending sort_stable.
Proof.
  intros l. split; [symmetry; apply sort_desc_perm|].
  pose proof (sort_desc_descending (fun e : cell * nat => Z.of_nat (snd e)) l)
    as S.
  revert S. apply StronglySorted_in. intros a b _ _ H. lia.
Qed.

Lemma insert_late_perm (x : cell * nat) (l : list (cell * nat)) :
  Permutation (insert_late x l) (x :: l).
Proof.
  induction l as [|y t IH]; [reflexivity|]. cbn [insert_late].
  destruct (snd y <? snd x)%nat; [reflexivity|].
  rewrite IH. apply perm_swap.
Qed.

Lemma sort_late_ok : sorts_descending sort_late.
Proof.
  intros l. induction l as [|x l [P S]]; [split; constructor|].
  cbn [sort_late fold_right]. fold (sort_late l). split.
  - rewrite insert_late_perm. now constructor.
  - clear P. induction S as [|y t S IH F]; [repeat constructor|].
    cbn [insert_late]. destruct (Nat.ltb_spec (snd y) (snd x)) as [Hlt | Hge].
    + constructor; [now constructor|]. constructor; [lia|].
      rewrite Forall_forall in *. intros z Hz. specialize (F z Hz). lia.
    + constructor; [assumption|].
      apply (Forall_perm _ (x :: t)); [symmetry; apply insert_late_perm|].
      constructor; [lia | assumption].
Qed.

(** ** The options of the dropdowns *)

Section OptionFacts.

(** [sorted] permutes its list into ascending order, when it returns. *)
Lemma insert_sorted_perm (x : cell) (l l' : list cell) :
  MainDash.insert_sorted x l = Ok l' -> Permutation l' (x :: l).
Proof.
  revert l'. induction l as [|y t IH]; intros l'; cbn [MainDash.insert_sorted].
  - now intros [= <-].
  - destruct (MainDash.cell_leb x y) as [[|]|]; cbn [bind]; try discriminate.
    + now intros [= <-].
    + destruct (MainDash.insert_sorted x t) as [t'|]; cbn [bind];
        [|discriminate].
      intros [= <-]. rewrite (IH t' eq_refl). apply perm_swap.
Qed.

Lemma sorted_perm (l l' : list cell) :
  MainDash.sorted l = Ok l' -> Permutation l' l.
Proof.
  revert l'. induction l as [|x l IH]; intros l'; cbn [MainDash.sorted].
  - now intros [= <-].
  - destruct (MainDash.sorted l) as [t'|]; cbn [bind]; [|discriminate].
    intros H. apply insert_sorted_perm in H. rewrite H.
    constructor. now apply IH.
Qed.

Lemma cell_leb_text (x y : cell) (b : bool) :
  MainDash.cell_leb x y = Ok b ->
  String.leb (MainDash.cell_text x) (MainDash.cell_text y) = b
  \/ (MainDash.cell_text x = EmptyString
      /\ MainDash.cell_text y = EmptyString).
Proof.
  destruct x, y; cbn [MainDash.cell_leb MainDash.cell_text]; try discriminate.
  - intros [= <-]. now left.
  - intros _. now right.
Qed.

Lemma insert_sorted_sorted (x : cell) (l l' : list cell) :
  Sorted (fun a b => String.leb (MainDash.cell_text a) (MainDash.cell_text b)
                     = true) l ->
  MainDash.insert_sorted x l = Ok l' ->
  Sorted (fun a b => String.leb (MainDash.cell_text a) (MainDash.cell_text b)
                     = true) l'.
Proof.
  intros S. revert l'. induction S as [|y t S IH Hd]; intros l';
    cbn [MainDash.insert_sorted].
  - intros [= <-]. repeat constructor.
  - destruct (MainDash.cell_leb x y) as [b|] eqn:E; cbn [bind];
      [|discriminate].
    apply cell_leb_text in E. destruct b.
    + intros [= <-]. constructor; [now constructor|]. constructor.
      destruct E as [E | [-> ->]]; [assumption | reflexivity].
    + destruct (MainDash.insert_sorted x t) as [t'|] eqn:Et; cbn [bind];
        [|discriminate].
      intros [= <-]. constructor; [now apply IH|].
      assert (Hyx : String.leb (MainDash.cell_text y) (MainDash.cell_text x)
                    = true).
      { destruct E as [E | [-> ->]]; [|reflexivity].
        destruct (String.leb_total (MainDash.cell_text x)
                                   (MainDash.cell_text y)); congruence. }
      destruct t as [|z t0]; cbn [MainDash.insert_sorted] in Et.
      * injection Et as <-. now constructor.
      * destruct (MainDash.cell_leb x z) as [[|]|]; cbn [bind] in Et;
          try discriminate.
        -- injection Et as <-. now constructor.
        -- destruct (MainDash.insert_sorted x t0); cbn [bind] in Et;
             [|discriminate].
           injection Et as <-. constructor. now inversion Hd.
Qed.

Lemma sorted_sorted (l l' : list cell) :
  MainDash.sorted l = Ok l' ->
  Sorted (fun a b => String.leb (MainDash.cell_text a) (MainDash.cell_text b)
                     = true) l'.
Proof.
  revert l'. induction l as [|x l IH]; intros l'; cbn [MainDash.sorted].
  - intros [= <-]. constructor.
  - destruct (MainDash.sorted l) as [t'|]; cbn [bind]; [|discriminate].
    apply insert_sorted_sorted. now apply IH.
Qed.

(** Texts always sort. *)
Lemma insert_sorted_texts (s : string) (l : list cell) :
  Forall (fun c => exists t, c = Str t) l ->
  exists l', MainDash.insert_sorted (Str s) l = Ok l'
             /\ Forall (fun c => exists t, c = Str t) l'.
Proof.
  intros F. induction F as [|y t (u & ->) F IH]; cbn [MainDash.insert_sorted].
  - eexists. split; [reflexivity|]. repeat constructor. eauto.
  - cbn [MainDash.cell_leb bind]. destruct (String.leb s u).
    + eexists. split; [reflexivity|]. repeat constructor; eauto.
    + destruct IH as (t' & -> & Ft'). cbn [bind]. eexists.
      split; [reflexivity|]. constructor; eauto.
Qed.

Lemma sorted_texts (l : list cell) :
  Forall (fun c => exists t, c = Str t) l ->
  exists l', MainDash.sorted l = Ok l'
             /\ Forall (fun c => exists t, c = Str t) l'.
Proof.
  intros F. induction F as [|x t (s & ->) F IH]; cbn [MainDash.sorted].
  - exists []. now split.
  - destruct IH as (t' & -> & Ft'). cbn [bind].
    now apply insert_sorted_texts.
Qed.

(** The options of a column of text are always made. *)
Lemma options_texts (df : DataFrame) (name : string) :
  occurrences name (columns df) = 1%nat ->
  text_cells name df ->
  exists opts, MainDash.options df name = Ok opts.
Proof.
  intros Hc Ht. unfold MainDash.options. rewrite series_unique by assumption.
  cbn [bind].
  destruct (sorted_texts (unique (series_dropna (map (row_get name) (rows df)))))
    as (opts & E & _); [|eauto].
  rewrite Forall_forall. intros c Hc'.
  apply tally_keys, series_dropna_in in Hc' as [Hin Hna].
  apply in_map_iff in Hin as (r & <- & Hr).
  unfold text_cells in Ht. rewrite Forall_forall in Ht. specialize (Ht r Hr).
  destruct (row_get name r) as [t| |]; [eauto | discriminate | contradiction].
Qed.

Lemma all_text_cells (name : string) (df : DataFrame) :
  all_text name df -> text_cells name df.
Proof.
  apply Forall_impl. intros r [s ->]. reflexivity.
Qed.

(** The table update on a sheet of text: the records it returns. *)
Lemma update_table_data (fetched : outcome DataFrame)
      (companies places statuses : option (list string))
      (keywords : option string) :
  let df := MainDash.load_data fetched in
  occurrences "company" (columns df) = 1%nat ->
  occurrences "place" (columns df) = 1%nat ->
  occurrences "status" (columns df) = 1%nat ->
  text_cells "company" df -> text_cells "place" df ->
  text_cells "status" df ->
  (MainDash.nonempty (MainDash.typed keywords) = true ->
   occurrences "job_description" (columns df) = 1%nat) ->
  MainDash.terms_of (MainDash.typed keywords) = []
  \/ Forall (fun r => is_time (row_get "job_description" r) = false) (rows df) ->
  exists out,
    MainDash.update_table fetched companies places statuses keywords = Ok out
    /\ MainDash.data out
       = filter (matches companies places statuses keywords) (rows df).
Proof.
  intros df Hc Hp Hs Tc Tp Ts Hd Hcells. unfold MainDash.update_table. fold df.
  destruct (empty df) eqn:He.
  - eexists. split; [reflexivity|]. cbn [MainDash.data].
    unfold empty in He. destruct (columns df); [discriminate|].
    now destruct (rows df).
  - destruct (options_texts df "company" Hc Tc) as [co ->].
    destruct (options_texts df "place" Hp Tp) as [po ->].
    destruct (options_texts df "status" Hs Ts) as [so ->].
    cbn [bind]. rewrite (filter_isin_spec df) by assumption. cbn [bind].
    rewrite filter_isin_spec by assumption. cbn [bind columns rows].
    rewrite filter_isin_spec by assumption. cbn [bind columns rows].
    rewrite filter_keywords_spec; cbn [columns rows].
    + cbn [bind]. eexists. split; [reflexivity|]. cbn [MainDash.data rows].
      rewrite !filter_twice. apply filter_agree. intros r _.
      unfold matches. now rewrite !andb_assoc.
    + assumption.
    + destruct Hcells as [H|H]; [now left | right].
      now do 3 apply Forall_filter.
Qed.

End OptionFacts.

(** ** The header check of [testdash.py] and [testdash2.py] *)

Section SchemaFacts.

Variable pd_to_datetime : string -> option Py.datetime.
Variable now : nat -> Py.datetime.

(** The list of missing columns names exactly the expected columns that
    the frame lacks. *)
Lemma missing_cols_spec (df : DataFrame) (col : string) :
  In col (missing_cols df)
  <-> In col (map snd expected_columns)
      /\ has_column col (columns df) = false.
Proof.
  unfold missing_cols. rewrite filter_In.
  now rewrite negb_true_iff.
Qed.

Lemma testdash_missing_exits (header first : list string)
      (body : list (list string)) (df : DataFrame) :
  from_values header (first :: body) = Ok df ->
  let df' := rename_columns
               (Testdash.column_mapping (columns (normalize_columns df)))
               (normalize_columns df) in
  missing_cols df' <> [] ->
  Testdash.main pd_to_datetime (header :: first :: body)
  = Exited (MissingColumns (missing_cols df')).
Proof.
  intros Hf df' Hm. unfold Testdash.main. rewrite Hf.
  cbn [run_of run_bind]. fold df'.
  destruct (missing_cols df'); [contradiction | reflexivity].
Qed.

Lemma testdash2_missing_exits (header first : list string)
      (body : list (list string)) (df : DataFrame) :
  from_values header (first :: body) = Ok df ->
  let df' := rename_columns expected_columns (normalize_columns df) in
  missing_cols df' <> [] ->
  Testdash2.main pd_to_datetime now (header :: first :: body)
  = Exited (MissingColumns (missing_cols df')).
Proof.
  intros Hf df' Hm. unfold Testdash2.main. rewrite Hf.
  cbn [run_of run_bind]. fold df'.
  destruct (missing_cols df'); [contradiction | reflexivity].
Qed.

End SchemaFacts.

(** ** The words of the filter specification *)

Section FilterWords.

Lemma existsb_string (s : string) (vs : list string) :
  existsb (String.eqb s) vs = true <-> In s vs.
Proof.
  rewrite existsb_exists. split.
  - intros (x & Hx & E). apply String.eqb_eq in E. now subst.
  - intros H. exists s. split; [assumption | apply String.eqb_refl].
Qed.

Lemma dimension_ok_member (values : option (list string)) (c : cell) :
  dimension_ok values c = true <-> member values c.
Proof.
  unfold member, dimension_ok, MainDash.chosen.
  destruct values as [[|v vs]|].
  - split; [now left | reflexivity].
  - destruct c as [s| |].
    + rewrite existsb_string. split.
      * intros H. right. eauto.
      * intros [H | (s' & [= <-] & H)]; [discriminate | assumption].
    + split; [discriminate|]. intros [H | (s' & H & _)]; discriminate.
    + split; [discriminate|]. intros [H | (s' & H & _)]; discriminate.
  - split; [now left | reflexivity].
Qed.

Lemma nonempty_iff (s : string) :
  MainDash.nonempty s = true <-> s <> EmptyString.
Proof. destruct s; split; easy. Qed.

Lemma describes_mentions (keywords : string) (c : cell) :
  describes keywords c = true <-> mentions keywords c.
Proof.
  unfold describes, mentions. destruct c as [text| |].
  - rewrite existsb_exists. split.
    + intros (k & Hk & E). apply andb_true_iff in E as [E1 E2].
      apply nonempty_iff in E1. exists k, text. auto.
    + intros (k & text' & Hk & Hne & [= <-] & Hc). exists k.
      split; [assumption|]. apply andb_true_iff.
      split; [now apply nonempty_iff | assumption].
  - split; [discriminate|]. intros (k & text & _ & _ & H & _). discriminate.
  - split; [discriminate|]. intros (k & text & _ & _ & H & _). discriminate.
Qed.

Lemma matches_satisfies (companies places statuses : option (list string))
      (keywords : option string) (r : row) :
  matches companies places statuses keywords r = true
  <-> satisfies companies places statuses keywords r.
Proof.
  unfold matches, satisfies. rewrite !andb_true_iff, !dimension_ok_member.
  assert (K : keywords_ok keywords (row_get "job_description" r) = true
              <-> MainDash.typed keywords = EmptyString
                  \/ mentions (MainDash.typed keywords)
                              (row_get "job_description" r)).
  { destruct keywords as [[|c kw]|]; cbn [keywords_ok MainDash.typed].
    - split; [now left | reflexivity].
    - rewrite describes_mentions. split; [now right|].
      intros [H | H]; [discriminate | assumption].
    - split; [now left | reflexivity]. }
  rewrite K. tauto.
Qed.

End FilterWords.

(** ** From the scripts to their cleaning step *)

Section MainFacts.

Variable pd_to_datetime : string -> option Py.datetime.
Variable now : nat -> Py.datetime.

Lemma testdash_main_clean (data : list (list string)) (df : DataFrame)
      (s : summary) :
  Testdash.main pd_to_datetime data = Done (df, s) ->
  exists df0, Testdash.clean pd_to_datetime df0 = Ok df.
Proof.
  unfold Testdash.main. destruct data as [|header [|first body]];
    try discriminate.
  destruct (from_values header (first :: body)) as [df1|]; [|discriminate].
  cbn [run_of run_bind]. destruct (missing_cols _); [|discriminate].
  match goal with
  | |- context [Testdash.clean _ ?d] =>
      destruct (Testdash.clean pd_to_datetime d) as [df2|] eqn:E;
      [|discriminate]; exists d
  end.
  cbn [bind] in H. destruct (Testdash.insights df2); cbn [bind run_of] in H;
    [|discriminate].
  now injection H as <- _.
Qed.

Lemma testdash2_main_clean (data : list (list string)) (df : DataFrame) :
  Testdash2.main pd_to_datetime now data = Done df ->
  exists df0, Testdash2.clean pd_to_datetime now df0 = Ok df.
Proof.
  unfold Testdash2.main. destruct data as [|header [|first body]];
    try discriminate.
  destruct (from_values header (first :: body)) as [df1|]; [|discriminate].
  cbn [run_of run_bind]. destruct (missing_cols _); [|discriminate].
  match goal with
  | |- context [Testdash2.clean _ _ ?d] =>
      destruct (Testdash2.clean pd_to_datetime now d) as [df2|] eqn:E;
      [|discriminate]; exists d
  end.
  cbn [run_of] in H. now injection H as <-.
Qed.

Lemma testdash_apply_kind (x y : cell) :
  Testdash.apply_parse pd_to_datetime x = Ok y ->
  y = NaN \/ is_time y = true.
Proof.
  destruct x as [s| |]; cbn [Testdash.apply_parse]; try discriminate.
  apply testdash_parse_kind.
Qed.

(** The records a script works on after cleaning are tidied records with
    a timestamp. *)
Lemma cleaned_rows (data : list (list string)) (df : DataFrame) (s : summary) :
  Testdash.main pd_to_datetime data = Done (df, s)
  \/ Testdash2.main pd_to_datetime now data = Done df ->
  forall r, In r (rows df) ->
    exists r0, r = tidy r0 /\ is_time (row_get "posted_on" r) = true.
Proof.
  intros [H | H] r Hr.
  - apply testdash_main_clean in H as [df0 H].
    apply testdash_clean_rows in H as (parsed & Hp & Hrows).
    rewrite Hrows in Hr.
    assert (F := dated_rows parsed (rows df0)
                   (mapM_Forall _ _ _ _ testdash_apply_kind Hp)).
    rewrite Forall_forall in F. specialize (F r Hr).
    apply in_map_iff in Hr as (r0 & <- & _). now exists r0.
  - apply testdash2_main_clean in H as [df0 H].
    apply testdash2_clean_rows in H as (parsed & Hp & Hrows).
    apply Hrows in Hr.
    assert (F := dated_rows parsed (rows df0)
                   (testdash2_apply_kind pd_to_datetime now _ _ _ Hp)).
    rewrite Forall_forall in F. specialize (F r Hr).
    apply in_map_iff in Hr as (r0 & <- & _). now exists r0.
Qed.

Lemma occurrences_has (name : string) (cols : list string) :
  occurrences name cols = 1%nat -> has_column name cols = true.
Proof.
  unfold has_column. induction cols as [|c t IH]; [discriminate|].
  cbn [occurrences existsb]. rewrite (String.eqb_sym name c).
  destruct (String.eqb c name); [reflexivity | exact IH].
Qed.

Lemma assign_columns (df : DataFrame) (name : string) (values : list cell) :
  occurrences name (columns df) = 1%nat ->
  columns (assign df name values) = columns df.
Proof.
  intros H. cbn [assign columns]. now rewrite occurrences_has.
Qed.

Lemma assign_has_column (df : DataFrame) (name other : string)
      (values : list cell) :
  has_column name (columns df) = true ->
  has_column name (columns (assign df other values)) = true.
Proof.
  intros H. cbn [assign columns].
  destruct (has_column other (columns df)); [assumption|].
  unfold has_column in *. rewrite existsb_app, H. reflexivity.
Qed.

Lemma testdash2_apply_total (call : nat) (posted : list cell) :
  exists parsed,
    Testdash2.apply_parse pd_to_datetime now call posted = Ok parsed.
Proof.
  revert call. induction posted as [|c t IH]; intros call; [now exists []|].
  cbn [Testdash2.apply_parse].
  assert (E : exists y,
             match c with
             | Str s => Testdash2.parse_relative_date pd_to_datetime now
                          call s None
             | _ => Ok NaN
             end = Ok y).
  { destruct c; eauto. apply testdash2_parse_total. }
  destruct E as [y ->]. destruct (IH (S call)) as [ys ->]. cbn [bind]. eauto.
Qed.

(** [testdash2.py] cleans every frame that has its four columns once:
    a date that is not read costs the record, never the run. *)
Lemma testdash2_clean_total (df : DataFrame) :
  occurrences "posted_on" (columns df) = 1%nat ->
  occurrences "job_postings" (columns df) = 1%nat ->
  occurrences "company" (columns df) = 1%nat ->
  occurrences "place" (columns df) = 1%nat ->
  exists df', Testdash2.clean pd_to_datetime now df = Ok df'.
Proof.
  intros Hd Ht Hc Hp. unfold Testdash2.clean.
  rewrite series_unique by assumption. cbn [bind].
  destruct (testdash2_apply_total 0 (map (row_get "posted_on") (rows df)))
    as [parsed ->]. cbn [bind]. unfold dropna.
  rewrite (assign_columns df "posted_on") by assumption.
  rewrite (occurrences_has _ _ Hd). cbn [bind].
  rewrite series_unique by assumption. cbn [bind].
  rewrite series_unique
    by (rewrite assign_columns; cbn [columns]; assumption). cbn [bind].
  rewrite series_unique
    by (rewrite !assign_columns; cbn [columns];
        rewrite ?assign_columns; cbn [columns]; assumption).
  cbn [bind].
  rewrite series_unique
    by (repeat (rewrite assign_columns; cbn [columns]); assumption).
  cbn [bind]. unfold sort_values_desc.
  match goal with
  | |- context [has_column "posted_on" (columns ?d)] =>
      assert (H : has_column "posted_on" (columns d) = true)
  end.
  { do 4 apply assign_has_column. cbn [columns].
    now apply occurrences_has. }
  rewrite H. eauto.
Qed.

Lemma testdash_apply_outcomes (posted : list cell) :
  Forall (fun c => exists s, c = Str s) posted ->
  (exists parsed,
     mapM (Testdash.apply_parse pd_to_datetime) posted = Ok parsed)
  \/ mapM (Testdash.apply_parse pd_to_datetime) posted = Raise OverflowError.
Proof.
  intros H. induction H as [|c t (s & ->) _ IH]; [left; now exists []|].
  cbn [mapM Testdash.apply_parse].
  destruct (testdash_parse_outcomes pd_to_datetime s None) as [[y ->] | ->];
    cbn [bind]; [|now right].
  destruct IH as [[ys ->] | ->]; cbn [bind]; [left; eauto | now right].
Qed.

(** [testdash.py] on a frame of text that has its four columns once: the
    cleaning ends with a frame, or with the [OverflowError] of a date. *)
Lemma testdash_clean_outcomes (df : DataFrame) :
  occurrences "posted_on" (columns df) = 1%nat ->
  occurrences "job_postings" (columns df) = 1%nat ->
  occurrences "company" (columns df) = 1%nat ->
  occurrences "place" (columns df) = 1%nat ->
  Forall (fun r => exists s, row_get "posted_on" r = Str s) (rows df) ->
  (exists df', Testdash.clean pd_to_datetime df = Ok df')
  \/ Testdash.clean pd_to_datetime df = Raise OverflowError.
Proof.
  intros Hd Ht Hc Hp Htext. unfold Testdash.clean.
  rewrite series_unique by assumption. cbn [bind].
  destruct (testdash_apply_outcomes (map (row_get "posted_on") (rows df)))
    as [[parsed ->] | ->]; cbn [bind]; [| |now right].
  { now rewrite Forall_map. }
  left. unfold dropna.
  rewrite (assign_columns df "posted_on") by assumption.
  rewrite (occurrences_has _ _ Hd). cbn [bind].
  rewrite series_unique by assumption. cbn [bind].
  rewrite series_unique
    by (rewrite assign_columns; cbn [columns]; assumption). cbn [bind].
  rewrite series_unique
    by (repeat (rewrite assign_columns; cbn [columns]); assumption).
  cbn [bind].
  rewrite series_unique
    by (repeat (rewrite assign_columns; cbn [columns]); assumption).
  cbn [bind]. eauto.
Qed.

End MainFacts.

Lemma split_first_cases (p : string) :
  Py.contains "," (str_split_first "," p) = false
  /\ (str_split_first "," p = p
      \/ exists b, p = (str_split_first "," p ++ "," ++ b)%string).
Proof.
  induction p as [|c r (IHc & IHp)]; [now split; [|left]|].
  rewrite split_first_cons. destruct (Ascii.eqb_spec c ",") as [->|Hne].
  - split; [reflexivity|]. right. now exists r.
  - split.
    + rewrite contains_comma_cons, IHc.
      now destruct (Ascii.eqb_spec c ",").
    + destruct IHp as [E | (b & E)].
      * left. now rewrite E.
      * right. exists b. cbn [append]. f_equal. exact E.
Qed.

(** * The properties of the specification *)

Section Specification.

Variable pd_to_datetime : string -> option Py.datetime.
Variable now : nat -> Py.datetime.

(** C1, as [main_dash.py] has it: on a sheet without the title and date
    columns [load_data] returns the frame as it is, and [update_table]
    hands its records to the table, where [testdash.py] and [testdash2.py]
    report the two missing columns and exit. *)
Theorem main_dash_serves_partial_table :
  missing_cols (MainDash.load_data (Ok partial_frame))
  = ["job_postings"; "posted_on"]
  /\ (exists out,
        MainDash.update_table (Ok partial_frame) None None None None = Ok out
        /\ MainDash.data out = rows (MainDash.load_data (Ok partial_frame))
        /\ MainDash.data out <> [])
  /\ Testdash.main pd_to_datetime partial_values
     = Exited (MissingColumns ["job_postings"; "posted_on"])
  /\ Testdash2.main pd_to_datetime now partial_values
     = Exited (MissingColumns ["job_postings"; "posted_on"]).
Proof.
  split; [reflexivity|]. split; [|split; reflexivity].
  eexists. split; [reflexivity|]. split; [reflexivity | discriminate].
Qed.

(** C2, as [testdash.py] has it: on "800000 days ago" with the default
    reference date the subtraction leaves the range of [datetime]; the
    [OverflowError] is none of the two exceptions the parser catches and
    reaches the caller. *)
Theorem testdash_overflow_escapes :
  Testdash.parse_relative_date pd_to_datetime "800000 days ago" None
  = Raise OverflowError.
Proof. reflexivity. Qed.

(** C3, amended: for a reference instant [t], a number [n] that is not
    negative and a unit of 30 (month), 7 (week) or 1 (day) days, both
    parsers read "n unit ago" as exactly [t] minus [n] units, provided
    that instant is itself a datetime (not before the year 1). *)
Theorem relative_date_exact (t n : Z) (u : unit_word) (call : nat) :
  Py.in_range t = true -> 0 <= n ->
  Py.in_range (days_before t (unit_days u * n)) = true ->
  parses_to pd_to_datetime now call (relative_text n u) t
            (days_before t (unit_days u * n)).
Proof.
  intros Ht Hn Hd.
  assert (Hb : 0 <= n < 2 ^ 4299).
  { split; [assumption|]. pose proof (in_range_bound _ _ Ht Hd) as B.
    unfold Py.max_ordinal in B.
    assert (n < 3652059) by (destruct u; cbn [unit_days] in B; lia).
    eapply Z.lt_trans; [eassumption|]. reflexivity. }
  assert (Hl : Py.lower (relative_text n u) = relative_text n u).
  { unfold relative_text. rewrite numeral_lower by assumption.
    f_equal. now destruct u. }
  assert (Hf : first_int (relative_text n u) = Ok n).
  { unfold relative_text. apply numeral_first_int. assumption. }
  assert (Hc : forall c p, is_digit c = false ->
             Py.contains (String c p) (relative_text n u)
             = Py.contains (String c p) (" " ++ unit_text u ++ " ago")).
  { intros c p Hc. unfold relative_text. now apply numeral_contains. }
  split.
  - destruct u; cbn [unit_days] in *.
    1,2: apply testdash_month; rewrite ?Hl, ?Hc; easy.
    1,2: apply testdash_week; rewrite ?Hl, ?Hc; easy.
    1,2: replace (1 * n) with n in * by lia;
         apply testdash_day; rewrite ?Hl, ?Hc; easy.
  - destruct u; cbn [unit_days] in *.
    1,2: apply testdash2_month; rewrite ?Hl, ?Hc; easy.
    1,2: apply testdash2_week; rewrite ?Hl, ?Hc; easy.
    1,2: replace (1 * n) with n in * by lia;
         apply testdash2_day; rewrite ?Hl, ?Hc; easy.
Qed.


(** C4: in a text with "ago" whose first word reads as [n], "month" decides
    the duration whatever other unit words occur, "week" decides it when
    there is no "month", and "day" only when there is neither. *)
Theorem unit_priority (call : nat) (s : string) (t n : Z) :
  Py.contains "ago" (Py.lower s) = true ->
  first_int s = Ok n ->
  Py.in_range t = true ->
  (Py.contains "month" (Py.lower s) = true ->
   Py.in_range (days_before t (30 * n)) = true ->
   parses_to pd_to_datetime now call s t (days_before t (30 * n)))
  /\ (Py.contains "month" (Py.lower s) = false ->
      Py.contains "week" (Py.lower s) = true ->
      Py.in_range (days_before t (7 * n)) = true ->
      parses_to pd_to_datetime now call s t (days_before t (7 * n)))
  /\ (Py.contains "month" (Py.lower s) = false ->
      Py.contains "week" (Py.lower s) = false ->
      Py.contains "day" (Py.lower s) = true ->
      Py.in_range (days_before t n) = true ->
      parses_to pd_to_datetime now call s t (days_before t n)).
Proof.
  intros Ha Hn Ht. unfold parses_to. repeat split; intros.
  - now apply testdash_month.
  - now apply testdash2_month.
  - now apply testdash_week.
  - now apply testdash2_week.
  - now apply testdash_day.
  - now apply testdash2_day.
Qed.



(** C7: every record of the table a script works on after cleaning carries
    a timestamp under [posted_on]; the records whose date was not read are
    gone. *)
Theorem cleaned_records_dated (data : list (list string)) (df : DataFrame)
        (s : summary) :
  Testdash.main pd_to_datetime data = Done (df, s)
  \/ Testdash2.main pd_to_datetime now data = Done df ->
  Forall (fun r => exists t, row_get "posted_on" r = Time t) (rows df).
Proof.
  intros H. rewrite Forall_forall. intros r Hr.
  destruct (cleaned_rows pd_to_datetime now data df s H r Hr) as (_ & _ & T).
  destruct (row_get "posted_on" r) as [|t|]; try discriminate. now exists t.
Qed.




End Specification.

(** * The properties on sample data *)

(** C3 as first stated fails: 800000 days before 2025-09-05 lies before
    the year 1, and no parser returns that instant; [testdash2.py] gives
    [NaT], [testdash.py] raises. *)
Lemma relative_date_out_of_range :
  let t := Py.datetime_ymd 2025 9 5 in
  Py.in_range t = true
  /\ relative_text 800000 Days = "800000 days ago"
  /\ Testdash2.parse_relative_date no_date noon 0
       (relative_text 800000 Days) (Some t) = Ok NaN
  /\ Testdash.parse_relative_date no_date
       (relative_text 800000 Days) (Some t) = Raise OverflowError
  /\ ~ parses_to no_date noon 0 (relative_text 800000 Days) t
         (days_before t (unit_days Days * 800000)).
Proof.
  cbv zeta. split; [reflexivity|]. split; [reflexivity|].
  split; [reflexivity|]. split; [reflexivity|].
  intros [H _]. vm_compute in H. discriminate H.
Qed.

Example relative_texts :
  relative_text 2 Weeks = "2 weeks ago"
  /\ relative_text 1 Month = "1 month ago"
  /\ relative_text 10 Days = "10 days ago"
  /\ relative_text 0 Months = "0 months ago".
Proof. repeat split. Qed.

Lemma relative_date_exact_witness :
  let t := Py.datetime_ymd 2025 1 15 in
  Py.in_range t = true
  /\ 0 <= 2
  /\ Py.in_range (days_before t (unit_days Weeks * 2)) = true
  /\ relative_text 2 Weeks = "2 weeks ago"
  /\ days_before t (unit_days Weeks * 2) = Py.datetime_ymd 2025 1 1
  /\ parses_to no_date noon 0 (relative_text 2 Weeks) t
       (days_before t (unit_days Weeks * 2)).
Proof.
  cbv zeta. split; [reflexivity|]. split; [discriminate|].
  split; [reflexivity|]. split; [reflexivity|]. split; [reflexivity|].
  apply (relative_date_exact no_date noon);
    [reflexivity | discriminate | reflexivity].
Defined.



Lemma unit_priority_witness :
  let s := "2 days, 3 weeks or 1 month ago" in
  let t := Py.datetime_ymd 2025 1 15 in
  Py.contains "ago" (Py.lower s) = true
  /\ first_int s = Ok 2
  /\ Py.in_range t = true
  /\ Py.contains "month" (Py.lower s) = true
  /\ Py.in_range (days_before t (30 * 2)) = true
  /\ parses_to no_date noon 0 s t (days_before t (30 * 2)).
Proof.
  cbv zeta. split; [reflexivity|]. split; [reflexivity|].
  split; [reflexivity|]. split; [reflexivity|]. split; [reflexivity|].
  apply (proj1 (unit_priority no_date noon 0
                  "2 days, 3 weeks or 1 month ago"
                  (Py.datetime_ymd 2025 1 15) 2 eq_refl eq_refl eq_refl));
    reflexivity.
Defined.



Lemma cleaned_records_dated_witness :
  (Testdash.main no_date sample_values = Done (sample_cleaned, sample_summary)
   \/ Testdash2.main no_date noon sample_values = Done sample_cleaned)
  /\ List.length (rows sample_cleaned) = 3%nat
  /\ Forall (fun r => exists t, row_get "posted_on" r = Time t)
            (rows sample_cleaned).
Proof.
  assert (H : Testdash.main no_date sample_values
              = Done (sample_cleaned, sample_summary)
              \/ Testdash2.main no_date noon sample_values
                 = Done sample_cleaned)
    by (left; reflexivity).
  split; [exact H|]. split; [reflexivity|].
  exact (cleaned_records_dated no_date noon sample_values sample_cleaned
           sample_summary H).
Defined.



(** The runs of both reporting scripts on the sample sheet: the record
    with the date that is not read is gone, the others carry their
    timestamps, and the rankings count the cleaned values, equal counts in
    the order the stable sort of the model leaves them in. *)
Example testdash_sample_run :
  Testdash.main no_date sample_values = Done (sample_cleaned, sample_summary)
  /\ map (row_get "job_postings") (rows sample_cleaned)
     = [Str "Engineer"; Str "Analyst"; Str "Writer"]
  /\ top_companies sample_summary
     = [(Str "Acme", 1%nat); (Str "Birla", 1%nat); (Str "Corex", 1%nat)]
  /\ city_counts sample_summary = [(Str "Delhi", 2%nat); (Str "Pune", 1%nat)].
Proof. repeat split. Qed.

Example testdash2_sample_run :
  Testdash2.main no_date noon sample_values = Done sample_sorted
  /\ map (row_get "job_postings") (rows sample_sorted)
     = [Str "Writer"; Str "Engineer"; Str "Analyst"]
  /\ map (row_get "city") (rows sample_sorted)
     = [Str "Delhi"; Str "Pune"; Str "Delhi"].
Proof. repeat split. Qed.

(** The same column ranked with two sorts that both keep the entries and
    put the larger count first: the top five differ in the values of equal
    count. *)
Example top5_depends_on_sort :
  map fst (head 5 (value_counts_by sort_stable sample_companies))
  = [Str "c03"; Str "c07"; Str "c00"; Str "c01"; Str "c02"]
  /\ map fst (head 5 (value_counts_by sort_late sample_companies))
     = [Str "c03"; Str "c07"; Str "c19"; Str "c18"; Str "c17"].
Proof. split; vm_compute; reflexivity. Qed.

(** The dropdowns of [main_dash.py] on a company column that mixes text
    with a value that is not text: [sorted] raises [TypeError], and the
    table update with it, before any filter is applied. *)
Example mixed_column_raises :
  MainDash.sorted [Str "Acme"; Time 2024] = Raise TypeError
  /\ MainDash.options (MainDash.load_data (Ok mixed_frame)) "company"
     = Raise TypeError
  /\ MainDash.update_table (Ok mixed_frame) None None None None
     = Raise TypeError.
Proof. repeat split. Qed.

(** * Further properties of the scripts *)

(** ** The three header tables rename alike *)

Section HeaderFacts.

Lemma dict_get_set_same (k v : string) (d : list (string * string)) :
  dict_get k (dict_set k v d) = Some v.
Proof.
  induction d as [|[k' v'] t IH]; cbn [dict_set dict_get].
  - now rewrite String.eqb_refl.
  - destruct (String.eqb k' k) eqn:E; cbn [dict_get]; now rewrite E.
Qed.

Lemma dict_get_set_other (x k v : string) (d : list (string * string)) :
  x <> k -> dict_get x (dict_set k v d) = dict_get x d.
Proof.
  intros Hne. induction d as [|[k' v'] t IH]; cbn [dict_set dict_get].
  - destruct (String.eqb_spec k x); [congruence | reflexivity].
  - destruct (String.eqb_spec k' k) as [->|]; cbn [dict_get].
    + destruct (String.eqb_spec k x); [congruence | reflexivity].
    + now rewrite IH.
Qed.

Lemma lower_char_idem (c : ascii) :
  Py.lower_char (Py.lower_char c) = Py.lower_char c.
Proof. destruct c as [[] [] [] [] [] [] [] []]; reflexivity. Qed.

Lemma lower_idem (s : string) : Py.lower (Py.lower s) = Py.lower s.
Proof.
  induction s as [|c s IH]; [reflexivity|].
  cbn [Py.lower]. now rewrite lower_char_idem, IH.
Qed.

Lemma inner_loop_other (a x : string) (m : list (string * string)) :
  x <> a -> dict_get x (inner_loop a m) = dict_get x m.
Proof.
  intros Hne. unfold inner_loop. revert m.
  induction expected_columns as [|e t IH]; intros m; [reflexivity|].
  cbn [fold_left]. rewrite IH.
  destruct (String.eqb _ _); [now apply dict_get_set_other | reflexivity].
Qed.

Lemma inner_loop_same (a : string) (m : list (string * string)) :
  Py.lower a = a ->
  dict_get a (inner_loop a m)
  = match dict_get a expected_columns with
    | Some v => Some v
    | None => dict_get a m
    end.
Proof.
  intros Ha.
  assert (G : forall exp m,
             dict_get a
               (fold_left
                  (fun mapping expected =>
                     if String.eqb (Py.lower a) (Py.lower (fst expected))
                     then dict_set a (snd expected) mapping
                     else mapping) exp m)
             = fold_left
                 (fun found expected =>
                    if String.eqb a (Py.lower (fst expected))
                    then Some (snd expected) else found)
                 exp (dict_get a m)).
  { induction exp as [|e t IH]; intros m'; [reflexivity|].
    cbn [fold_left]. rewrite IH, Ha.
    destruct (String.eqb a _); [now rewrite dict_get_set_same | reflexivity]. }
  unfold inner_loop. rewrite G. clear G.
  cbn [fold_left expected_columns fst snd dict_get].
  change (Py.lower "job postings") with "job postings".
  change (Py.lower "company") with "company".
  change (Py.lower "place") with "place".
  change (Py.lower "status") with "status".
  change (Py.lower "posted on") with "posted on".
  change (Py.lower "url link") with "url link".
  rewrite !(String.eqb_sym a).
  repeat match goal with
         | |- context [String.eqb ?k a] =>
             destruct (String.eqb_spec k a) as [<-|]; [reflexivity|]
         end.
  reflexivity.
Qed.

(** The mapping [testdash.py] builds in its two loops holds, for every
    normalised column, what the table holds for it. *)
Lemma column_mapping_get (cols : list string) (x : string) :
  Forall (fun c => Py.lower c = c) cols ->
  In x cols ->
  dict_get x (Testdash.column_mapping cols) = dict_get x expected_columns.
Proof.
  intros Hl Hx.
  change (Testdash.column_mapping cols)
    with (fold_left (fun m a => inner_loop a m) cols []).
  assert (G : forall m,
             (forall y, dict_get y m = None
                        \/ dict_get y m = dict_get y expected_columns) ->
             forall y,
               dict_get y (fold_left (fun m a => inner_loop a m) cols m)
               = if existsb (String.eqb y) cols
                 then dict_get y expected_columns else dict_get y m).
  { clear Hx. induction Hl as [|a t Ha _ IH]; intros m Hm y; [reflexivity|].
    cbn [fold_left existsb].
    assert (Hm' : forall z, dict_get z (inner_loop a m) = None
                            \/ dict_get z (inner_loop a m)
                               = dict_get z expected_columns).
    { intros z. destruct (String.eqb_spec z a) as [->|Hne].
      - rewrite inner_loop_same by assumption.
        destruct (dict_get a expected_columns) eqn:E; [now right|].
        destruct (Hm a) as [H | H]; [now left | right; congruence].
      - rewrite inner_loop_other by assumption. apply Hm. }
    rewrite (IH _ Hm' y).
    destruct (existsb (String.eqb y) t); [now rewrite orb_true_r|].
    rewrite orb_false_r.
    destruct (String.eqb_spec y a) as [->|Hne].
    - rewrite inner_loop_same by assumption.
      destruct (dict_get a expected_columns) eqn:E; [reflexivity|].
      destruct (Hm a) as [H | H]; congruence.
    - now apply inner_loop_other. }
  rewrite (G [] (fun _ => or_introl eq_refl) x).
  assert (E : existsb (String.eqb x) cols = true).
  { apply existsb_exists. exists x. split; [assumption | apply String.eqb_refl]. }
  now rewrite E.
Qed.

Lemma rename_with_ext (f g : string -> string) (df : DataFrame) :
  (forall c, In c (columns df) -> f c = g c) ->
  (forall r k, In r (rows df) -> In k (map fst r) -> f k = g k) ->
  rename_with f df = rename_with g df.
Proof.
  intros Hc Hr. unfold rename_with. f_equal.
  - apply map_ext_in. exact Hc.
  - apply map_ext_in. intros r Hin. apply map_ext_in. intros [k v] Hk.
    cbn [fst snd]. f_equal. apply (Hr r k Hin).
    now apply (in_map fst) in Hk.
Qed.

(** A frame built from the sheet's values has its labels in every record,
    and so has the frame with the normalised labels. *)
Lemma from_values_keys (header : list string) (data : list (list string))
      (df : DataFrame) :
  from_values header data = Ok df ->
  forall r k, In r (rows (normalize_columns df)) -> In k (map fst r) ->
              In k (columns (normalize_columns df)).
Proof.
  unfold from_values. destruct (forallb _ data); [|discriminate].
  intros [= <-] r k Hr Hk. cbn [normalize_columns rename_with rows columns] in *.
  apply in_map_iff in Hr as (r0 & <- & Hr0).
  apply in_map_iff in Hr0 as (vals & <- & _).
  rewrite map_map in Hk. cbn [fst] in Hk.
  apply in_map_iff in Hk as ([k0 v] & <- & Hin). cbn [fst].
  apply (in_map (fun c => Py.lower (Py.strip c))).
  now apply in_combine_l in Hin.
Qed.

Lemma normalized_lower (df : DataFrame) :
  Forall (fun c => Py.lower c = c) (columns (normalize_columns df)).
Proof.
  cbn [normalize_columns rename_with columns]. rewrite Forall_map.
  rewrite Forall_forall. intros c _. apply lower_idem.
Qed.

(** The table of [main_dash.py] adds the identity on "job_description". *)
Lemma renames_get (c : string) :
  match dict_get c MainDash.renames with
  | Some v => v
  | None => c
  end
  = match dict_get c expected_columns with
    | Some v => v
    | None => c
    end.
Proof.
  unfold MainDash.renames, expected_columns. cbn [dict_get].
  repeat match goal with
         | |- context [String.eqb ?k c] =>
             destruct (String.eqb_spec k c) as [<-|]; [reflexivity|]
         end.
  reflexivity.
Qed.

End HeaderFacts.

(** ** The two parsers side by side *)

Section ParserPairs.

Variable pd_to_datetime : string -> option Py.datetime.
Variable now : nat -> Py.datetime.

Lemma column_mapping_renames (header : list string)
      (data : list (list string)) (df : DataFrame) :
  from_values header data = Ok df ->
  rename_columns (Testdash.column_mapping (columns (normalize_columns df)))
                 (normalize_columns df)
  = rename_columns expected_columns (normalize_columns df).
Proof.
  intros Hf. apply rename_with_ext.
  - intros c Hc.
    now rewrite (column_mapping_get _ c (normalized_lower df) Hc).
  - intros r k Hr Hk.
    pose proof (from_values_keys header data df Hf r k Hr Hk) as Hc.
    now rewrite (column_mapping_get _ k (normalized_lower df) Hc).
Qed.

(** The bodies of the two parsers differ only where pandas reads no date:
    one raises [ValueError], the other has [NaT] already. *)
Lemma parse_bodies (s : string) (t : Z) :
  Testdash.parse_body pd_to_datetime s t
  = Testdash2.parse_body pd_to_datetime s t
  \/ (Testdash.parse_body pd_to_datetime s t = Raise ValueError
      /\ Testdash2.parse_body pd_to_datetime s t = Ok NaN).
Proof.
  unfold Testdash.parse_body, Testdash2.parse_body,
    Testdash.to_datetime, Testdash2.to_datetime.
  rewrite first_int_lower.
  repeat match goal with
         | |- context [if Py.contains ?w ?x then _ else _] =>
             destruct (Py.contains w x)
         end;
    try (now left); destruct (pd_to_datetime s); auto.
Qed.

(** With a unit word in the text, a magnitude that [int] refuses is a
    [ValueError]: the text has a first word. *)
Lemma first_int_value_error (s : string) (e : exn) :
  has_unit s = true -> first_int s = Raise e -> e = ValueError.
Proof.
  intros Hu He. destruct (first_int_raise _ _ He) as [|Hnil]; [assumption|].
  assert (Hl : Py.split (Py.lower s) = [])
    by (rewrite split_lower, Hnil; reflexivity).
  unfold has_unit in Hu.
  rewrite !(split_nil_contains _ _ _ Hl) in Hu by reflexivity.
  discriminate.
Qed.

Lemma unit_body_testdash (s : string) (t : Z) :
  Py.contains "ago" (Py.lower s) = true -> has_unit s = true ->
  exists k,
    Testdash.parse_body pd_to_datetime s t
    = (n <- first_int s ;; delta <- Py.timedelta_days (k * n) ;;
       t' <- Py.datetime_sub t delta ;; Ok (Time t')).
Proof.
  intros Ha Hu. unfold Testdash.parse_body, has_unit in *. rewrite Ha.
  destruct (Py.contains "month" (Py.lower s)).
  - exists 30. destruct (first_int s); cbn [bind]; [|reflexivity].
    now rewrite Z.mul_comm.
  - destruct (Py.contains "week" (Py.lower s)).
    + exists 7. reflexivity.
    + cbn [orb] in Hu. rewrite Hu. exists 1.
      destruct (first_int s) as [n|]; cbn [bind]; [|reflexivity].
      now replace (1 * n) with n by lia.
Qed.

End ParserPairs.

(** ** More on cleaning *)

Section CleanMore.

Variable pd_to_datetime : string -> option Py.datetime.
Variable now : nat -> Py.datetime.

Lemma zip_with_in {A B C : Type} (f : A -> B -> C) (l : list A) (m : list B)
      (x : C) :
  In x (zip_with f l m) -> exists a b, In a l /\ In b m /\ x = f a b.
Proof.
  revert m. induction l as [|a l IH]; intros [|b m]; cbn [zip_with In];
    try easy.
  intros [<- | H].
  - exists a, b. auto.
  - destruct (IH m H) as (a' & b' & Ha & Hb & E). exists a', b'. auto.
Qed.

Lemma zip_with_length {A B C : Type} (f : A -> B -> C) (l : list A)
      (m : list B) :
  (List.length (zip_with f l m) <= List.length m)%nat.
Proof.
  revert m. induction l as [|a l IH]; intros [|b m]; cbn [zip_with List.length];
    try lia.
  specialize (IH m). lia.
Qed.

Lemma filter_length {A : Type} (p : A -> bool) (l : list A) :
  (List.length (filter p l) <= List.length l)%nat.
Proof.
  induction l as [|x l IH]; [reflexivity|]. cbn [filter].
  destruct (p x); cbn [List.length]; lia.
Qed.

Lemma testdash_main_source (data : list (list string)) (df : DataFrame)
      (s : summary) :
  Testdash.main pd_to_datetime data = Done (df, s) ->
  exists header body raw,
    data = header :: body /\ from_values header body = Ok raw
    /\ Testdash.clean pd_to_datetime (source_frame raw) = Ok df
    /\ Testdash.insights df = Ok s.
Proof.
  unfold Testdash.main. destruct data as [|header [|first body]];
    try discriminate.
  destruct (from_values header (first :: body)) as [raw|] eqn:Hf;
    [|discriminate].
  cbn [run_of run_bind]. rewrite (column_mapping_renames _ _ _ Hf).
  fold (source_frame raw). destruct (missing_cols _); [|discriminate].
  destruct (Testdash.clean pd_to_datetime (source_frame raw)) as [df2|] eqn:E;
    [|discriminate].
  cbn [bind]. destruct (Testdash.insights df2) as [s2|] eqn:E2;
    cbn [bind run_of]; [|discriminate].
  intros [= <- <-]. exists header, (first :: body), raw. auto.
Qed.

Lemma testdash2_main_source (data : list (list string)) (df : DataFrame) :
  Testdash2.main pd_to_datetime now data = Done df ->
  exists header body raw,
    data = header :: body /\ from_values header body = Ok raw
    /\ Testdash2.clean pd_to_datetime now (source_frame raw) = Ok df.
Proof.
  unfold Testdash2.main. destruct data as [|header [|first body]];
    try discriminate.
  destruct (from_values header (first :: body)) as [raw|] eqn:Hf;
    [|discriminate].
  cbn [run_of run_bind]. fold (source_frame raw).
  destruct (missing_cols _); [|discriminate].
  destruct (Testdash2.clean pd_to_datetime now (source_frame raw))
    as [df2|] eqn:E; cbn [run_of]; [|discriminate].
  intros [= <-]. exists header, (first :: body), raw. auto.
Qed.

Lemma tidied_dated (parsed : list cell) (rs : list row) (r : row) :
  In r (map tidy (filter has_date (zip_with (row_put "posted_on") parsed rs))) ->
  notna (row_get "posted_on" r) = true.
Proof.
  intros H. apply in_map_iff in H as (r0 & <- & H).
  apply filter_In in H as [_ H]. now rewrite tidy_posted.
Qed.

(** The frame of [testdash2.py] holds the tidied records, sorted. *)
Lemma testdash2_clean_sorted (df df' : DataFrame) :
  Testdash2.clean pd_to_datetime now df = Ok df' ->
  exists parsed,
    rows df'
    = sort_desc (time_key "posted_on")
        (map tidy (filter has_date
                     (zip_with (row_put "posted_on") parsed (rows df)))).
Proof.
  intros H. unfold Testdash2.clean in H.
  destruct (series df "posted_on") as [s|] eqn:E; [|discriminate].
  apply series_inv in E. subst s. cbn [bind] in H.
  destruct (Testdash2.apply_parse _ _ 0 _) as [parsed|]; [|discriminate].
  cbn [bind] in H. exists parsed. cbv zeta in H. unfold dropna in H.
  destruct (has_column "posted_on" _); [|discriminate]. cbn [bind] in H.
  repeat match type of H with
         | bind (series ?d ?n) _ = _ =>
             let E := fresh "E" in
             destruct (series d n) eqn:E; [cbn [bind] in H | discriminate H]
         end.
  match type of H with
  | sort_values_desc ?d _ = _ => set (df4 := d) in *
  end.
  assert (R : rows df4
              = map tidy (filter has_date
                  (zip_with (row_put "posted_on") parsed (rows df)))).
  { match type of E with
    | series ?d _ = _ => apply (tidy_rows d)
    end.
    cbv zeta. rewrite E. cbn [bind]. rewrite E0. cbn [bind].
    rewrite E1. cbn [bind]. rewrite E2. reflexivity. }
  clearbody df4. unfold sort_values_desc in H.
  destruct (has_column "posted_on" (columns df4)); [|discriminate].
  injection H as <-. cbn [rows]. rewrite R.
  set (tidied := map tidy _).
  assert (F1 : filter (fun r => notna (row_get "posted_on" r)) tidied
               = tidied).
  { rewrite (filter_agree _ (fun _ => true));
      [now apply filter_all | intros r Hr; apply (tidied_dated _ _ _ Hr)]. }
  assert (F2 : filter (fun r => negb (notna (row_get "posted_on" r))) tidied
               = []).
  { rewrite (filter_agree _ (fun _ => false));
      [now apply filter_none|].
    intros r Hr. now rewrite (tidied_dated _ _ _ Hr). }
  rewrite F1, F2. apply app_nil_r.
Qed.

Lemma tidy_other (name : string) (r : row) :
  cleaned_label name = false -> row_get name (tidy r) = row_get name r.
Proof.
  unfold cleaned_label. cbn [existsb]. intros H.
  repeat (apply orb_false_iff in H as [?H H]).
  repeat match goal with
         | E : String.eqb name _ = false |- _ =>
             apply String.eqb_neq in E
         end.
  unfold tidy, city_step, strip_step.
  now rewrite !row_get_put_other by assumption.
Qed.

Lemma tidy_stripped (name : string) (r : row) :
  In name ["job_postings"; "company"; "place"] ->
  row_get name (tidy r) = str_map Py.strip (row_get name r).
Proof.
  unfold tidy, city_step, strip_step.
  intros [<- | [<- | [<- | []]]];
    repeat first [ rewrite row_get_put_same
                 | rewrite row_get_put_other by discriminate ];
    reflexivity.
Qed.

Lemma tidy_city_cell (r : row) :
  row_get "city" (tidy r)
  = str_map Py.strip
      (str_map (str_split_first ",")
         (str_map Py.strip (row_get "place" r))).
Proof.
  unfold tidy, city_step, strip_step. rewrite row_get_put_same.
  rewrite row_get_put_same.
  now rewrite !row_get_put_other by discriminate.
Qed.

(** Trimming twice is trimming once. *)
Lemma rstrip_with_idem (space : ascii -> bool) (s : string) :
  Py.rstrip_with space (Py.rstrip_with space s) = Py.rstrip_with space s.
Proof.
  induction s as [|c s IH]; [reflexivity|]. cbn [Py.rstrip_with].
  destruct (Py.rstrip_with space s) as [|d r'] eqn:E.
  - destruct (space c) eqn:Ec; [reflexivity|].
    cbn [Py.rstrip_with]. now rewrite Ec.
  - cbn [Py.rstrip_with] in *. now rewrite IH.
Qed.

Lemma strip_idem (s : string) : Py.strip (Py.strip s) = Py.strip s.
Proof.
  destruct (strip_cases s) as [H | (c & r & E & Hc)].
  - now rewrite (strip_spaces s H).
  - unfold Py.strip, Py.strip_with in *. rewrite E.
    cbn [Py.lstrip_with]. rewrite Hc. rewrite <- E.
    apply rstrip_with_idem.
Qed.

Lemma lstrip_no_comma (space : ascii -> bool) (s : string) :
  Py.contains "," s = false ->
  Py.contains "," (Py.lstrip_with space s) = false.
Proof.
  induction s as [|c s IH]; [easy|]. intros H. cbn [Py.lstrip_with].
  destruct (space c); [|assumption]. apply IH.
  rewrite contains_comma_cons in H. now apply orb_false_iff in H.
Qed.

Lemma rstrip_no_comma (space : ascii -> bool) (s : string) :
  Py.contains "," s = false ->
  Py.contains "," (Py.rstrip_with space s) = false.
Proof.
  induction s as [|c s IH]; [easy|]. rewrite contains_comma_cons.
  intros H. apply orb_false_iff in H as [Hc Hs]. specialize (IH Hs).
  cbn [Py.rstrip_with]. destruct (Py.rstrip_with space s) as [|d r'].
  - destruct (space c); [reflexivity|].
    rewrite contains_comma_cons, Hc. reflexivity.
  - now rewrite contains_comma_cons, Hc, IH.
Qed.

Lemma strip_no_comma (s : string) :
  Py.contains "," s = false -> Py.contains "," (Py.strip s) = false.
Proof.
  intros H. unfold Py.strip, Py.strip_with.
  now apply rstrip_no_comma, lstrip_no_comma.
Qed.

End CleanMore.

(** ** Aggregates, dropdowns and keywords *)

Section TableMore.

Lemma bump_sum (x : cell) (t : list (cell * nat)) :
  list_sum (map snd (bump x t)) = S (list_sum (map snd t)).
Proof.
  unfold list_sum.
  induction t as [|[y n] t IH]; [reflexivity|]. cbn [bump].
  destruct (cell_eqb y x); cbn [map snd fold_right]; [lia|].
  rewrite IH. lia.
Qed.

Lemma tally_sum (l : list cell) :
  list_sum (map snd (tally l)) = List.length l.
Proof.
  induction l as [|x l IH] using rev_ind; [reflexivity|].
  rewrite tally_snoc, bump_sum, IH, length_app. cbn. lia.
Qed.

Lemma list_sum_perm (l l' : list nat) :
  Permutation l l' -> list_sum l = list_sum l'.
Proof. unfold list_sum. induction 1; cbn [fold_right]; lia. Qed.

(** The counts of [value_counts] add up to the number of values. *)
Lemma value_counts_sum (s : list cell) :
  list_sum (map snd (value_counts s)) = List.length (series_dropna s).
Proof.
  rewrite <- tally_sum. apply list_sum_perm, Permutation_map.
  apply value_counts_perm.
Qed.

(** The bars of a chart of the five most frequent values count at most
    the records. *)
Lemma list_sum_firstn (n : nat) (l : list nat) :
  (list_sum (firstn n l) <= list_sum l)%nat.
Proof.
  unfold list_sum. revert n. induction l as [|x l IH]; intros [|n];
    cbn [firstn fold_right]; try lia.
  specialize (IH n). lia.
Qed.

Lemma top_bars_sum (df : DataFrame) (name : string) (column : list cell) :
  series df name = Ok column ->
  (list_sum (map snd (head 5 (value_counts column)))
   <= List.length (rows df))%nat.
Proof.
  intros E. apply series_inv in E. subst column. unfold head.
  rewrite <- firstn_map.
  etransitivity; [apply list_sum_firstn|].
  rewrite value_counts_sum. unfold series_dropna.
  etransitivity; [apply filter_length|]. now rewrite length_map.
Qed.

Lemma nunique_value_counts (s : list cell) :
  nunique s = List.length (value_counts s).
Proof.
  unfold nunique, unique. rewrite length_map. symmetry.
  apply Permutation_length, value_counts_perm.
Qed.

Lemma filter_split_length {A : Type} (p : A -> bool) (l : list A) :
  (List.length (filter p l) + List.length (filter (fun x => negb (p x)) l)
   = List.length l)%nat.
Proof.
  induction l as [|x l IH]; [reflexivity|]. cbn [filter].
  destruct (p x); cbn [negb List.length]; lia.
Qed.

Lemma filter_map_length {A B : Type} (f : A -> B) (p : B -> bool)
      (l : list A) :
  List.length (filter p (map f l))
  = List.length (filter (fun x => p (f x)) l).
Proof.
  induction l as [|x l IH]; [reflexivity|]. cbn [map filter].
  destruct (p (f x)); cbn [List.length]; now rewrite IH.
Qed.

(** Splitting at a separator splits the pieces of both sides. *)
Lemma split_on_nonempty (sep : ascii) (s : string) : Py.split_on sep s <> [].
Proof.
  destruct s as [|c r]; [discriminate|]. rewrite split_on_cons.
  destruct (Ascii.eqb c sep); [discriminate|].
  destruct (Py.split_on sep r); discriminate.
Qed.

Lemma split_on_app (sep : ascii) (a b : string) :
  Py.split_on sep (a ++ String sep b)
  = Py.split_on sep a ++ Py.split_on sep b.
Proof.
  induction a as [|c r IH].
  - cbn [append]. rewrite split_on_cons, Ascii.eqb_refl. reflexivity.
  - change (String c r ++ String sep b)%string
      with (String c (r ++ String sep b)).
    rewrite !split_on_cons, IH. destruct (Ascii.eqb c sep); [reflexivity|].
    destruct (Py.split_on sep r) as [|w ws] eqn:E; [|reflexivity].
    now destruct (split_on_nonempty sep r).
Qed.

Lemma describes_app (k1 k2 : string) (c : cell) :
  describes (k1 ++ String "," k2) c = describes k1 c || describes k2 c.
Proof.
  unfold describes. destruct c as [text| |]; try reflexivity.
  now rewrite split_on_app, existsb_app.
Qed.

Lemma terms_of_app (k1 k2 : string) :
  MainDash.terms_of (k1 ++ String "," k2)
  = MainDash.terms_of k1 ++ MainDash.terms_of k2.
Proof.
  unfold MainDash.terms_of. now rewrite split_on_app, filter_app, map_app.
Qed.

(** Lower-casing commutes with the steps that make the terms. *)
Lemma lower_char_comma (c : ascii) :
  Ascii.eqb (Py.lower_char c) "," = Ascii.eqb c ",".
Proof. destruct c as [[] [] [] [] [] [] [] []]; reflexivity. Qed.

Lemma split_on_lower (s : string) :
  Py.split_on "," (Py.lower s) = map Py.lower (Py.split_on "," s).
Proof.
  induction s as [|c s IH]; [reflexivity|].
  cbn [Py.lower]. rewrite !split_on_cons, lower_char_comma, IH.
  destruct (Ascii.eqb c ","); [reflexivity|].
  now destruct (Py.split_on "," s).
Qed.

Lemma str_strip_lower (s : string) :
  Py.strip (Py.lower s) = Py.lower (Py.strip s).
Proof.
  unfold Py.strip, Py.strip_with.
  assert (L : forall x, Py.lstrip_with Py.isspace (Py.lower x)
                        = Py.lower (Py.lstrip_with Py.isspace x)).
  { induction x as [|c x IH]; [reflexivity|].
    cbn [Py.lower Py.lstrip_with]. rewrite lower_char_space.
    now destruct (Py.isspace c). }
  assert (R : forall x, Py.rstrip_with Py.isspace (Py.lower x)
                        = Py.lower (Py.rstrip_with Py.isspace x)).
  { induction x as [|c x IH]; [reflexivity|].
    cbn [Py.lower Py.rstrip_with]. rewrite IH, lower_char_space.
    destruct (Py.rstrip_with Py.isspace x);
      [now destruct (Py.isspace c) | reflexivity]. }
  now rewrite L, R.
Qed.

Lemma terms_of_lower (keywords : string) :
  MainDash.terms_of (Py.lower keywords) = MainDash.terms_of keywords.
Proof.
  unfold MainDash.terms_of. rewrite split_on_lower.
  induction (Py.split_on "," keywords) as [|k ks IH]; [reflexivity|].
  cbn [map filter]. rewrite str_strip_lower, lower_nonempty.
  destruct (MainDash.nonempty (Py.strip k)); [|exact IH].
  cbn [map]. now rewrite str_strip_lower, lower_idem, IH.
Qed.

End TableMore.

(** ** The drawer of the table *)

Section DrawerFacts.

Lemma dict_set_twice (k v v' : string) (d : list (string * string)) :
  dict_set k v (dict_set k v' d) = dict_set k v d.
Proof.
  induction d as [|[k' w] t IH]; cbn [dict_set].
  - now rewrite String.eqb_refl.
  - destruct (String.eqb k' k) eqn:E; cbn [dict_set]; rewrite E;
      [reflexivity | now rewrite IH].
Qed.

Lemma dict_set_same (k v : string) (d : list (string * string)) :
  dict_get k d = Some v -> dict_set k v d = d.
Proof.
  induction d as [|[k' w] t IH]; cbn [dict_get dict_set]; [discriminate|].
  destruct (String.eqb k' k).
  - now intros [= ->].
  - intros H. now rewrite IH.
Qed.

Lemma all_chars_lstrip (p space : ascii -> bool) (s : string) :
  all_chars p s = true -> all_chars p (Py.lstrip_with space s) = true.
Proof.
  induction s as [|c s IH]; [reflexivity|]. cbn [Py.lstrip_with].
  destruct (space c); [|easy]. cbn [all_chars]. intros H.
  apply andb_true_iff in H as [_ H]. now apply IH.
Qed.

Lemma all_chars_rstrip (p space : ascii -> bool) (s : string) :
  all_chars p s = true -> all_chars p (Py.rstrip_with space s) = true.
Proof.
  induction s as [|c s IH]; [reflexivity|]. cbn [all_chars Py.rstrip_with].
  intros H. apply andb_true_iff in H as [Hc Hs]. specialize (IH Hs).
  destruct (Py.rstrip_with space s) as [|d r].
  - destruct (space c); [reflexivity|]. cbn [all_chars]. now rewrite Hc.
  - cbn [all_chars] in *. now rewrite Hc, IH.
Qed.

Lemma all_chars_strip (p : ascii -> bool) (s : string) :
  all_chars p s = true -> all_chars p (Py.strip s) = true.
Proof.
  intros H. unfold Py.strip, Py.strip_with.
  now apply all_chars_rstrip, all_chars_lstrip.
Qed.

Lemma strip_empty_iff (s : string) :
  Py.strip s = EmptyString <-> all_chars Py.isspace s = true.
Proof.
  split; [|apply strip_spaces]. intros E.
  destruct (strip_cases s) as [H | (c & r & E' & _)]; [assumption|].
  rewrite E in E'. discriminate.
Qed.

(** No line break is left once the line breaks are replaced. *)
Lemma replace_no_newline (s : string) :
  all_chars (fun c => negb (Ascii.eqb c MainDash.newline))
            (Py.replace_char MainDash.newline " " s) = true.
Proof.
  induction s as [|c s IH]; [reflexivity|].
  cbn [Py.replace_char all_chars]. rewrite IH, andb_true_r.
  destruct (Ascii.eqb c MainDash.newline) eqn:E; [reflexivity|].
  now rewrite E.
Qed.

Lemma replace_between (s : string) :
  all_chars between_bullets (Py.replace_char MainDash.newline " " s)
  = all_chars between_bullets s.
Proof.
  induction s as [|c s IH]; [reflexivity|].
  cbn [Py.replace_char all_chars]. rewrite IH. f_equal.
  destruct (Ascii.eqb_spec c MainDash.newline) as [->|]; reflexivity.
Qed.

(** The pieces between separators hold no separator, and nothing the text
    does not hold. *)
Lemma split_on_chars (p : ascii -> bool) (sep : ascii) (s : string) :
  all_chars p s = true ->
  Forall (fun w => all_chars (fun c => negb (Ascii.eqb c sep) && p c) w = true)
         (Py.split_on sep s).
Proof.
  induction s as [|c s IH]; [now repeat constructor|].
  cbn [all_chars]. intros H. apply andb_true_iff in H as [Hc Hs].
  specialize (IH Hs). rewrite split_on_cons.
  destruct (Ascii.eqb c sep) eqn:E.
  - now constructor.
  - destruct (Py.split_on sep s) as [|w ws].
    + repeat constructor. cbn [all_chars]. now rewrite E, Hc.
    + inversion IH as [|? ? Hw Hws]; subst. constructor; [|assumption].
      cbn [all_chars]. now rewrite E, Hc, Hw.
Qed.

Lemma split_on_between (s : string) :
  Forall (fun k => all_chars Py.isspace k = true) (Py.split_on "," s) ->
  all_chars between_bullets s = true.
Proof.
  induction s as [|c s IH]; [reflexivity|].
  rewrite split_on_cons. cbn [all_chars]. unfold between_bullets at 1.
  destruct (Ascii.eqb c ",").
  - intros F. inversion F; subst. now apply IH.
  - cbn [orb]. destruct (Py.split_on "," s) as [|w ws] eqn:E.
    + now destruct (split_on_nonempty "," s).
    + intros F. inversion F as [|? ? Hw Hws]; subst.
      cbn [all_chars] in Hw. apply andb_true_iff in Hw as [Hc Hw].
      rewrite Hc. apply IH. now constructor.
Qed.

Lemma filter_nil {A : Type} (p : A -> bool) (l : list A) :
  filter p l = [] <-> Forall (fun x => p x = false) l.
Proof.
  induction l as [|x l IH]; [now split|]. cbn [filter].
  destruct (p x) eqn:E.
  - split; [discriminate|]. intros F. inversion F; subst. congruence.
  - rewrite IH. split; [now constructor | intros F; now inversion F].
Qed.

(** What [describe] lists: the trimmed pieces that are not blank. *)
Lemma bullets_trimmed (s : string) :
  Forall (fun b => b <> EmptyString /\ Py.strip b = b
                   /\ all_chars bullet_char b = true)
    (map Py.strip
       (filter (fun part => MainDash.nonempty (Py.strip part))
          (Py.split_on "," (Py.replace_char MainDash.newline " " s)))).
Proof.
  pose proof (split_on_chars _ "," _ (replace_no_newline s)) as F.
  induction F as [|w ws Hw _ IH]; [constructor|]. cbn [filter].
  destruct (MainDash.nonempty (Py.strip w)) eqn:E; [|exact IH].
  cbn [map]. constructor; [|exact IH].
  split; [now apply nonempty_iff|]. split; [apply strip_idem|].
  now apply all_chars_strip.
Qed.

Lemma bullets_none (s : string) :
  map Py.strip
    (filter (fun part => MainDash.nonempty (Py.strip part))
       (Py.split_on "," (Py.replace_char MainDash.newline " " s))) = []
  <-> all_chars between_bullets s = true.
Proof.
  rewrite <- (replace_between s).
  set (t := Py.replace_char MainDash.newline " " s).
  split.
  - intros H. apply map_eq_nil in H. apply filter_nil in H.
    apply split_on_between. revert H. apply Forall_impl. intros k Hk.
    apply strip_empty_iff. now destruct (Py.strip k).
  - intros H. apply split_on_spaces in H.
    replace (filter _ _) with (@nil string); [reflexivity|].
    symmetry. apply filter_nil. revert H. apply Forall_impl. intros k Hk.
    now rewrite (strip_spaces k Hk).
Qed.

Lemma describe_text (r : row) :
  text_or_missing r = true ->
  exists view,
    MainDash.describe
      (MainDash.get_default "job_description" "No description available" r)
    = Ok view.
Proof.
  unfold text_or_missing.
  destruct (MainDash.get_default _ _ r) as [s| |]; cbn [is_time negb];
    [| discriminate |]; intros _; cbn [MainDash.describe].
  - destruct (MainDash.nonempty s && MainDash.nonempty (Py.strip s));
      eexists; reflexivity.
  - eexists; reflexivity.
Qed.

End DrawerFacts.

Section MoreProperties.

Variable pd_to_datetime : string -> option Py.datetime.
Variable now : nat -> Py.datetime.

(** X1: the three scripts give a sheet the same labels: the mapping that
    [testdash.py] builds in its two loops renames the normalised header
    as the table lookup of [testdash2.py] does, and the longer table of
    [main_dash.py] renames as the shorter one. *)
Theorem headers_rename_alike (header : list string)
        (data : list (list string)) (df : DataFrame) :
  from_values header data = Ok df ->
  rename_columns (Testdash.column_mapping (columns (normalize_columns df)))
                 (normalize_columns df)
  = rename_columns expected_columns (normalize_columns df)
  /\ MainDash.load_data (Ok df)
     = rename_columns expected_columns (normalize_columns df).
Proof.
  intros Hf. split.
  - now apply (column_mapping_renames header data).
  - cbn [MainDash.load_data]. apply rename_with_ext; intros; apply renames_get.
Qed.

(** X2: on a sheet whose header lacks an expected column (the six of the
    table, the link among them), [testdash.py] and [testdash2.py] exit
    with the list of exactly the expected columns that are absent. *)
Theorem header_check_exits (header first : list string)
        (body : list (list string)) (df : DataFrame) :
  from_values header (first :: body) = Ok df ->
  missing_cols (rename_columns expected_columns (normalize_columns df)) <> [] ->
  let missing :=
    missing_cols (rename_columns expected_columns (normalize_columns df)) in
  Testdash.main pd_to_datetime (header :: first :: body)
  = Exited (MissingColumns missing)
  /\ Testdash2.main pd_to_datetime now (header :: first :: body)
     = Exited (MissingColumns missing)
  /\ forall col,
       In col missing
       <-> In col ["job_postings"; "company"; "place"; "status";
                   "posted_on"; "url_link"]
           /\ ~ In col (map (fun h =>
                               match dict_get (Py.lower (Py.strip h))
                                              expected_columns with
                               | Some v => v
                               | None => Py.lower (Py.strip h)
                               end) header).
Proof.
  intros Hf Hm missing. split; [|split].
  - pose proof (testdash_missing_exits pd_to_datetime header first body df Hf)
      as H. cbv zeta in H.
    rewrite (column_mapping_renames _ _ _ Hf) in H. now apply H.
  - now apply (testdash2_missing_exits pd_to_datetime now header first body df).
  - intros col. subst missing. rewrite missing_cols_spec.
    assert (C : columns (rename_columns expected_columns (normalize_columns df))
                = map (fun h =>
                         match dict_get (Py.lower (Py.strip h))
                                        expected_columns with
                         | Some v => v
                         | None => Py.lower (Py.strip h)
                         end) header).
    { unfold from_values in Hf. destruct (forallb _ _); [|discriminate].
      injection Hf as <-.
      cbn [rename_columns normalize_columns rename_with columns].
      now rewrite map_map. }
    rewrite C. unfold has_column.
    assert (E : forall l, existsb (String.eqb col) l = false <-> ~ In col l).
    { intros l. rewrite <- existsb_string.
      destruct (existsb (String.eqb col) l); split; congruence. }
    now rewrite E.
Qed.

(** X3: against the same reference date the two parsers return the same
    cell whenever the parser of [testdash.py] returns one; where it
    raises, the parser of [testdash2.py] returns [NaT]. *)
Theorem parsers_agree (call : nat) (s : string) (reference : Py.datetime) :
  match Testdash.parse_relative_date pd_to_datetime s (Some reference) with
  | Ok c =>
      Testdash2.parse_relative_date pd_to_datetime now call s (Some reference)
      = Ok c
  | Raise e =>
      e = OverflowError
      /\ Testdash2.parse_relative_date pd_to_datetime now call s
           (Some reference) = Ok NaN
  end.
Proof.
  unfold Testdash.parse_relative_date, Testdash2.parse_relative_date.
  destruct (parse_bodies pd_to_datetime s reference) as [E | [E1 E2]].
  - rewrite <- E.
    pose proof (testdash_parse_outcomes pd_to_datetime s (Some reference))
      as O. unfold Testdash.parse_relative_date in O.
    destruct (Testdash.parse_body pd_to_datetime s reference) as [c|e];
      [reflexivity|].
    destruct e; try reflexivity;
      destruct O as [[c O] | O]; try discriminate; now split.
  - now rewrite E1, E2.
Qed.

(** X4: the parser of [testdash2.py] never raises: it returns [NaT], or a
    timestamp that is a datetime of the years 1 to 9999 or the one pandas
    read from the text. *)
Theorem testdash2_parser_returns (call : nat) (s : string)
        (reference : option Py.datetime) :
  exists c,
    Testdash2.parse_relative_date pd_to_datetime now call s reference = Ok c
    /\ (c = NaN
        \/ exists t, c = Time t
                     /\ (Py.in_range t = true \/ pd_to_datetime s = Some t)).
Proof.
  unfold Testdash2.parse_relative_date.
  set (r := match reference with Some r => r | None => now call end).
  assert (K : forall d c,
             (delta <- Py.timedelta_days d ;;
              t' <- Py.datetime_sub r delta ;; Ok (Time t')) = Ok c ->
             exists t, c = Time t /\ Py.in_range t = true).
  { intros d c. unfold Py.timedelta_days, Py.datetime_sub.
    destruct (Z.abs d <=? 999999999); cbn [bind]; [|discriminate].
    destruct (Py.in_range _) eqn:E; cbn [bind]; [|discriminate].
    intros [= <-]. eauto. }
  destruct (Testdash2.parse_body pd_to_datetime s r) as [c|e] eqn:E;
    [|eexists; split; [reflexivity | now left]].
  exists c. split; [reflexivity|].
  unfold Testdash2.parse_body, Testdash2.to_datetime, Py.timedelta_weeks in E.
  repeat match type of E with
         | context [if Py.contains ?w ?x then _ else _] =>
             destruct (Py.contains w x)
         end;
    try (destruct (first_int (Py.lower s)); cbn [bind] in E;
         [|discriminate]; apply K in E as (t & -> & Ht); right; eauto);
    destruct (pd_to_datetime s) as [t|]; injection E as <-; eauto.
Qed.

(** X5: nothing but an [OverflowError] leaves the parser of [testdash.py],
    and that only from a text with "ago", a unit word and a first word
    that [int] reads; [split()[0]] never raises there. *)
Theorem testdash_parser_raises_only_overflow (s : string)
        (reference : option Py.datetime) (e : exn) :
  Testdash.parse_relative_date pd_to_datetime s reference = Raise e ->
  e = OverflowError
  /\ Py.contains "ago" (Py.lower s) = true
  /\ has_unit s = true
  /\ exists n, first_int s = Ok n.
Proof.
  intros H. split.
  - destruct (testdash_parse_outcomes pd_to_datetime s reference)
      as [[c O] | O]; congruence.
  - unfold Testdash.parse_relative_date in H.
    set (r := match reference with
              | Some r => r
              | None => Py.datetime_ymd 2025 9 5
              end) in H.
    assert (P : match pd_to_datetime s with
                | Some t => Ok (Time t)
                | None => Raise ValueError
                end = Testdash.to_datetime pd_to_datetime s) by reflexivity.
    destruct (Py.contains "ago" (Py.lower s)) eqn:Ha.
    + destruct (has_unit s) eqn:Hu.
      * split; [reflexivity|]. split; [reflexivity|].
        destruct (unit_body_testdash pd_to_datetime s r Ha Hu) as [k E].
        rewrite E in H. destruct (first_int s) as [n|e'] eqn:En; [eauto|].
        cbn [bind] in H. apply first_int_value_error in En; [|assumption].
        subst e'. discriminate.
      * exfalso. unfold Testdash.parse_body, has_unit in *. rewrite Ha in H.
        apply orb_false_iff in Hu as [Hu Hd].
        apply orb_false_iff in Hu as [Hm Hw]. rewrite Hm, Hw, Hd in H.
        unfold Testdash.to_datetime in H.
        destruct (pd_to_datetime s); discriminate.
    + exfalso. unfold Testdash.parse_body in H. rewrite Ha in H.
      unfold Testdash.to_datetime in H.
      destruct (pd_to_datetime s); discriminate.
Qed.

(** X6: a text with "ago" and a unit word whose first word is no integer
    gives [NaT] in both parsers; pandas is not asked. *)
Theorem magnitude_not_read (call : nat) (s : string)
        (reference : option Py.datetime) :
  Py.contains "ago" (Py.lower s) = true ->
  has_unit s = true ->
  (forall n, first_int s <> Ok n) ->
  Testdash.parse_relative_date pd_to_datetime s reference = Ok NaN
  /\ Testdash2.parse_relative_date pd_to_datetime now call s reference
     = Ok NaN.
Proof.
  intros Ha Hu Hn.
  destruct (first_int s) as [n|e] eqn:E; [now destruct (Hn n)|].
  pose proof (first_int_value_error s e Hu E) as ->. split.
  - unfold Testdash.parse_relative_date.
    match goal with
    | |- context [Testdash.parse_body _ _ ?r] =>
        destruct (unit_body_testdash pd_to_datetime s r Ha Hu) as [k ->]
    end.
    now rewrite E.
  - unfold Testdash2.parse_relative_date.
    match goal with
    | |- context [Testdash2.parse_body _ _ ?r] =>
        destruct (parse_bodies pd_to_datetime s r) as [B | [_ B]];
        [rewrite <- B;
         destruct (unit_body_testdash pd_to_datetime s r Ha Hu) as [k ->];
         now rewrite E
        | now rewrite B]
    end.
Qed.

(** X7: capitals do not matter in a relative date: with "ago" and a unit
    word in it, a text and its lower-case form are read alike. *)
Theorem relative_date_ignores_case (call : nat) (s : string)
        (reference : option Py.datetime) :
  Py.contains "ago" (Py.lower s) = true ->
  has_unit s = true ->
  Testdash.parse_relative_date pd_to_datetime (Py.lower s) reference
  = Testdash.parse_relative_date pd_to_datetime s reference
  /\ Testdash2.parse_relative_date pd_to_datetime now call (Py.lower s)
       reference
     = Testdash2.parse_relative_date pd_to_datetime now call s reference.
Proof.
  intros Ha Hu.
  assert (Ha' : Py.contains "ago" (Py.lower (Py.lower s)) = true)
    by now rewrite lower_idem.
  assert (Hu' : has_unit (Py.lower s) = true)
    by (unfold has_unit in *; now rewrite lower_idem).
  assert (T : forall r, Testdash.parse_body pd_to_datetime (Py.lower s) r
                        = Testdash.parse_body pd_to_datetime s r).
  { intros r. unfold Testdash.parse_body. rewrite lower_idem, Ha.
    rewrite first_int_lower. unfold has_unit in Hu.
    destruct (Py.contains "month" (Py.lower s)); [reflexivity|].
    destruct (Py.contains "week" (Py.lower s)); [reflexivity|].
    cbn [orb] in Hu. now rewrite Hu. }
  assert (T2 : forall r, Testdash2.parse_body pd_to_datetime (Py.lower s) r
                         = Testdash2.parse_body pd_to_datetime s r).
  { intros r. unfold Testdash2.parse_body. rewrite lower_idem, Ha.
    unfold has_unit in Hu.
    destruct (Py.contains "month" (Py.lower s)); [reflexivity|].
    destruct (Py.contains "week" (Py.lower s)); [reflexivity|].
    cbn [orb] in Hu. now rewrite Hu. }
  split.
  - unfold Testdash.parse_relative_date. now rewrite T.
  - unfold Testdash2.parse_relative_date. now rewrite T2.
Qed.

(** X8: cleaning adds no record and touches only the date, the title, the
    company, the place and the city: every cleaned record stems from a
    record of the loaded sheet and has the same cell as it under every
    other label, the status, the link and the columns the scripts do not
    know among them. *)
Theorem cleaning_keeps_other_cells (data : list (list string))
        (df : DataFrame) (s : summary) :
  Testdash.main pd_to_datetime data = Done (df, s)
  \/ Testdash2.main pd_to_datetime now data = Done df ->
  exists header body raw,
    data = header :: body /\ from_values header body = Ok raw
    /\ (List.length (rows df) <= List.length body)%nat
    /\ forall r, In r (rows df) ->
         exists r0, In r0 (rows (source_frame raw))
                    /\ forall name, cleaned_label name = false ->
                                    row_get name r = row_get name r0.
Proof.
  assert (L : forall header body raw, from_values header body = Ok raw ->
                List.length (rows (source_frame raw)) = List.length body).
  { intros header body raw. unfold from_values.
    destruct (forallb _ body); [|discriminate]. intros [= <-].
    cbn. now rewrite !length_map. }
  assert (P : forall parsed rs r,
             In r (map tidy (filter has_date
                               (zip_with (row_put "posted_on") parsed rs))) ->
             exists r0, In r0 rs
                        /\ forall name, cleaned_label name = false ->
                                        row_get name r = row_get name r0).
  { intros parsed rs r Hr. apply in_map_iff in Hr as (r1 & <- & Hr).
    apply filter_In in Hr as [Hr _].
    apply zip_with_in in Hr as (v & r0 & _ & Hr0 & ->).
    exists r0. split; [assumption|]. intros name Hn.
    rewrite tidy_other by assumption. apply row_get_put_other.
    unfold cleaned_label in Hn. cbn [existsb] in Hn.
    apply orb_false_iff in Hn as [Hn _]. now apply String.eqb_neq in Hn. }
  intros [H | H].
  - apply testdash_main_source in H as (header & body & raw & -> & Hf & Hc & _).
    exists header, body, raw. split; [reflexivity|]. split; [assumption|].
    apply testdash_clean_rows in Hc as (parsed & _ & ->). split.
    + rewrite <- (L _ _ _ Hf), length_map.
      eapply Nat.le_trans; [apply filter_length | apply zip_with_length].
    + apply P.
  - apply testdash2_main_source in H as (header & body & raw & -> & Hf & Hc).
    exists header, body, raw. split; [reflexivity|]. split; [assumption|].
    apply testdash2_clean_sorted in Hc as (parsed & ->). split.
    + rewrite <- (L _ _ _ Hf), sort_desc_length, length_map.
      eapply Nat.le_trans; [apply filter_length | apply zip_with_length].
    + intros r Hr. apply sort_desc_in in Hr. now apply (P parsed).
Qed.

(** X9: after cleaning, a title, a company, a place or a city that is
    text has no white space at either end, and a city holds no comma. *)
Theorem cleaned_text_trimmed (data : list (list string)) (df : DataFrame)
        (s : summary) (r : row) (name text : string) :
  Testdash.main pd_to_datetime data = Done (df, s)
  \/ Testdash2.main pd_to_datetime now data = Done df ->
  In r (rows df) ->
  In name ["job_postings"; "company"; "place"; "city"] ->
  row_get name r = Str text ->
  Py.strip text = text
  /\ (name <> "city" \/ Py.contains "," text = false).
Proof.
  intros H Hr Hn Ht.
  destruct (cleaned_rows pd_to_datetime now data df s H r Hr) as (r0 & -> & _).
  destruct Hn as [<- | [<- | [<- | [<- | []]]]].
  1-3: rewrite tidy_stripped in Ht by (cbn; auto);
       destruct (row_get _ r0) as [t0| |]; try discriminate;
       injection Ht as <-; split; [apply strip_idem | left; discriminate].
  rewrite tidy_city_cell in Ht.
  destruct (row_get "place" r0) as [p| |]; try discriminate.
  injection Ht as <-. split; [apply strip_idem | right].
  apply strip_no_comma, split_first_cases.
Qed.

(** X10: the frame the dashboard of [testdash2.py] is built on lists the
    postings latest first. *)
Theorem testdash2_latest_first (data : list (list string)) (df : DataFrame) :
  Testdash2.main pd_to_datetime now data = Done df ->
  StronglySorted
    (fun a b => exists ta tb,
       row_get "posted_on" a = Time ta /\ row_get "posted_on" b = Time tb
       /\ tb <= ta)
    (rows df).
Proof.
  intros H.
  pose proof (cleaned_rows pd_to_datetime now data df
                (mkSummary 0 0 0 [] [] [] []) (or_intror H)) as T.
  apply testdash2_main_source in H as (header & body & raw & -> & _ & Hc).
  apply testdash2_clean_sorted in Hc as (parsed & E). rewrite E in *.
  generalize (sort_desc_descending (time_key "posted_on")
                (map tidy (filter has_date
                   (zip_with (row_put "posted_on") parsed
                      (rows (source_frame raw)))))).
  apply StronglySorted_in. intros a b Ha Hb Hk.
  destruct (T a Ha) as (_ & _ & Ta). destruct (T b Hb) as (_ & _ & Tb).
  unfold time_key in Hk.
  destruct (row_get "posted_on" a) as [|ta|]; try discriminate.
  destruct (row_get "posted_on" b) as [|tb|]; try discriminate.
  exists ta, tb. auto.
Qed.

(** X11: in the report of [testdash.py] the bars of the company chart are
    as many as the unique companies, up to five, and likewise for the
    places; the status chart has one slice for each distinct status; the
    slices of the status chart and the records without a status add up to
    the total of postings; and the bars of the company chart, of the place
    chart and of the city chart each add up to at most that total. *)
Theorem insights_add_up (df : DataFrame) (s : summary) :
  Testdash.insights df = Ok s ->
  List.length (top_companies s) = Nat.min 5 (unique_companies s)
  /\ List.length (top_places s) = Nat.min 5 (unique_places s)
  /\ List.length (status_counts s)
     = List.length (distinct (map (row_get "status") (rows df)))
  /\ (list_sum (map snd (status_counts s))
      + List.length (filter (fun r => negb (notna (row_get "status" r)))
                            (rows df))
      = total_postings s)%nat
  /\ (list_sum (map snd (top_companies s)) <= total_postings s)%nat
  /\ (list_sum (map snd (top_places s)) <= total_postings s)%nat
  /\ (list_sum (map snd (city_counts s)) <= total_postings s)%nat.
Proof.
  unfold Testdash.insights, Testdash.insights_by.
  destruct (series df "company") as [company|] eqn:Ec; [|discriminate].
  destruct (series df "place") as [place|] eqn:Ep; [|discriminate].
  destruct (series df "status") as [status|] eqn:Es; [|discriminate].
  destruct (series df "city") as [city|] eqn:Ey; [|discriminate].
  cbn [bind].
  fold (value_counts company) (value_counts place) (value_counts status)
       (value_counts city).
  remember (head 5 (value_counts company)) as tc eqn:Etc.
  remember (head 5 (value_counts place)) as tp eqn:Etp.
  remember (head 5 (value_counts city)) as cc eqn:Ecc.
  intros [= <-].
  cbn [top_companies top_places status_counts unique_companies unique_places
       city_counts total_postings].
  subst tc tp cc.
  pose proof (top_bars_sum df "company" company Ec) as Bc.
  pose proof (top_bars_sum df "place" place Ep) as Bp.
  pose proof (top_bars_sum df "city" city Ey) as By.
  unfold head in *. rewrite !length_firstn, !nunique_value_counts.
  split; [reflexivity|]. split; [reflexivity|].
  apply series_inv in Es. subst status.
  split; [apply value_counts_length|].
  split; [|now repeat split].
  rewrite value_counts_sum. unfold series_dropna.
  rewrite filter_map_length. apply filter_split_length.
Qed.


(** X13: when the sheet cannot be fetched, or has no record, the table
    update answers with empty dropdowns and an empty table whatever the
    filters: it reads no column and does not raise. *)
Theorem update_table_without_data (fetched : outcome DataFrame)
        (companies places statuses : option (list string))
        (keywords : option string) :
  (exists e, fetched = Raise e) \/ (exists df, fetched = Ok df /\ rows df = []) ->
  MainDash.update_table fetched companies places statuses keywords
  = Ok (MainDash.mkUpdate [] [] [] []).
Proof.
  intros [[e ->] | (df & -> & Hr)]; [reflexivity|].
  unfold MainDash.update_table.
  assert (E : empty (MainDash.load_data (Ok df)) = true).
  { unfold empty. cbn [MainDash.load_data rename_columns normalize_columns
                       rename_with rows]. rewrite Hr.
    now destruct (columns _). }
  now rewrite E.
Qed.

(** X14: on a sheet with records, whose company, place and status cells
    are text or missing, the table update raises [KeyError] when the
    company, the place or the status column is absent, whatever the
    filters. *)
Theorem update_table_needs_columns (fetched : outcome DataFrame)
        (companies places statuses : option (list string))
        (keywords : option string) :
  let df := MainDash.load_data fetched in
  empty df = false ->
  (occurrences "company" (columns df) <= 1)%nat ->
  (occurrences "place" (columns df) <= 1)%nat ->
  (occurrences "status" (columns df) <= 1)%nat ->
  text_cells "company" df -> text_cells "place" df ->
  text_cells "status" df ->
  occurrences "company" (columns df) = 0%nat
  \/ occurrences "place" (columns df) = 0%nat
  \/ occurrences "status" (columns df) = 0%nat ->
  MainDash.update_table fetched companies places statuses keywords
  = Raise KeyError.
Proof.
  intros df He Hc Hp Hs Tc Tp Ts H0. unfold MainDash.update_table. fold df.
  rewrite He.
  assert (A : forall name,
             occurrences name (columns df) = 0%nat ->
             MainDash.options df name = Raise KeyError).
  { intros name E. unfold MainDash.options, series. now rewrite E. }
  destruct (occurrences "company" (columns df)) as [|[|c]] eqn:Ec; [| | lia].
  { now rewrite (A _ Ec). }
  destruct (options_texts df "company" Ec Tc) as [co ->]. cbn [bind].
  destruct (occurrences "place" (columns df)) as [|[|p]] eqn:Ep; [| | lia].
  { now rewrite (A _ Ep). }
  destruct (options_texts df "place" Ep Tp) as [po ->]. cbn [bind].
  destruct (occurrences "status" (columns df)) as [|[|st]] eqn:Es; [| | lia].
  { now rewrite (A _ Es). }
  destruct H0 as [H | [H | H]]; discriminate.
Qed.

(** X15: the description column is read only when keywords are typed: on
    a sheet without it, whose company, place and status cells are text or
    missing, the table update raises [KeyError] with keywords and filters
    by company, place and status without them. *)
Theorem description_read_with_keywords (fetched : outcome DataFrame)
        (companies places statuses : option (list string))
        (keywords : option string) :
  let df := MainDash.load_data fetched in
  empty df = false ->
  occurrences "company" (columns df) = 1%nat ->
  occurrences "place" (columns df) = 1%nat ->
  occurrences "status" (columns df) = 1%nat ->
  text_cells "company" df -> text_cells "place" df ->
  text_cells "status" df ->
  occurrences "job_description" (columns df) = 0%nat ->
  match MainDash.typed keywords with
  | EmptyString =>
      exists out,
        MainDash.update_table fetched companies places statuses keywords
        = Ok out
        /\ MainDash.data out
           = filter (matches companies places statuses None) (rows df)
  | String _ _ =>
      MainDash.update_table fetched companies places statuses keywords
      = Raise KeyError
  end.
Proof.
  intros df He Hc Hp Hs Tc Tp Ts Hd.
  destruct (MainDash.typed keywords) as [|c kw] eqn:Ek.
  - destruct (update_table_data fetched companies places statuses keywords
                Hc Hp Hs Tc Tp Ts) as (out & E & D).
    + rewrite Ek. discriminate.
    + left. now rewrite Ek.
    + exists out. split; [assumption|]. rewrite D. apply filter_agree.
      intros r _. unfold matches. f_equal.
      destruct keywords as [[|]|]; try reflexivity. discriminate Ek.
  - unfold MainDash.update_table. fold df. rewrite He.
    destruct (options_texts df "company" Hc Tc) as [co ->].
    destruct (options_texts df "place" Hp Tp) as [po ->].
    destruct (options_texts df "status" Hs Ts) as [so ->].
    cbn [bind]. rewrite (filter_isin_spec df) by assumption. cbn [bind].
    rewrite filter_isin_spec by assumption. cbn [bind columns rows].
    rewrite filter_isin_spec by assumption. cbn [bind columns rows].
    rewrite Ek. unfold MainDash.filter_keywords, series.
    cbn [MainDash.nonempty columns]. now rewrite Hd.
Qed.

(** X16: keywords are alternatives: with two inputs joined by a comma the
    keyword filter keeps the records that either input keeps. *)
Theorem keywords_are_alternatives (df : DataFrame) (k1 k2 : string) :
  k1 <> EmptyString -> k2 <> EmptyString ->
  occurrences "job_description" (columns df) = 1%nat ->
  Forall (fun r => is_time (row_get "job_description" r) = false) (rows df) ->
  MainDash.terms_of (k1 ++ String "," k2)
  = MainDash.terms_of k1 ++ MainDash.terms_of k2
  /\ exists kept kept1 kept2,
       MainDash.filter_keywords df (k1 ++ String "," k2) = Ok kept
       /\ MainDash.filter_keywords df k1 = Ok kept1
       /\ MainDash.filter_keywords df k2 = Ok kept2
       /\ forall r, In r (rows kept)
                    <-> In r (rows kept1) \/ In r (rows kept2).
Proof.
  intros H1 H2 Hc Hcells. split; [apply terms_of_app|].
  assert (S : forall k, k <> EmptyString ->
              MainDash.filter_keywords df k
              = Ok (mkFrame (columns df)
                      (filter (fun r => describes k
                                          (row_get "job_description" r))
                              (rows df)))).
  { intros k Hk.
    pose proof (filter_keywords_spec df (Some k) (fun _ => Hc)
                  (or_intror Hcells)) as E.
    cbn [MainDash.typed] in E. rewrite E. do 2 f_equal.
    apply filter_agree. intros r _. destruct k; [contradiction | reflexivity]. }
  assert (H12 : (k1 ++ String "," k2)%string <> EmptyString)
    by (now destruct k1).
  rewrite (S _ H12), (S k1 H1), (S k2 H2). do 3 eexists.
  split; [reflexivity|]. split; [reflexivity|]. split; [reflexivity|].
  intros r. cbn [rows]. rewrite !filter_In, describes_app, orb_true_iff.
  split.
  - intros [Hr [Hd | Hd]]; [left | right]; now split.
  - intros [[Hr Hd] | [Hr Hd]]; (split; [assumption|]); [now left | now right].
Qed.

(** X17: capitals in the keywords do not matter: an input and its
    lower-case form give the same terms and filter alike. *)
Theorem keywords_ignore_case (df : DataFrame) (keywords : string) :
  MainDash.terms_of (Py.lower keywords) = MainDash.terms_of keywords
  /\ MainDash.filter_keywords df (Py.lower keywords)
     = MainDash.filter_keywords df keywords.
Proof.
  split; [apply terms_of_lower|]. unfold MainDash.filter_keywords.
  now rewrite lower_nonempty, terms_of_lower.
Qed.

(** X18: the drawer of [main_dash.py] shows the paragraph "No description
    available." exactly for a description that is blank; for any other text
    it shows a list whose bullet points are not empty, are trimmed and hold
    neither a comma nor a line break.  The list is empty, and the paragraph
    is not shown, exactly when the text is made of commas and white
    space. *)
Theorem description_bullets (s : string) :
  exists view,
    MainDash.describe (Str s) = Ok view
    /\ match view with
       | MainDash.NoDescription => Py.strip s = EmptyString
       | MainDash.Bullets items =>
           Py.strip s <> EmptyString
           /\ Forall (fun b => b <> EmptyString /\ Py.strip b = b
                               /\ all_chars bullet_char b = true) items
           /\ (items = [] <-> all_chars between_bullets s = true)
       end.
Proof.
  cbn [MainDash.describe].
  destruct (MainDash.nonempty s && MainDash.nonempty (Py.strip s)) eqn:E.
  - eexists. split; [reflexivity|]. cbn beta iota.
    apply andb_true_iff in E as [_ E]. apply nonempty_iff in E.
    split; [exact E|]. split; [apply bullets_trimmed | apply bullets_none].
  - eexists. split; [reflexivity|]. cbn beta iota.
    apply andb_false_iff in E as [E | E].
    + now destruct s.
    + now destruct (Py.strip s).
Qed.

(** X19: [display_drawer] changes the style of the drawer at the key
    "right" only, which is "0%" exactly when it returns a content; and
    [close_drawer] after a click gives the style of a drawer with no row
    selected, which is the style before the row was shown when that had
    "right" at "-40%", as the layout has. *)
Theorem drawer_style_round_trip (selected_rows : option (list nat))
        (table_data : option (list row)) (style style' : list (string * string))
        (content : option MainDash.drawer) (n : Z) :
  MainDash.display_drawer selected_rows table_data style
  = Ok (style', content) ->
  n <> 0 ->
  (forall k, k <> "right" -> dict_get k style' = dict_get k style)
  /\ dict_get "right" style'
     = Some (match content with Some _ => "0%" | None => "-40%" end)
  /\ MainDash.display_drawer None table_data style
     = Ok (MainDash.close_drawer (Some n) style', None)
  /\ (dict_get "right" style = Some "-40%" ->
      MainDash.close_drawer (Some n) style' = style).
Proof.
  intros H Hn.
  assert (S : exists v, style' = dict_set "right" v style
                        /\ v = match content with
                               | Some _ => "0%" | None => "-40%" end).
  { unfold MainDash.display_drawer in H.
    destruct selected_rows as [[|i rest]|];
      try (injection H as <- <-; eauto).
    destruct table_data as [[|r0 rs]|];
      try (injection H as <- <-; eauto).
    destruct (nth_error (r0 :: rs) i) as [r|]; [|discriminate].
    destruct (MainDash.describe _) as [view|e]; [|discriminate].
    cbn [bind] in H. injection H as <- <-. eauto. }
  destruct S as (v & -> & Hv).
  split; [intros k Hk; now apply dict_get_set_other|].
  split; [rewrite dict_get_set_same; now rewrite Hv|].
  assert (C : MainDash.close_drawer (Some n) (dict_set "right" v style)
              = dict_set "right" "-40%" style).
  { cbn [MainDash.close_drawer]. destruct (Z.eqb_spec n 0); [contradiction|].
    apply dict_set_twice. }
  rewrite C. split; [reflexivity|]. intros Hr. now apply dict_set_same.
Qed.


End MoreProperties.

Lemma headers_rename_alike_witness :
  from_values (hd [] sample_values) (tl sample_values)
  = Ok (mkFrame (hd [] sample_values)
          (map (fun vals => combine (hd [] sample_values) (map Str vals))
               (tl sample_values)))
  /\ columns (MainDash.load_data
                (Ok (mkFrame (hd [] sample_values)
                       (map (fun vals => combine (hd [] sample_values)
                                           (map Str vals))
                            (tl sample_values)))))
     = ["job_postings"; "company"; "place"; "status"; "posted_on"; "url_link"].
Proof.
  assert (H : from_values (hd [] sample_values) (tl sample_values)
              = Ok (mkFrame (hd [] sample_values)
                      (map (fun vals => combine (hd [] sample_values)
                                          (map Str vals))
                           (tl sample_values)))) by reflexivity.
  split; [exact H|].
  rewrite (proj2 (headers_rename_alike _ _ _ H)). reflexivity.
Defined.

Lemma header_check_exits_witness :
  from_values (hd [] partial_values) (tl partial_values)
  = Ok (mkFrame (hd [] partial_values)
          (map (fun vals => combine (hd [] partial_values) (map Str vals))
               (tl partial_values)))
  /\ Testdash.main no_date partial_values
     = Exited (MissingColumns ["job_postings"; "posted_on"])
  /\ Testdash2.main no_date noon partial_values
     = Exited (MissingColumns ["job_postings"; "posted_on"]).
Proof.
  assert (H : from_values (hd [] partial_values) (tl partial_values)
              = Ok (mkFrame (hd [] partial_values)
                      (map (fun vals => combine (hd [] partial_values)
                                          (map Str vals))
                           (tl partial_values)))) by reflexivity.
  split; [exact H|].
  destruct (header_check_exits no_date noon _ _ _ _ H ltac:(discriminate))
    as (E1 & E2 & _).
  split; [exact E1 | exact E2].
Defined.

Lemma testdash_parser_raises_only_overflow_witness :
  Testdash.parse_relative_date no_date "5000 WEEKS ago" (Some 0)
  = Raise OverflowError
  /\ has_unit "5000 WEEKS ago" = true
  /\ first_int "5000 WEEKS ago" = Ok 5000.
Proof.
  assert (H : Testdash.parse_relative_date no_date "5000 WEEKS ago" (Some 0)
              = Raise OverflowError) by reflexivity.
  split; [exact H|].
  destruct (testdash_parser_raises_only_overflow no_date _ _ _ H)
    as (_ & _ & Hu & _).
  split; [exact Hu | reflexivity].
Defined.

Lemma magnitude_not_read_witness :
  Py.contains "ago" (Py.lower "A week ago") = true
  /\ has_unit "A week ago" = true
  /\ first_int "A week ago" = Raise ValueError
  /\ Testdash.parse_relative_date no_date "A week ago" None = Ok NaN
  /\ Testdash2.parse_relative_date no_date noon 0 "A week ago" None = Ok NaN.
Proof.
  split; [reflexivity|]. split; [reflexivity|]. split; [reflexivity|].
  apply (magnitude_not_read no_date noon 0 "A week ago" None);
    [reflexivity | reflexivity | intros n H; discriminate H].
Defined.

Lemma relative_date_ignores_case_witness :
  Py.contains "ago" (Py.lower "3 Days AGO") = true
  /\ has_unit "3 Days AGO" = true
  /\ Py.lower "3 Days AGO" = "3 days ago"
  /\ Testdash.parse_relative_date no_date (Py.lower "3 Days AGO") None
     = Testdash.parse_relative_date no_date "3 Days AGO" None.
Proof.
  split; [reflexivity|]. split; [reflexivity|]. split; [reflexivity|].
  apply (relative_date_ignores_case no_date noon 0 "3 Days AGO" None);
    reflexivity.
Defined.

Lemma cleaning_keeps_other_cells_witness :
  (Testdash.main no_date sample_values = Done (sample_cleaned, sample_summary)
   \/ Testdash2.main no_date noon sample_values = Done sample_cleaned)
  /\ exists header body raw,
       sample_values = header :: body /\ from_values header body = Ok raw
       /\ (List.length (rows sample_cleaned) <= List.length body)%nat
       /\ forall r, In r (rows sample_cleaned) ->
            exists r0, In r0 (rows (source_frame raw))
                       /\ forall name, cleaned_label name = false ->
                                       row_get name r = row_get name r0.
Proof.
  assert (H : Testdash.main no_date sample_values
              = Done (sample_cleaned, sample_summary)
              \/ Testdash2.main no_date noon sample_values
                 = Done sample_cleaned)
    by (left; reflexivity).
  split; [exact H|].
  exact (cleaning_keeps_other_cells no_date noon _ _ _ H).
Defined.

Lemma cleaned_text_trimmed_witness :
  (Testdash.main no_date sample_values = Done (sample_cleaned, sample_summary)
   \/ Testdash2.main no_date noon sample_values = Done sample_cleaned)
  /\ In sample_record (rows sample_cleaned)
  /\ In "city" ["job_postings"; "company"; "place"; "city"]
  /\ row_get "city" sample_record = Str "Pune"
  /\ Py.strip "Pune" = "Pune"
  /\ ("city" <> "city" \/ Py.contains "," "Pune" = false).
Proof.
  assert (H : Testdash.main no_date sample_values
              = Done (sample_cleaned, sample_summary)
              \/ Testdash2.main no_date noon sample_values
                 = Done sample_cleaned)
    by (left; reflexivity).
  assert (Hr : In sample_record (rows sample_cleaned))
    by (left; reflexivity).
  assert (Hn : In "city" ["job_postings"; "company"; "place"; "city"])
    by (do 3 right; left; reflexivity).
  split; [exact H|]. split; [exact Hr|]. split; [exact Hn|].
  split; [reflexivity|].
  exact (cleaned_text_trimmed no_date noon _ _ _ sample_record "city" "Pune"
           H Hr Hn eq_refl).
Defined.

Lemma testdash2_latest_first_witness :
  Testdash2.main no_date noon sample_values = Done sample_sorted
  /\ StronglySorted
       (fun a b => exists ta tb,
          row_get "posted_on" a = Time ta /\ row_get "posted_on" b = Time tb
          /\ tb <= ta)
       (rows sample_sorted).
Proof.
  assert (H : Testdash2.main no_date noon sample_values = Done sample_sorted)
    by reflexivity.
  split; [exact H|].
  exact (testdash2_latest_first no_date noon _ _ H).
Defined.

Lemma insights_add_up_witness :
  Testdash.insights sample_cleaned = Ok sample_summary
  /\ List.length (top_companies sample_summary)
     = Nat.min 5 (unique_companies sample_summary)
  /\ (list_sum (map snd (status_counts sample_summary))
      + List.length (filter (fun r => negb (notna (row_get "status" r)))
                            (rows sample_cleaned))
      = total_postings sample_summary)%nat
  /\ (list_sum (map snd (top_companies sample_summary))
      <= total_postings sample_summary)%nat.
Proof.
  assert (H : Testdash.insights sample_cleaned = Ok sample_summary)
    by reflexivity.
  split; [exact H|].
  destruct (insights_add_up _ _ H) as (A & _ & _ & B & C & _).
  split; [exact A|]. split; [exact B | exact C].
Defined.


Lemma update_table_without_data_witness :
  ((exists e, @Raise DataFrame ValueError = Raise e)
   \/ (exists df, @Raise DataFrame ValueError = Ok df /\ rows df = []))
  /\ MainDash.update_table (Raise ValueError) (Some ["Acme"]) None None
       (Some "aws")
     = Ok (MainDash.mkUpdate [] [] [] []).
Proof.
  assert (H : (exists e, @Raise DataFrame ValueError = Raise e)
              \/ (exists df, @Raise DataFrame ValueError = Ok df
                             /\ rows df = []))
    by (left; exists ValueError; reflexivity).
  split; [exact H|].
  exact (update_table_without_data _ (Some ["Acme"]) None None (Some "aws") H).
Defined.

Lemma update_table_needs_columns_witness :
  let fetched :=
    Ok (mkFrame ["Job Postings"; "Place"; "Status"]
          [[("Job Postings", Str "Engineer"); ("Place", Str "Pune");
            ("Status", Str "Open")]]) in
  empty (MainDash.load_data fetched) = false
  /\ occurrences "company" (columns (MainDash.load_data fetched)) = 0%nat
  /\ text_cells "company" (MainDash.load_data fetched)
  /\ text_cells "place" (MainDash.load_data fetched)
  /\ text_cells "status" (MainDash.load_data fetched)
  /\ MainDash.update_table fetched None None None None = Raise KeyError.
Proof.
  cbv zeta. split; [reflexivity|]. split; [reflexivity|].
  split; [repeat constructor|]. split; [repeat constructor|].
  split; [repeat constructor|].
  apply update_table_needs_columns;
    [reflexivity | apply Nat.le_0_l | apply Nat.le_refl | apply Nat.le_refl
    | repeat constructor | repeat constructor | repeat constructor
    | left; reflexivity].
Defined.

Lemma description_read_with_keywords_witness :
  let df := MainDash.load_data (Ok partial_frame) in
  empty df = false
  /\ occurrences "company" (columns df) = 1%nat
  /\ occurrences "place" (columns df) = 1%nat
  /\ occurrences "status" (columns df) = 1%nat
  /\ text_cells "company" df /\ text_cells "place" df
  /\ text_cells "status" df
  /\ occurrences "job_description" (columns df) = 0%nat
  /\ MainDash.update_table (Ok partial_frame) None None None (Some "aws")
     = Raise KeyError.
Proof.
  cbv zeta.
  assert (Tc : text_cells "company" (MainDash.load_data (Ok partial_frame)))
    by (repeat constructor).
  assert (Tp : text_cells "place" (MainDash.load_data (Ok partial_frame)))
    by (repeat constructor).
  assert (Ts : text_cells "status" (MainDash.load_data (Ok partial_frame)))
    by (repeat constructor).
  split; [reflexivity|]. split; [reflexivity|].
  split; [reflexivity|]. split; [reflexivity|].
  split; [exact Tc|]. split; [exact Tp|]. split; [exact Ts|].
  split; [reflexivity|].
  exact (description_read_with_keywords (Ok partial_frame) None None None
           (Some "aws") eq_refl eq_refl eq_refl eq_refl Tc Tp Ts eq_refl).
Defined.

Lemma keywords_are_alternatives_witness :
  "aws" <> EmptyString /\ "java" <> EmptyString
  /\ occurrences "job_description" (columns described_frame) = 1%nat
  /\ Forall (fun r => is_time (row_get "job_description" r) = false)
            (rows described_frame)
  /\ MainDash.terms_of "aws,java" = ["aws"; "java"].
Proof.
  assert (H1 : "aws" <> EmptyString) by discriminate.
  assert (H2 : "java" <> EmptyString) by discriminate.
  assert (H3 : occurrences "job_description" (columns described_frame)
               = 1%nat) by reflexivity.
  assert (H4 : Forall (fun r => is_time (row_get "job_description" r) = false)
                      (rows described_frame))
    by (repeat constructor).
  split; [exact H1|]. split; [exact H2|]. split; [exact H3|].
  split; [exact H4|].
  exact (proj1 (keywords_are_alternatives described_frame "aws" "java"
                  H1 H2 H3 H4)).
Defined.

Lemma drawer_style_round_trip_witness :
  let shown := MainDash.display_drawer (Some [1%nat])
                 (Some (rows described_frame)) sample_style in
  (exists d, shown = Ok (dict_set "right" "0%" sample_style, Some d))
  /\ 1 <> 0
  /\ MainDash.close_drawer (Some 1) (dict_set "right" "0%" sample_style)
     = sample_style.
Proof.
  cbv zeta.
  assert (H : MainDash.display_drawer (Some [1%nat])
                (Some (rows described_frame)) sample_style
              = Ok (dict_set "right" "0%" sample_style,
                    Some (MainDash.mkDrawer (Str "N/A") (Str "N/A")
                            (Str "N/A") (Str "N/A") (Str "N/A") (Str "#")
                            (MainDash.Bullets ["Java"]))))
    by reflexivity.
  assert (Hn : 1 <> 0) by discriminate.
  split; [eexists; exact H|]. split; [exact Hn|].
  exact (proj2 (proj2 (proj2 (drawer_style_round_trip _ _ _ _ _ 1 H Hn)))
           eq_refl).
Defined.

